(** * Health_system.py: record validation, Luhn checksum, flexible dates

    A shallow embedding of the validation core of [Health_system.py]
    ([luhn_check], [parse_date_flex], [age_in_years], [validate_record] and
    the partitioning loop of [main]) together with the pieces of the Python
    runtime that this code calls: [str] methods, [int], [datetime.strptime],
    [date] comparison, [date - timedelta] and [date.isoformat].

    Around that core: the loops of [extract_records_from_pdf] over the
    tables that pdfplumber finds on the pages, the lines of
    [write_error_report], the text of [write_valid_csv] as [csv.DictWriter]
    writes it in its default dialect, and the body of [main] from the
    extraction on.  Files, the command line and the clock are outside the
    embedding: the tables, the current date and the text of the current
    time are inputs, the two texts written are outputs; [main_run] adds
    what the utf-8 encoding of the files does to a text with a surrogate
    code point.

    A Python [str] is a sequence of Unicode code points.  The character
    classes consulted by [str.strip], [str.isdigit], [str.isalpha],
    [str.isupper], [int] and the regular expressions of [strptime] come from
    the Unicode character database; the development is parametric in that
    database (class [Unicode]), and an excerpt of it that is exact on
    U+0000..U+00FF is used to run the code on concrete inputs. *)

From Stdlib Require Import ZArith NArith List Bool Lia Sorted.
From Stdlib Require Import Strings.String Strings.Ascii.
From stdpp Require Import gmap.

Import ListNotations.
Local Open Scope Z_scope.

(** ** Exceptions *)

(** The exceptions that the modelled code can raise. *)
Inductive exn : Set :=
| ValueError
| IndexError
| OverflowError.

(** The outcome of running a piece of Python: a value, or a raised
    exception that propagates to the caller. *)
Inductive result (A : Type) : Type :=
| Ok (a : A)
| Raise (e : exn).

Arguments Ok {A} a.
Arguments Raise {A} e.

#[global] Instance result_ret : MRet result := @Ok.

#[global] Instance result_bind : MBind result :=
  fun A B f m => match m with Ok a => f a | Raise e => Raise e end.

(** Reduce the binds of [result] in the goal. *)
Ltac bind_simpl := unfold mbind, result_bind; cbn beta iota.

Tactic Notation "bind_simpl" "in" hyp(H) :=
  unfold mbind, result_bind in H; cbn beta iota in H.

(** ** Strings *)

(** A character is its code point; a [str] is a list of characters. *)
Definition char : Set := N.
Definition str : Set := list char.

(** A string literal of the source (they are all ASCII). *)
Definition u (s : string) : str := List.map N_of_ascii (list_ascii_of_string s).

Arguments u : simpl never.

(** Truth value of a [str]: empty is false. *)
Definition truthy (s : str) : bool :=
  match s with [] => false | _ :: _ => true end.

(** The per-character tables of the Unicode database that the runtime
    consults.  [uni_decimal] is [Py_UNICODE_TODECIMAL] (the value of a
    character of category Nd), [uni_isdigit] is [Py_UNICODE_ISDIGIT]
    (Numeric_Type Digit or Decimal), the others are the like-named
    [Py_UNICODE_IS...] predicates. *)
Class Unicode : Type := {
  uni_isspace : char -> bool;
  uni_decimal : char -> option Z;
  uni_isdigit : char -> bool;
  uni_isalpha : char -> bool;
  uni_isupper : char -> bool;
  uni_islower : char -> bool;
  uni_istitle : char -> bool
}.

Section Runtime.
Context {U : Unicode}.

(** [str.lstrip()], [str.rstrip()], [str.strip()]: drop white space at the
    ends. *)
Fixpoint lstrip (s : str) : str :=
  match s with
  | [] => []
  | c :: t => if uni_isspace c then lstrip t else s
  end.

Definition rstrip (s : str) : str := rev (lstrip (rev s)).

Definition strip (s : str) : str := rstrip (lstrip s).

(** [s.replace(" ", "")]: delete every occurrence of the one-character
    string [old]. *)
Definition replace_char (old : char) (s : str) : str :=
  List.filter (fun c => negb (N.eqb c old)) s.

(** [str.isdigit()], [str.isalpha()]: every character is in the class, and
    there is at least one. *)
Definition isdigit (s : str) : bool := truthy s && forallb uni_isdigit s.

Definition isalpha (s : str) : bool := truthy s && forallb uni_isalpha s.

(** [str.isupper()] (unicode_isupper_impl): no character is lowercase or
    titlecase, and at least one is uppercase. *)
Fixpoint isupper_loop (s : str) (cased : bool) : bool :=
  match s with
  | [] => cased
  | c :: t =>
      if uni_islower c || uni_istitle c then false
      else isupper_loop t (cased || uni_isupper c)
  end.

Definition isupper (s : str) : bool :=
  match s with
  | [] => false
  | [c] => uni_isupper c
  | _ => isupper_loop s false
  end.

(** [int(s)] on the strings that reach it in this program: decimal
    characters, possibly surrounded by white space (no sign, no underscore).
    Anything else is a [ValueError].  [int] first maps every non-ASCII
    white-space character to a space, then skips the C-locale white space
    (tab to carriage return, and space) at both ends. *)
Definition int_isspace (c : char) : bool :=
  ((9 <=? c) && (c <=? 13) || (c =? 32) || (128 <=? c) && uni_isspace c)%N.

Fixpoint int_lskip (s : str) : str :=
  match s with
  | [] => []
  | c :: t => if int_isspace c then int_lskip t else s
  end.

Fixpoint int_digits (s : str) (acc : Z) : result Z :=
  match s with
  | [] => Ok acc
  | c :: t =>
      match uni_decimal c with
      | Some v => int_digits t (10 * acc + v)
      | None => Raise ValueError
      end
  end.

Definition py_int (s : str) : result Z :=
  match rev (int_lskip (rev (int_lskip s))) with
  | [] => Raise ValueError
  | t => int_digits t 0
  end.

(** ** luhn_check *)

(** [[int(d) for d in number]] *)
Fixpoint int_each (number : str) : result (list Z) :=
  match number with
  | [] => Ok []
  | d :: t =>
      v ← py_int [d];
      vs ← int_each t;
      Ok (v :: vs)
  end.

(** [digits[-1]] *)
Definition last_item (digits : list Z) : result Z :=
  match rev digits with
  | [] => Raise IndexError
  | x :: _ => Ok x
  end.

(** The [for i, d in enumerate(digits)] loop; [i] is the index of the head
    of [digits]. *)
Fixpoint luhn_loop (i : nat) (digits : list Z) (total : Z) : Z :=
  match digits with
  | [] => total
  | d :: t =>
      let d :=
        if Nat.even i then
          let d := d * 2 in
          if 9 <? d then d - 9 else d
        else d in
      luhn_loop (S i) t (total + d)
  end.

Definition luhn_check (number : str) : result bool :=
  if negb (isdigit number) then Ok false
  else
    digits ← int_each number;
    check_digit ← last_item digits;
    let digits := rev (removelast digits) in
    let total := luhn_loop 0 digits 0 in
    Ok ((total + check_digit) mod 10 =? 0).

End Runtime.

(** ** Dates *)

(** A [datetime.date]: a day of the proleptic Gregorian calendar. *)
Record date : Set := mkdate { year : Z; month : Z; day : Z }.

Definition MINYEAR : Z := 1.
Definition MAXYEAR : Z := 9999.
Definition MAXORDINAL : Z := 3652059.

(** [_is_leap], [_DAYS_IN_MONTH], [_DAYS_BEFORE_MONTH], [_days_in_month],
    [_days_before_month] and [_days_before_year] of the datetime module. *)
Definition is_leap (y : Z) : bool :=
  (y mod 4 =? 0) && (negb (y mod 100 =? 0) || (y mod 400 =? 0)).

Definition DAYS_IN_MONTH : list Z :=
  [-1; 31; 28; 31; 30; 31; 30; 31; 31; 30; 31; 30; 31].

Definition DAYS_BEFORE_MONTH : list Z :=
  [-1; 0; 31; 59; 90; 120; 151; 181; 212; 243; 273; 304; 334].

Definition days_in_month (y m : Z) : Z :=
  if (m =? 2) && is_leap y then 29 else nth (Z.to_nat m) DAYS_IN_MONTH 0.

Definition days_before_month (y m : Z) : Z :=
  nth (Z.to_nat m) DAYS_BEFORE_MONTH 0
  + (if (2 <? m) && is_leap y then 1 else 0).

Definition days_before_year (y : Z) : Z :=
  let y := y - 1 in
  y * 365 + y / 4 - y / 100 + y / 400.

(** The check that the [date] constructor makes on its arguments. *)
Definition date_ok (y m d : Z) : bool :=
  (MINYEAR <=? y) && (y <=? MAXYEAR) && (1 <=? m) && (m <=? 12)
  && (1 <=? d) && (d <=? days_in_month y m).

Definition date_valid (x : date) : Prop :=
  date_ok (year x) (month x) (day x) = true.

(** [date(y, m, d)] *)
Definition new_date (y m d : Z) : result date :=
  if date_ok y m d then Ok (mkdate y m d) else Raise ValueError.

(** [date.toordinal()]: January 1st of year 1 is day 1. *)
Definition toordinal (x : date) : Z :=
  days_before_year (year x) + days_before_month (year x) (month x) + day x.

Definition DI400Y : Z := 146097.
Definition DI100Y : Z := 36524.
Definition DI4Y : Z := 1461.

(** [date.fromordinal(n)] ([_ord2ymd] of the datetime module). *)
Definition fromordinal (n : Z) : date :=
  let n := n - 1 in
  let n400 := n / DI400Y in
  let n := n mod DI400Y in
  let y := n400 * 400 + 1 in
  let n100 := n / DI100Y in
  let n := n mod DI100Y in
  let n4 := n / DI4Y in
  let n := n mod DI4Y in
  let n1 := n / 365 in
  let n := n mod 365 in
  let y := y + n100 * 100 + n4 * 4 + n1 in
  if (n1 =? 4) || (n100 =? 4) then mkdate (y - 1) 12 31
  else
    let leapyear := (n1 =? 3) && (negb (n4 =? 24) || (n100 =? 3)) in
    let m := Z.shiftr (n + 50) 5 in
    let preceding :=
      nth (Z.to_nat m) DAYS_BEFORE_MONTH 0
      + (if (2 <? m) && leapyear then 1 else 0) in
    if n <? preceding then
      let m := m - 1 in
      let preceding :=
        preceding
        - (nth (Z.to_nat m) DAYS_IN_MONTH 0
           + (if (m =? 2) && leapyear then 1 else 0)) in
      mkdate y m (n - preceding + 1)
    else mkdate y m (n - preceding + 1).

(** Comparison of dates: on the (year, month, day) triples. *)
Definition date_lt (a b : date) : bool :=
  (year a <? year b)
  || (year a =? year b)
     && ((month a <? month b) || (month a =? month b) && (day a <? day b)).

Definition date_gt (a b : date) : bool := date_lt b a.

(** [d - timedelta(days=k)] *)
Definition date_sub_days (d : date) (k : Z) : result date :=
  let o := toordinal d - k in
  if (0 <? o) && (o <=? MAXORDINAL) then Ok (fromordinal o)
  else Raise OverflowError.

(** Decimal digits of a non-negative integer, most significant first. *)
Fixpoint dec_digits (fuel : nat) (n : Z) (acc : str) : str :=
  match fuel with
  | O => acc
  | S f =>
      let acc := Z.to_N (48 + n mod 10) :: acc in
      if n <? 10 then acc else dec_digits f (n / 10) acc
  end.

(** ["%0<w>d" % n] for [0 <= n] *)
Definition zero_pad (w : nat) (n : Z) : str :=
  let s := dec_digits (S (Z.to_nat (Z.log2 n))) n [] in
  repeat 48%N (w - length s) ++ s.

(** [date.isoformat()]: ["%04d-%02d-%02d" % (year, month, day)] *)
Definition isoformat (x : date) : str :=
  zero_pad 4 (year x) ++ u "-" ++ zero_pad 2 (month x) ++ u "-"
  ++ zero_pad 2 (day x).

(** ** datetime.strptime *)

(** The fragment of regular expressions that [_strptime] builds for the
    directives used here. *)
Inductive regex : Set :=
| RChar (c : char)
| RRange (lo hi : char)
| RDigit
| RSeq (r1 r2 : regex)
| RAlt (r1 r2 : regex).

(** One element of a compiled format: a literal character, or the named
    group of a directive. *)
Inductive item : Set :=
| Lit (c : char)
| Dir (k : char) (r : regex).

Definition chr (a : ascii) : char := N_of_ascii a.

Arguments chr : simpl never.

(** The entries ['d'], ['m'] and ['Y'] of [TimeRE]:
    [3[0-1]|[1-2]\d|0[1-9]|[1-9]| [1-9]], [1[0-2]|0[1-9]|[1-9]] and
    [\d\d\d\d]. *)
Definition re_d : regex :=
  RAlt (RSeq (RChar (chr "3")) (RRange (chr "0") (chr "1")))
 (RAlt (RSeq (RRange (chr "1") (chr "2")) RDigit)
 (RAlt (RSeq (RChar (chr "0")) (RRange (chr "1") (chr "9")))
 (RAlt (RRange (chr "1") (chr "9"))
       (RSeq (RChar (chr " ")) (RRange (chr "1") (chr "9")))))).

Definition re_m : regex :=
  RAlt (RSeq (RChar (chr "1")) (RRange (chr "0") (chr "2")))
 (RAlt (RSeq (RChar (chr "0")) (RRange (chr "1") (chr "9")))
       (RRange (chr "1") (chr "9"))).

Definition re_Y : regex := RSeq RDigit (RSeq RDigit (RSeq RDigit RDigit)).

Definition TimeRE (k : char) : option regex :=
  if N.eqb k (chr "d") then Some re_d
  else if N.eqb k (chr "m") then Some re_m
  else if N.eqb k (chr "Y") then Some re_Y
  else None.

(** [TimeRE.pattern]: the format with every directive replaced by its
    group.  A directive outside the table is a [KeyError] and a trailing
    [%] an [IndexError], both turned into [ValueError] by [_strptime].  The
    formats of this program hold, besides directives, only ["-"] and ["/"],
    which stand for themselves. *)
Fixpoint pattern (format : str) : result (list item) :=
  match format with
  | [] => Ok []
  | c :: rest =>
      if N.eqb c (chr "%") then
        match rest with
        | [] => Raise ValueError
        | k :: rest' =>
            match TimeRE k with
            | Some r => items ← pattern rest'; Ok (Dir k r :: items)
            | None => Raise ValueError
            end
        end
      else items ← pattern rest; Ok (Lit c :: items)
  end.

Section Program.
Context {U : Unicode}.

(** The matches of [r] at the start of [s], in the order in which the
    backtracking matcher tries them: each is the text consumed and the text
    left. *)
Fixpoint re_match (r : regex) (s : str) : list (str * str) :=
  match r with
  | RChar c =>
      match s with
      | x :: t => if N.eqb x c then [([x], t)] else []
      | [] => []
      end
  | RRange lo hi =>
      match s with
      | x :: t => if N.leb lo x && N.leb x hi then [([x], t)] else []
      | [] => []
      end
  | RDigit =>
      match s with
      | x :: t =>
          match uni_decimal x with Some _ => [([x], t)] | None => [] end
      | [] => []
      end
  | RSeq r1 r2 =>
      flat_map
        (fun '(m1, s1) =>
           List.map (fun '(m2, s2) => (m1 ++ m2, s2)) (re_match r2 s1))
        (re_match r1 s)
  | RAlt r1 r2 => re_match r1 s ++ re_match r2 s
  end.

(** The same for a compiled format; a match carries the text of each
    group. *)
Fixpoint format_match (items : list item) (s : str)
  : list (list (char * str) * str) :=
  match items with
  | [] => [([], s)]
  | Lit c :: items' =>
      match s with
      | x :: t => if N.eqb x c then format_match items' t else []
      | [] => []
      end
  | Dir k r :: items' =>
      flat_map
        (fun '(txt, s1) =>
           List.map (fun '(found, s2) => ((k, txt) :: found, s2))
             (format_match items' s1))
        (re_match r s)
  end.

(** [int(found_dict[k])] when the group [k] took part in the match, else
    the default. *)
Fixpoint group_int (k : char) (found : list (char * str)) (default : Z)
  : result Z :=
  match found with
  | [] => Ok default
  | (k', txt) :: found' =>
      if N.eqb k' k then py_int txt else group_int k found' default
  end.

(** [datetime.strptime(data_string, format).date()] for a format over
    [%Y], [%m], [%d] (each at most once) and literal characters:
    [format_regex.match] takes the first match in backtracking order, which
    must consume the whole string. *)
Definition strptime (data_string format : str) : result date :=
  items ← pattern format;
  match format_match items data_string with
  | [] => Raise ValueError
  | (found, rest) :: _ =>
      if truthy rest then Raise ValueError
      else
        y ← group_int (chr "Y") found 1900;
        m ← group_int (chr "m") found 1;
        d ← group_int (chr "d") found 1;
        new_date y m d
  end.

(** ** parse_date_flex *)

Definition patterns : list str :=
  [ u "%Y-%m-%d";
    u "%Y/%m/%d";
    u "%d-%m-%Y";
    u "%d/%m/%Y";
    u "%Y%m%d" ].

(** The loop [for pattern in patterns: try ... except ValueError:
    continue]; [None] when it runs to its end. *)
Fixpoint try_patterns (date_str : str) (ps : list str)
  : result (option date) :=
  match ps with
  | [] => Ok None
  | p :: ps' =>
      match strptime date_str p with
      | Ok dt => Ok (Some dt)
      | Raise ValueError => try_patterns date_str ps'
      | Raise e => Raise e
      end
  end.

Definition MSG_EMPTY : str := u " is empty".
Definition MSG_NOT_A_DATE : str :=
  u " is not a valid date in supported formats (expected something like YYYY-MM-DD)".

(** Returns the parsed date (or [None]) and the list [errors] as the call
    leaves it. *)
Definition parse_date_flex (date_str field_name : str) (errors : list str)
  : result (option date * list str) :=
  if negb (truthy date_str) || negb (truthy (strip date_str)) then
    Ok (None, errors ++ [field_name ++ MSG_EMPTY])
  else
    let date_str := strip date_str in
    r ← try_patterns date_str patterns;
    match r with
    | Some dt => Ok (Some dt, errors)
    | None => Ok (None, errors ++ [field_name ++ MSG_NOT_A_DATE])
    end.

(** ** age_in_years *)

(** [(a1, a2) < (b1, b2)] on tuples of integers. *)
Definition pair_lt (a b : Z * Z) : bool :=
  (fst a <? fst b) || (fst a =? fst b) && (snd a <? snd b).

Definition age_in_years (dob today : date) : Z :=
  let years := year today - year dob in
  if pair_lt (month today, day today) (month dob, day dob)
  then years - 1
  else years.

End Program.

(** ** validate_record *)

Record PatientRecord : Set := mkPatientRecord {
  PatientID : str;
  HealthCardNumber : str;
  VersionCode : str;
  DateOfBirth : str;
  ServiceDate : str
}.

(** [x or y] for [x] a [str] or [None] and [y] a [str]: [x] when it is
    true (neither [None] nor empty), else [y]. *)
Definition py_or (x : option str) (y : str) : str :=
  match x with
  | Some s => if truthy s then s else y
  | None => y
  end.

Definition E_HC_MISSING : str := u "Health card number is missing".
Definition E_HC_DIGITS : str := u "Health card number must contain only digits".
Definition E_HC_LENGTH : str := u "Health card number must be exactly 10 digits".
Definition E_HC_LUHN : str :=
  u "Health card number failed MOD 10 (Luhn) validation".
Definition E_VC_MISSING : str := u "Version code is missing".
Definition E_VC_LENGTH : str := u "Version code must be exactly 2 characters".
Definition E_VC_ALPHA : str := u "Version code must contain only letters A-Z".
Definition E_VC_UPPER : str :=
  u "Version code must be uppercase letters (A-Z)".
Definition F_DOB : str := u "Date of birth".
Definition E_DOB_FUTURE : str := u "Date of birth is in the future".
Definition E_AGE_NEGATIVE : str := u "Patient age cannot be negative".
Definition E_AGE_150 : str := u "Patient age must be less than 150 years".
Definition F_SERVICE : str := u "Service date".
Definition E_SVC_FUTURE : str := u "Service date is in the future".
Definition E_SVC_BEFORE_DOB : str := u "Service date is before date of birth".
Definition E_SVC_OLD : str :=
  u "Service date is more than 6 months in the past".
Definition E_ID_MISSING : str := u "Patient ID is missing".

Section Validation.
Context {U : Unicode}.

(** The five fields as [validate_record] reads them from the raw record. *)
Definition get_patient_id (raw_record : gmap str str) : str :=
  strip (py_or (raw_record !! u "Patient ID")
           (py_or (raw_record !! u "PatientID") (u ""))).

Definition get_health_card (raw_record : gmap str str) : str :=
  strip (replace_char (chr " ")
           (py_or (raw_record !! u "Health Card Number") (u ""))).

Definition get_version_code (raw_record : gmap str str) : str :=
  strip (py_or (raw_record !! u "Version Code") (u "")).

Definition get_dob_str (raw_record : gmap str str) : str :=
  strip (py_or (raw_record !! u "Date of Birth") (u "")).

Definition get_service_str (raw_record : gmap str str) : str :=
  strip (py_or (raw_record !! u "Service Date") (u "")).

Definition validate_record (raw_record : gmap str str) (today : date)
  : result (bool * list str * option PatientRecord) :=
  let errors : list str := [] in
  let patient_id := get_patient_id raw_record in
  let health_card := get_health_card raw_record in
  let version_code := get_version_code raw_record in
  let dob_str := get_dob_str raw_record in
  let service_str := get_service_str raw_record in
  (* Rule 1: Health Card Number *)
  errors ←
    (if negb (truthy health_card) then Ok (errors ++ [E_HC_MISSING])
     else if negb (isdigit health_card) then Ok (errors ++ [E_HC_DIGITS])
     else if negb (length health_card =? 10)%nat
          then Ok (errors ++ [E_HC_LENGTH])
     else
       ok ← luhn_check health_card;
       if negb ok then Ok (errors ++ [E_HC_LUHN]) else Ok errors);
  (* Rule 2: Version Code *)
  let errors :=
    if negb (truthy version_code) then errors ++ [E_VC_MISSING]
    else if negb (length version_code =? 2)%nat then errors ++ [E_VC_LENGTH]
    else if negb (isalpha version_code) then errors ++ [E_VC_ALPHA]
    else if negb (isupper version_code) then errors ++ [E_VC_UPPER]
    else errors in
  (* Rule 3: Date of Birth *)
  '(dob, errors) ← parse_date_flex dob_str F_DOB errors;
  let errors :=
    match dob with
    | Some dob =>
        if date_gt dob today then errors ++ [E_DOB_FUTURE]
        else
          let age := age_in_years dob today in
          let errors :=
            if age <? 0 then errors ++ [E_AGE_NEGATIVE] else errors in
          if 150 <=? age then errors ++ [E_AGE_150] else errors
    | None => errors
    end in
  (* Rule 4: Service Date *)
  '(service_date, errors) ← parse_date_flex service_str F_SERVICE errors;
  errors ←
    match service_date with
    | Some service_date =>
        let errors :=
          if date_gt service_date today then errors ++ [E_SVC_FUTURE]
          else errors in
        let errors :=
          match dob with
          | Some dob =>
              if date_lt service_date dob then errors ++ [E_SVC_BEFORE_DOB]
              else errors
          | None => errors
          end in
        six_months_ago ← date_sub_days today 183;
        if date_lt service_date six_months_ago then Ok (errors ++ [E_SVC_OLD])
        else Ok errors
    | None => Ok errors
    end;
  (* Patient ID presence *)
  let errors :=
    if negb (truthy patient_id) then errors ++ [E_ID_MISSING] else errors in
  let is_valid := (length errors =? 0)%nat in
  if negb is_valid then Ok (false, errors, None)
  else
    let dob_iso :=
      match dob with Some dob => isoformat dob | None => u "" end in
    let service_iso :=
      match service_date with
      | Some service_date => isoformat service_date
      | None => u ""
      end in
    let normalized_record :=
      mkPatientRecord patient_id health_card version_code dob_iso service_iso
    in
    Ok (true, [], Some normalized_record).

(** ** The validation loop of main *)

(** [for raw in raw_records: ...] with the two lists it appends to. *)
Fixpoint main_loop (raw_records : list (gmap str str)) (today : date)
    (valid_records : list PatientRecord) (error_info : list (str * list str))
  : result (list PatientRecord * list (str * list str)) :=
  match raw_records with
  | [] => Ok (valid_records, error_info)
  | raw :: rest =>
      '(is_valid, errors, normalized) ← validate_record raw today;
      let patient_id := get_patient_id raw in
      match is_valid, normalized with
      | true, Some normalized =>
          main_loop rest today (valid_records ++ [normalized]) error_info
      | _, _ =>
          main_loop rest today valid_records
            (error_info ++ [(patient_id, errors)])
      end
  end.

(** Lines 408 to 426 of [main]: the two lists and the three counts. *)
Definition main_validate (raw_records : list (gmap str str)) (today : date)
  : result (list PatientRecord * list (str * list str) * (nat * nat * nat)) :=
  '(valid_records, error_info) ← main_loop raw_records today [] [];
  let total_count := length raw_records in
  let valid_count := length valid_records in
  let invalid_count := length error_info in
  Ok (valid_records, error_info, (total_count, valid_count, invalid_count)).

End Validation.

(** ** An excerpt of the Unicode database *)

Definition in_ranges (rs : list (char * char)) (c : char) : bool :=
  existsb (fun '(lo, hi) => N.leb lo c && N.leb c hi) rs.

(** The tables for the blocks Basic Latin and Latin-1 Supplement
    (U+0000..U+00FF), for every white-space character, and for the ideograph
    U+4E2D (a letter that has no case).  The excerpt gives a code point that
    is not listed none of the properties, so it is the database on the
    listed code points only (the digits and letters of other scripts are
    missing): it serves to run the code on inputs made of listed code
    points, and what is stated of arbitrary strings is stated for an
    arbitrary database. *)
Definition unicode_excerpt : Unicode := {|
  uni_isspace :=
    in_ranges [(0x09, 0x0D); (0x1C, 0x20); (0x85, 0x85); (0xA0, 0xA0);
               (0x1680, 0x1680); (0x2000, 0x200A); (0x2028, 0x2029);
               (0x202F, 0x202F); (0x205F, 0x205F); (0x3000, 0x3000)]%N;
  uni_decimal := fun c =>
    if in_ranges [(0x30, 0x39)]%N c then Some (Z.of_N c - 48) else None;
  uni_isdigit := in_ranges [(0x30, 0x39); (0xB2, 0xB3); (0xB9, 0xB9)]%N;
  uni_isalpha :=
    in_ranges [(0x41, 0x5A); (0x61, 0x7A); (0xAA, 0xAA); (0xB5, 0xB5);
               (0xBA, 0xBA); (0xC0, 0xD6); (0xD8, 0xF6); (0xF8, 0xFF);
               (0x4E2D, 0x4E2D)]%N;
  uni_isupper := in_ranges [(0x41, 0x5A); (0xC0, 0xD6); (0xD8, 0xDE)]%N;
  uni_islower :=
    in_ranges [(0x61, 0x7A); (0xAA, 0xAA); (0xB5, 0xB5); (0xBA, 0xBA);
               (0xDF, 0xF6); (0xF8, 0xFF)]%N;
  uni_istitle := fun _ => false
|}.

(** ** Definitions used by the statements and proofs below *)

(** The month and day that [fromordinal] computes in its last step from
    [n], the 0-based day of the year. *)
Definition month_day (n : Z) (leapyear : bool) : Z * Z :=
  let m := Z.shiftr (n + 50) 5 in
  let preceding :=
    nth (Z.to_nat m) DAYS_BEFORE_MONTH 0
    + (if (2 <? m) && leapyear then 1 else 0) in
  if n <? preceding then
    let m := m - 1 in
    let preceding :=
      preceding
      - (nth (Z.to_nat m) DAYS_IN_MONTH 0
         + (if (m =? 2) && leapyear then 1 else 0)) in
    (m, n - preceding + 1)
  else (m, n - preceding + 1).

(** A year that is leap or not, as asked. *)
Definition year_like (leap : bool) : Z := if leap then 4 else 1.

Definition month_day_ok (leap : bool) (n : Z) : bool :=
  let '(m, d) := month_day n leap in
  (1 <=? m) && (m <=? 12) && (1 <=? d)
  && (d <=? days_in_month (year_like leap) m)
  && (days_before_month (year_like leap) m + d =? n + 1).

(** The blocks of [validate_record], each as a function of the list
    [errors] that it extends ([validate_record_blocks] below puts them
    together again). *)
Section Blocks.
Context {U : Unicode}.

Definition rule1 (health_card : str) (errors : list str)
  : result (list str) :=
  if negb (truthy health_card) then Ok (errors ++ [E_HC_MISSING])
  else if negb (isdigit health_card) then Ok (errors ++ [E_HC_DIGITS])
  else if negb (length health_card =? 10)%nat
       then Ok (errors ++ [E_HC_LENGTH])
  else
    ok ← luhn_check health_card;
    if negb ok then Ok (errors ++ [E_HC_LUHN]) else Ok errors.

Definition rule2 (version_code : str) (errors : list str) : list str :=
  if negb (truthy version_code) then errors ++ [E_VC_MISSING]
  else if negb (length version_code =? 2)%nat then errors ++ [E_VC_LENGTH]
  else if negb (isalpha version_code) then errors ++ [E_VC_ALPHA]
  else if negb (isupper version_code) then errors ++ [E_VC_UPPER]
  else errors.

Definition rule3 (dob : option date) (today : date) (errors : list str)
  : list str :=
  match dob with
  | Some dob =>
      if date_gt dob today then errors ++ [E_DOB_FUTURE]
      else
        let age := age_in_years dob today in
        let errors :=
          if age <? 0 then errors ++ [E_AGE_NEGATIVE] else errors in
        if 150 <=? age then errors ++ [E_AGE_150] else errors
  | None => errors
  end.

Definition rule4 (service_date dob : option date) (today : date)
    (errors : list str) : result (list str) :=
  match service_date with
  | Some service_date =>
      let errors :=
        if date_gt service_date today then errors ++ [E_SVC_FUTURE]
        else errors in
      let errors :=
        match dob with
        | Some dob =>
            if date_lt service_date dob then errors ++ [E_SVC_BEFORE_DOB]
            else errors
        | None => errors
        end in
      six_months_ago ← date_sub_days today 183;
      if date_lt service_date six_months_ago then Ok (errors ++ [E_SVC_OLD])
      else Ok errors
  | None => Ok errors
  end.

Definition rule5 (patient_id : str) (errors : list str) : list str :=
  if negb (truthy patient_id) then errors ++ [E_ID_MISSING] else errors.

(** The record that [validate_record] builds when no rule failed. *)
Definition normalized (raw_record : gmap str str)
    (dob service_date : option date) : PatientRecord :=
  mkPatientRecord (get_patient_id raw_record) (get_health_card raw_record)
    (get_version_code raw_record)
    (match dob with Some dob => isoformat dob | None => u "" end)
    (match service_date with
     | Some service_date => isoformat service_date
     | None => u ""
     end).

Definition decide_validity (raw_record : gmap str str)
    (dob service_date : option date) (errors : list str)
  : result (bool * list str * option PatientRecord) :=
  if negb (length errors =? 0)%nat then Ok (false, errors, None)
  else Ok (true, [], Some (normalized raw_record dob service_date)).

(** What [parse_date_flex] returns and what it appends, apart. *)
Definition parse_date (date_str : str) : option date :=
  if truthy (strip date_str) then
    match try_patterns (strip date_str) patterns with
    | Ok r => r
    | Raise _ => None
    end
  else None.

Definition parse_errors (field_name date_str : str) : list str :=
  if negb (truthy (strip date_str)) then [field_name ++ MSG_EMPTY]
  else
    match parse_date date_str with
    | Some _ => []
    | None => [field_name ++ MSG_NOT_A_DATE]
    end.

(** The list [errors] at the end of [validate_record], rule by rule. *)
Definition collect_errors (raw_record : gmap str str) (today : date)
  : result (list str) :=
  let dob := parse_date (get_dob_str raw_record) in
  let service_date := parse_date (get_service_str raw_record) in
  e1 ← rule1 (get_health_card raw_record) [];
  e4 ← rule4 service_date dob today [];
  Ok (e1
      ++ rule2 (get_version_code raw_record) []
      ++ (parse_errors F_DOB (get_dob_str raw_record) ++ rule3 dob today [])
      ++ (parse_errors F_SERVICE (get_service_str raw_record) ++ e4)
      ++ rule5 (get_patient_id raw_record) []).

End Blocks.

(** Equality of strings, and the rule that a message belongs to: 1 for the
    health card number, 2 for the version code, 3 for the date of birth, 4
    for the service date, 5 for the identifier (0 for any other text). *)
Fixpoint str_eqb (a b : str) : bool :=
  match a, b with
  | [], [] => true
  | x :: a', y :: b' => N.eqb x y && str_eqb a' b'
  | _, _ => false
  end.

Definition RULE1_MESSAGES : list str :=
  [E_HC_MISSING; E_HC_DIGITS; E_HC_LENGTH; E_HC_LUHN].
Definition RULE2_MESSAGES : list str :=
  [E_VC_MISSING; E_VC_LENGTH; E_VC_ALPHA; E_VC_UPPER].
Definition RULE3_MESSAGES : list str :=
  [F_DOB ++ MSG_EMPTY; F_DOB ++ MSG_NOT_A_DATE; E_DOB_FUTURE;
   E_AGE_NEGATIVE; E_AGE_150].
Definition RULE4_MESSAGES : list str :=
  [F_SERVICE ++ MSG_EMPTY; F_SERVICE ++ MSG_NOT_A_DATE; E_SVC_FUTURE;
   E_SVC_BEFORE_DOB; E_SVC_OLD].
Definition RULE5_MESSAGES : list str := [E_ID_MISSING].

Definition rule_of (msg : str) : nat :=
  if existsb (str_eqb msg) RULE1_MESSAGES then 1
  else if existsb (str_eqb msg) RULE2_MESSAGES then 2
  else if existsb (str_eqb msg) RULE3_MESSAGES then 3
  else if existsb (str_eqb msg) RULE4_MESSAGES then 4
  else if existsb (str_eqb msg) RULE5_MESSAGES then 5
  else 0.

(** The outcomes of the records of a batch, in input order, and the two
    lists that [main] makes of them. *)
Definition outcome : Type := bool * list str * option PatientRecord.

Section Batch.
Context {U : Unicode}.

Fixpoint validate_each (raw_records : list (gmap str str)) (today : date)
  : result (list outcome) :=
  match raw_records with
  | [] => Ok []
  | raw :: rest =>
      o ← validate_record raw today;
      os ← validate_each rest today;
      Ok (o :: os)
  end.

Definition accepted (o : outcome) : option PatientRecord :=
  match o with
  | (true, _, Some normalized) => Some normalized
  | _ => None
  end.

Definition rejected (ro : gmap str str * outcome)
  : option (str * list str) :=
  match ro with
  | (_, (true, _, Some _)) => None
  | (raw, (_, errors, _)) => Some (get_patient_id raw, errors)
  end.

End Batch.

(** Looking a field up under a list of labels: the value of the first label
    that is present, and the value of the first label whose value is not
    empty (the empty string when there is none). *)
Fixpoint first_present (labels : list str) (raw : gmap str str) : str :=
  match labels with
  | [] => []
  | k :: ks =>
      match raw !! k with
      | Some s => s
      | None => first_present ks raw
      end
  end.

Fixpoint first_nonempty (labels : list str) (raw : gmap str str) : str :=
  match labels with
  | [] => []
  | k :: ks =>
      match raw !! k with
      | Some (c :: s) => c :: s
      | _ => first_nonempty ks raw
      end
  end.

(** No white space at either end. *)
Definition stripped {U : Unicode} (s : str) : Prop :=
  match s with
  | [] => True
  | c :: _ => uni_isspace c = false /\ uni_isspace (List.last s c) = false
  end.

(** ** Sample inputs *)

(** A raw record from (label, value) pairs. *)
Definition record_of (fields : list (string * string)) : gmap str str :=
  list_to_map (List.map (fun '(k, v) => (u k, u v)) fields).

Definition sample_today : date := mkdate 2025 1 1.

(** A record that passes every rule on [sample_today]. *)
Definition record_ok : gmap str str :=
  record_of [("Patient ID", "P001"); ("Health Card Number", "1234 567 897");
             ("Version Code", "ON"); ("Date of Birth", "1990-05-15");
             ("Service Date", "2025-01-01")]%string.

(** Scenario B of the specification: a short health card number, a
    lowercase version code and a date of birth in the future. *)
Definition record_B : gmap str str :=
  record_of [("Patient ID", "P001"); ("Health Card Number", "12345");
             ("Version Code", "on"); ("Date of Birth", "2999-01-01");
             ("Service Date", "2025-01-01")]%string.

(** Service dates 183 and 184 days before [sample_today]. *)
Definition record_183 : gmap str str :=
  <[u "Service Date" := u "2024-07-02"]> record_ok.

Definition record_184 : gmap str str :=
  <[u "Service Date" := u "2024-07-01"]> record_ok.

(** SUPERSCRIPT TWO, a digit for [str.isdigit] that [int] rejects, and a
    health card number made of ten of them. *)
Definition SUPERSCRIPT_TWO : char := 0xB2%N.

Definition record_superscript : gmap str str :=
  <[u "Health Card Number" := repeat SUPERSCRIPT_TWO 10]> record_ok.

(** The ideograph U+4E2D, a letter without case, in a version code. *)
Definition CJK_MIDDLE : char := 0x4E2D%N.

Definition record_ideograph : gmap str str :=
  <[u "Version Code" := [chr "A"; CJK_MIDDLE]]> record_ok.

(** Both identifier labels, the first with an empty value; and a health
    card number with a tab in it. *)
Definition record_two_ids : gmap str str :=
  record_of [("Patient ID", ""); ("PatientID", "P2")]%string.

Definition CHARACTER_TABULATION : char := 9%N.

Definition record_tab : gmap str str :=
  {[ u "Health Card Number" :=
       u "1234" ++ [CHARACTER_TABULATION] ++ u "567890" ]}.

(** The MOD-10 computation as the specification words it: the last digit
    is the check digit; the others are taken from the nearest outward;
    those at an even position (from 0) are doubled, less 9 when the double
    exceeds 9; the sum of all, check digit included, must be divisible by
    10. *)
Definition luhn_transform (i : nat) (d : Z) : Z :=
  if Nat.even i then (if 9 <? 2 * d then 2 * d - 9 else 2 * d) else d.

Definition Zsum (l : list Z) : Z := fold_right Z.add 0 l.

Definition luhn_reference (digits : list Z) : bool :=
  let check_digit := List.last digits 0 in
  let nearest_first := rev (removelast digits) in
  (Zsum (imap luhn_transform nearest_first) + check_digit) mod 10 =? 0.

(** The value of an ASCII digit. *)
Definition ascii_digit_value (c : char) : Z := Z.of_N c - 48.

Definition is_ascii_digit (c : char) : bool := (48 <=? c)%N && (c <=? 57)%N.

(** The first identifier label with a value of white space only. *)
Definition record_blank_id : gmap str str :=
  record_of [("Patient ID", "  "); ("PatientID", "P2")]%string.

(** The labels that [validate_record] looks up. *)
Definition LABELS : list str :=
  [u "Patient ID"; u "PatientID"; u "Health Card Number"; u "Version Code";
   u "Date of Birth"; u "Service Date"].

(** A record that breaks as many rules as one record can: no health card
    number, no version code, a date of birth in the future, a service date
    in the future and before the date of birth, no identifier. *)
Definition record_six_errors : gmap str str :=
  record_of [("Date of Birth", "2999-01-01");
             ("Service Date", "2998-01-01")]%string.

(** ** Reading the tables of the PDF *)

(** What [page.extract_table()] gives for a page: [None] when the page has
    no table, and otherwise the rows of the table, each a list of cells; a
    cell is a string or [None]. *)
Definition cell : Set := option str.
Definition table : Set := list (list cell).

Section Extraction.
Context {U : Unicode}.

(** [str(col).strip()], and [""] for [None] (lines 270 to 274 and 290) *)
Definition cell_text (c : cell) : str :=
  match c with
  | None => u ""
  | Some s => strip s
  end.

(** [cell is None or str(cell).strip() == ""] *)
Definition cell_blank (c : cell) : bool :=
  match c with
  | None => true
  | Some s => str_eqb (strip s) (u "")
  end.

(** [for idx, cell in enumerate(row): ...] on the dictionary [row_dict] *)
Fixpoint fill_row (headers : list str) (idx : nat) (row : list cell)
    (row_dict : gmap str str) : gmap str str :=
  match row with
  | [] => row_dict
  | c :: rest =>
      if (length headers <=? idx)%nat
      then fill_row headers (S idx) rest row_dict
      else
        let key := nth idx headers (u "") in
        let value := cell_text c in
        fill_row headers (S idx) rest (<[key := value]> row_dict)
  end.

(** [for row in table[1:]: ...], appending to [records] *)
Fixpoint extract_rows (headers : list str) (rows : list (list cell))
    (records : list (gmap str str)) : list (gmap str str) :=
  match rows with
  | [] => records
  | row :: rest =>
      match row with
      | [] => extract_rows headers rest records
      | _ :: _ =>
          if forallb cell_blank row then extract_rows headers rest records
          else
            let row_dict := fill_row headers 0 row ∅ in
            extract_rows headers rest (records ++ [row_dict])
      end
  end.

(** [for page in pdf.pages: ...] *)
Fixpoint extract_pages (pages : list (option table))
    (records : list (gmap str str)) : list (gmap str str) :=
  match pages with
  | [] => records
  | page :: rest =>
      match page with
      | None | Some [] => extract_pages rest records
      | Some ([] :: _) => extract_pages rest records
      | Some (((_ :: _) as header_row) :: data) =>
          let headers := List.map cell_text header_row in
          extract_pages rest (extract_rows headers data records)
      end
  end.

(** Lines 255 to 297 of [extract_records_from_pdf], on the tables that
    pdfplumber finds on the pages of the file. *)
Definition extract_records_from_pdf (pages : list (option table))
  : list (gmap str str) :=
  extract_pages pages [].

End Extraction.
(** The loops of the extraction read as comprehensions: the pairs of a
    header and the text of the cell below it, a later pair taking the place
    of an earlier one with the same header, for the rows that are not
    blank. *)
Section ExtractionSpec.
Context {U : Unicode}.

Definition record_of_row (headers : list str) (row : list cell)
  : gmap str str :=
  list_to_map (rev (zip headers (List.map cell_text row))).

Definition records_of_page (page : option table) : list (gmap str str) :=
  match page with
  | Some (((_ :: _) as header_row) :: data) =>
      List.map (record_of_row (List.map cell_text header_row))
        (List.filter (fun row => negb (forallb cell_blank row)) data)
  | _ => []
  end.

(** The tables of a batch are well formed when the headers of a table are
    distinct and no row is longer than the header row. *)
Definition table_regular (page : option table) : Prop :=
  match page with
  | Some (header_row :: data) =>
      NoDup (List.map cell_text header_row)
      /\ List.Forall (fun row => (length row <= length header_row)%nat) data
  | _ => True
  end.

End ExtractionSpec.
(** A page with a table: the header row, an empty row, a row of blank
    cells and the row of [record_ok], with white space around some cells. *)
Definition cells (texts : list string) : list cell :=
  List.map (fun s => Some (u s)) texts.

Definition sample_page : option table :=
  Some [cells [" Patient ID"; "Health Card Number "; "Version Code";
               "Date of Birth"; "Service Date"]%string;
        [];
        [None; Some (u "  "); None];
        cells ["P001 "; "1234 567 897"; " ON"; "1990-05-15";
               "2025-01-01"]%string].

(** ** The error report *)

Definition LINE_FEED : char := 10%N.

(** [str(n)] for an integer (the counts in the f-strings) *)
Definition str_of_int (n : Z) : str :=
  if n <? 0 then u "-" ++ dec_digits (S (Z.to_nat (Z.log2 (- n)))) (- n) []
  else dec_digits (S (Z.to_nat (Z.log2 n))) n [].

(** [sep.join(lines)] *)
Fixpoint join (sep : str) (lines : list str) : str :=
  match lines with
  | [] => []
  | [l] => l
  | l :: rest => l ++ sep ++ join sep rest
  end.

Definition MISSING_PATIENT_ID : str := u "<MISSING_PATIENT_ID>".

(** [for err in errors: lines.append(f"- {err}")] *)
Fixpoint report_errors (errors : list str) (lines : list str) : list str :=
  match errors with
  | [] => lines
  | err :: rest => report_errors rest (lines ++ [u "- " ++ err])
  end.

(** [for patient_id, errors in error_info: ...] *)
Fixpoint report_records (error_info : list (str * list str))
    (lines : list str) : list str :=
  match error_info with
  | [] => lines
  | (patient_id, errors) :: rest =>
      let display_id :=
        if truthy patient_id then patient_id else MISSING_PATIENT_ID in
      let lines := lines ++ [u "Patient ID: " ++ display_id] in
      let lines := report_errors errors lines in
      let lines := lines ++ [u ""] in
      report_records rest lines
  end.

(** The list [lines] of [write_error_report]; [generated_at] is the text
    of the current time (line 334). *)
Definition report_lines (generated_at : str)
    (error_info : list (str * list str))
    (total_count valid_count invalid_count : Z) : list str :=
  let lines : list str := [] in
  let lines := lines ++ [u "ERROR REPORT"] in
  let lines := lines ++ [u "Generated: " ++ generated_at] in
  let lines :=
    lines ++ [u "Total Records Processed: " ++ str_of_int total_count] in
  let lines := lines ++ [u "Valid Records: " ++ str_of_int valid_count] in
  let lines := lines ++ [u "Invalid Records: " ++ str_of_int invalid_count] in
  let lines := lines ++ [u ""] in
  let lines := lines ++ [u "INVALID RECORDS:"] in
  if invalid_count =? 0 then lines ++ [u "(none)"]
  else report_records error_info lines.

(** The text that [write_error_report] writes to the file. *)
Definition write_error_report (generated_at : str)
    (error_info : list (str * list str))
    (total_count valid_count invalid_count : Z) : str :=
  join [LINE_FEED]
    (report_lines generated_at error_info total_count valid_count
       invalid_count).

(** [s.startswith(p)] *)
Fixpoint startswith (p s : str) : bool :=
  match p, s with
  | [], _ => true
  | _ :: _, [] => false
  | x :: p', y :: s' => N.eqb x y && startswith p' s'
  end.

(** The head of the report, and the heading and the error lines for one
    rejected record. *)
Definition report_head (generated_at : str)
    (total_count valid_count invalid_count : Z) : list str :=
  [u "ERROR REPORT";
   u "Generated: " ++ generated_at;
   u "Total Records Processed: " ++ str_of_int total_count;
   u "Valid Records: " ++ str_of_int valid_count;
   u "Invalid Records: " ++ str_of_int invalid_count;
   u "";
   u "INVALID RECORDS:"].

Definition report_heading (entry : str * list str) : str :=
  u "Patient ID: "
  ++ (if truthy entry.1 then entry.1 else MISSING_PATIENT_ID).

Definition report_block (entry : str * list str) : list str :=
  [report_heading entry] ++ List.map (fun err => u "- " ++ err) entry.2
  ++ [u ""].
(** ** The CSV file of the accepted records *)

Definition COMMA : char := chr ",".
Definition QUOTATION_MARK : char := 34%N.
Definition CARRIAGE_RETURN : char := 13%N.

(** [csv.writer] with the default dialect: a field is quoted when it holds
    the delimiter, the quote character or a character of the line
    terminator; a quote character inside it is doubled; a row is its
    fields joined by commas and ends with CR LF; a row of one empty field
    is written as a pair of quotes. *)
Definition csv_special (c : char) : bool :=
  N.eqb c COMMA || N.eqb c QUOTATION_MARK || N.eqb c CARRIAGE_RETURN
  || N.eqb c LINE_FEED.

Definition csv_escape (s : str) : str :=
  flat_map
    (fun c => if N.eqb c QUOTATION_MARK
              then [QUOTATION_MARK; QUOTATION_MARK] else [c]) s.

Definition csv_field (s : str) : str :=
  if existsb csv_special s
  then [QUOTATION_MARK] ++ csv_escape s ++ [QUOTATION_MARK]
  else s.

Definition csv_row (fields : list str) : str :=
  match fields with
  | [[]] => [QUOTATION_MARK; QUOTATION_MARK]
  | _ => join [COMMA] (List.map csv_field fields)
  end ++ [CARRIAGE_RETURN; LINE_FEED].

Definition fieldnames : list str :=
  [u "PatientID"; u "HealthCardNumber"; u "VersionCode"; u "DateOfBirth";
   u "ServiceDate"].

(** The values of [asdict(record)] in the order of [fieldnames]. *)
Definition record_values (record : PatientRecord) : list str :=
  [PatientID record; HealthCardNumber record; VersionCode record;
   DateOfBirth record; ServiceDate record].

(** [for record in valid_records: writer.writerow(asdict(record))] on the
    text [f] written so far *)
Fixpoint write_rows (valid_records : list PatientRecord) (f : str) : str :=
  match valid_records with
  | [] => f
  | record :: rest => write_rows rest (f ++ csv_row (record_values record))
  end.

(** The text that [write_valid_csv] writes to the file. *)
Definition write_valid_csv (valid_records : list PatientRecord) : str :=
  let f := csv_row fieldnames in
  write_rows valid_records f.

(** A reader of such a file, to say that the rows can be read back: the
    field and the row being read, the rows read, and where in a field the
    reader is. *)
Inductive csv_mode : Set := Plain | Quoted | QuoteSeen | LineEnd.

Record csv_reader : Set := mkReader {
  rd_mode : csv_mode;
  rd_field : str;
  rd_row : list str;
  rd_rows : list (list str)
}.

Definition csv_step (r : csv_reader) (c : char) : option csv_reader :=
  let '(mkReader mode field row rows) := r in
  match mode with
  | Plain =>
      if N.eqb c QUOTATION_MARK then
        match field with
        | [] => Some (mkReader Quoted [] row rows)
        | _ :: _ => None
        end
      else if N.eqb c COMMA then Some (mkReader Plain [] (row ++ [field]) rows)
      else if N.eqb c CARRIAGE_RETURN then Some (mkReader LineEnd field row rows)
      else if N.eqb c LINE_FEED then None
      else Some (mkReader Plain (field ++ [c]) row rows)
  | Quoted =>
      if N.eqb c QUOTATION_MARK then Some (mkReader QuoteSeen field row rows)
      else Some (mkReader Quoted (field ++ [c]) row rows)
  | QuoteSeen =>
      if N.eqb c QUOTATION_MARK
      then Some (mkReader Quoted (field ++ [c]) row rows)
      else if N.eqb c COMMA then Some (mkReader Plain [] (row ++ [field]) rows)
      else if N.eqb c CARRIAGE_RETURN then Some (mkReader LineEnd field row rows)
      else None
  | LineEnd =>
      if N.eqb c LINE_FEED
      then Some (mkReader Plain [] [] (rows ++ [row ++ [field]]))
      else None
  end.

Fixpoint csv_run (r : csv_reader) (text : str) : option csv_reader :=
  match text with
  | [] => Some r
  | c :: rest =>
      match csv_step r c with
      | Some r' => csv_run r' rest
      | None => None
      end
  end.

Definition csv_read (text : str) : option (list (list str)) :=
  match csv_run (mkReader Plain [] [] []) text with
  | Some (mkReader Plain [] [] rows) => Some rows
  | _ => None
  end.
(** ** main *)

(** What a run of [main] leaves behind when it reaches its end: the lines
    printed and the texts of the two files. *)
Record outputs : Set := mkOutputs {
  stdout : list str;
  valid_csv : str;
  error_report : str
}.

Definition WARNING_NO_RECORDS : str := u "[WARNING] No records found in PDF.".
Definition PROCESSING_COMPLETED : str := u "Processing completed.".

Section Main.
Context {U : Unicode}.

(** [main] from the extraction on (lines 395 to 443), on the tables of the
    pages of the file, with the current date [today] and the text
    [generated_at] of the current time.  An exception of the validation is
    not caught by [main]: it ends the run before anything is written.  The
    two texts are those handed to the files; that a file can refuse a text
    is left to [main_run] below, which adds the encoding and says what each
    file holds when a run ends early. *)
Definition main (pages : list (option table)) (today : date)
    (generated_at : str) : result outputs :=
  let raw_records := extract_records_from_pdf pages in
  let stdout : list str :=
    match raw_records with
    | [] => [WARNING_NO_RECORDS]
    | _ :: _ => []
    end in
  '(valid_records, error_info, (total_count, valid_count, invalid_count)) ←
    main_validate raw_records today;
  let csv := write_valid_csv valid_records in
  let report :=
    write_error_report generated_at error_info (Z.of_nat total_count)
      (Z.of_nat valid_count) (Z.of_nat invalid_count) in
  let stdout := stdout ++ [PROCESSING_COMPLETED] in
  Ok (mkOutputs stdout csv report).

End Main.

(** Pages that give no record: a page without table, a table of a header
    row only, and a table whose only data row is blank. *)
Definition pages_without_records : list (option table) :=
  [None;
   Some [cells ["Patient ID"; "Health Card Number"]%string];
   Some [cells ["Patient ID"; "Health Card Number"]%string;
         [None; Some (u " ")]]].

(** The sample page with a second row, whose health card number is made
    of superscript digits. *)
Definition pages_with_superscript : list (option table) :=
  [sample_page;
   Some [cells ["Patient ID"; "Health Card Number"]%string;
         [Some (u "P002"); Some (repeat SUPERSCRIPT_TWO 10)]]].

(** The character of a decimal digit. *)
Definition digit_char (v : Z) : char := Z.to_N (48 + v).

(** The raw record with the fields of a normalized record under the labels
    that [validate_record] reads. *)
Definition raw_of_normalized (record : PatientRecord) : gmap str str :=
  <[u "Patient ID" := PatientID record]>
  (<[u "Health Card Number" := HealthCardNumber record]>
  (<[u "Version Code" := VersionCode record]>
  (<[u "Date of Birth" := DateOfBirth record]>
  (<[u "Service Date" := ServiceDate record]> ∅)))).

(** A record that is accepted on [sample_today], with dates in two of the
    other formats and white space around the identifier. *)
Definition record_slashes : gmap str str :=
  record_of [("PatientID", " P001 "); ("Health Card Number", "1234 567 897");
             ("Version Code", "ON"); ("Date of Birth", "15/05/1990");
             ("Service Date", "20250101")]%string.

(** The lines of a text as [text.split("\n")] gives them, and the texts
    that hold no line feed. *)
Fixpoint split_lines_from (text line : str) : list str :=
  match text with
  | [] => [line]
  | c :: rest =>
      if N.eqb c LINE_FEED then line :: split_lines_from rest []
      else split_lines_from rest (line ++ [c])
  end.

Definition split_lines (text : str) : list str := split_lines_from text [].

Definition one_line (s : str) : bool := negb (existsb (N.eqb LINE_FEED) s).

(** An entry of [error_info] whose identifier and messages hold no line
    feed. *)
Definition entry_one_line (entry : str * list str) : bool :=
  one_line entry.1 && forallb one_line entry.2.

(** ** Writing the texts to the files *)

(** Both files are opened with [encoding="utf-8"], and the codec refuses
    the surrogate code points: a [write] of a text that holds one raises
    [UnicodeEncodeError] (a [ValueError], which the [except OSError] of
    [main] does not catch). *)
Definition is_surrogate (c : char) : bool :=
  ((0xD800 <=? c) && (c <=? 0xDFFF))%N.

Definition encodable (text : str) : bool :=
  forallb (fun c => negb (is_surrogate c)) text.

(** The calls [f.write(chunk)] one after the other on a file that holds
    [f]: the text of the file afterwards, and whether every chunk was
    written.  The first chunk that cannot be encoded raises, and the file
    keeps what was written before it. *)
Fixpoint write_chunks (chunks : list str) (f : str) : str * bool :=
  match chunks with
  | [] => (f, true)
  | chunk :: rest =>
      if encodable chunk then write_chunks rest (f ++ chunk) else (f, false)
  end.

(** What ends a run of [main] before its last line: an exception of
    [validate_record], or the exception of a [write]. *)
Inductive uncaught : Set :=
| FromValidation (e : exn)
| UnicodeEncodeError.

(** A run of [main]: the lines printed, the text of each of the two files
    ([None] for a file that was not opened), and the exception that ended
    the run, if one did. *)
Record run : Set := mkRun {
  run_stdout : list str;
  run_valid_csv : option str;
  run_error_report : option str;
  run_raised : option uncaught
}.

Section MainRun.
Context {U : Unicode}.

(** [main] from the extraction on, with the writing of the files: the CSV
    writer hands the file one row at a time, [write_error_report] the whole
    text at once; the report is written after the CSV. *)
Definition main_run (pages : list (option table)) (today : date)
    (generated_at : str) : run :=
  let raw_records := extract_records_from_pdf pages in
  let stdout : list str :=
    match raw_records with
    | [] => [WARNING_NO_RECORDS]
    | _ :: _ => []
    end in
  match main_validate raw_records today with
  | Raise e => mkRun stdout None None (Some (FromValidation e))
  | Ok (valid_records, error_info,
        (total_count, valid_count, invalid_count)) =>
      let rows :=
        csv_row fieldnames
        :: List.map (fun record => csv_row (record_values record))
             valid_records in
      match write_chunks rows [] with
      | (csv, false) => mkRun stdout (Some csv) None (Some UnicodeEncodeError)
      | (csv, true) =>
          let report :=
            write_error_report generated_at error_info (Z.of_nat total_count)
              (Z.of_nat valid_count) (Z.of_nat invalid_count) in
          match write_chunks [report] [] with
          | (text, false) =>
              mkRun stdout (Some csv) (Some text) (Some UnicodeEncodeError)
          | (text, true) =>
              mkRun (stdout ++ [PROCESSING_COMPLETED]) (Some csv) (Some text)
                None
          end
      end
  end.

End MainRun.

(** A lone surrogate, and the sample page with a second record that has it
    in its identifier. *)
Definition SURROGATE_D800 : char := 0xD800%N.

Definition pages_with_surrogate : list (option table) :=
  [sample_page;
   Some [cells ["Patient ID"; "Health Card Number"; "Version Code";
                "Date of Birth"; "Service Date"]%string;
         [Some (u "P002" ++ [SURROGATE_D800]); Some (u "1234567897");
          Some (u "ON"); Some (u "1990-05-15"); Some (u "2025-01-01")]]].

(** * Properties *)

(** ** The calendar *)

Lemma month_day_table :
  forallb (fun k => month_day_ok false (Z.of_nat k)
                    && month_day_ok true (Z.of_nat k)) (seq 0 365) = true.
Proof. vm_compute. reflexivity. Qed.

Lemma days_in_month_leap y m :
  days_in_month y m = days_in_month (year_like (is_leap y)) m.
Proof. unfold days_in_month. destruct (is_leap y); reflexivity. Qed.

Lemma days_before_month_leap y m :
  days_before_month y m = days_before_month (year_like (is_leap y)) m.
Proof. unfold days_before_month. destruct (is_leap y); reflexivity. Qed.

Lemma month_day_correct leap n m d :
  0 <= n < 365 -> month_day n leap = (m, d) ->
  1 <= m <= 12 /\ 1 <= d <= days_in_month (year_like leap) m
  /\ days_before_month (year_like leap) m + d = n + 1.
Proof.
  intros Hn Hmd.
  pose proof month_day_table as T.
  rewrite forallb_forall in T.
  specialize (T (Z.to_nat n)).
  rewrite Z2Nat.id in T by lia.
  assert (In (Z.to_nat n) (seq 0 365)) as Hin by (apply in_seq; lia).
  apply T in Hin. apply andb_prop in Hin as [Hf Ht].
  assert (month_day_ok leap n = true) as Hok by (destruct leap; assumption).
  unfold month_day_ok in Hok. rewrite Hmd in Hok.
  repeat (apply andb_prop in Hok as [Hok ?]). lia.
Qed.

Lemma days_before_year_split a b c d :
  0 <= a -> 0 <= b <= 3 -> 0 <= c <= 24 -> 0 <= d <= 3 ->
  days_before_year (400 * a + 100 * b + 4 * c + d + 1)
  = DI400Y * a + DI100Y * b + DI4Y * c + 365 * d.
Proof.
  intros. unfold days_before_year, DI400Y, DI100Y, DI4Y. cbv zeta.
  Z.div_mod_to_equations; lia.
Qed.

Lemma is_leap_split a b c d :
  0 <= a -> 0 <= b <= 3 -> 0 <= c <= 24 -> 0 <= d <= 3 ->
  is_leap (400 * a + 100 * b + 4 * c + d + 1)
  = (d =? 3) && (negb (c =? 24) || (b =? 3)).
Proof.
  intros. unfold is_leap.
  repeat match goal with
         | |- context [?x =? ?y] => destruct (Z.eqb_spec x y)
         end; simpl; try reflexivity; exfalso; Z.div_mod_to_equations; lia.
Qed.

Lemma fromordinal_unfold n :
  fromordinal n =
  let n0 := n - 1 in
  let a := n0 / DI400Y in
  let b := (n0 mod DI400Y) / DI100Y in
  let c := ((n0 mod DI400Y) mod DI100Y) / DI4Y in
  let r4 := ((n0 mod DI400Y) mod DI100Y) mod DI4Y in
  let d := r4 / 365 in
  let y := 400 * a + 100 * b + 4 * c + d + 1 in
  if (d =? 4) || (b =? 4) then mkdate (y - 1) 12 31
  else
    let '(m, dd) :=
      month_day (r4 mod 365) ((d =? 3) && (negb (c =? 24) || (b =? 3))) in
    mkdate y m dd.
Proof.
  unfold fromordinal, month_day. cbv zeta.
  replace (400 * ((n - 1) / DI400Y) + 100 * ((n - 1) mod DI400Y / DI100Y)
           + 4 * (((n - 1) mod DI400Y) mod DI100Y / DI4Y)
           + (((n - 1) mod DI400Y) mod DI100Y) mod DI4Y / 365 + 1)
    with ((n - 1) / DI400Y * 400 + 1 + (n - 1) mod DI400Y / DI100Y * 100
          + ((n - 1) mod DI400Y) mod DI100Y / DI4Y * 4
          + (((n - 1) mod DI400Y) mod DI100Y) mod DI4Y / 365) by lia.
  destruct (_ || _); [reflexivity|].
  destruct (_ <? _); reflexivity.
Qed.

Lemma fromordinal_correct n :
  1 <= n <= MAXORDINAL ->
  date_valid (fromordinal n) /\ toordinal (fromordinal n) = n.
Proof.
  intros Hn. rewrite fromordinal_unfold. cbv zeta.
  set (n0 := n - 1).
  set (a := n0 / DI400Y).
  set (r400 := n0 mod DI400Y).
  set (b := r400 / DI100Y).
  set (r100 := r400 mod DI100Y).
  set (c := r100 / DI4Y).
  set (r4 := r100 mod DI4Y).
  set (d := r4 / 365).
  set (r := r4 mod 365).
  assert (n0 = DI400Y * a + DI100Y * b + DI4Y * c + 365 * d + r
          /\ 0 <= a <= 24 /\ 0 <= b <= 4 /\ 0 <= c <= 24 /\ 0 <= d <= 4
          /\ 0 <= r < 365
          /\ (b = 4 -> c = 0 /\ d = 0 /\ r = 0)
          /\ (d = 4 -> c <> 24 /\ r = 0)
          /\ (a = 24 -> b <= 3 /\ (b = 3 -> c = 24 -> d <= 2))) as Hs.
  { subst a b c d r r4 r100 r400 n0. unfold MAXORDINAL, DI400Y, DI100Y, DI4Y in *.
    Z.div_mod_to_equations; lia. }
  destruct Hs as (Hn0 & Ha & Hb & Hc & Hd & Hr & Hb4 & Hd4 & Hmax).
  clearbody a b c d r. clear r4 r100 r400.
  assert (n = n0 + 1) as Hnn by (subst n0; lia).
  clearbody n0. subst n n0.
  unfold date_valid, toordinal.
  destruct (Z.eqb_spec b 4) as [->|Hb'].
  - destruct (Hb4 eq_refl) as (-> & -> & ->).
    rewrite orb_true_r. cbn [year month day].
    replace (400 * a + 100 * 4 + 4 * 0 + 0 + 1 - 1)
      with (400 * a + 100 * 3 + 4 * 24 + 3 + 1) by lia.
    unfold date_ok, days_in_month, days_before_month.
    rewrite is_leap_split, days_before_year_split by lia.
    unfold MINYEAR, MAXYEAR, DI400Y, DI100Y, DI4Y in *. simpl. split; lia.
  - destruct (Z.eqb_spec d 4) as [->|Hd'].
    + destruct (Hd4 eq_refl) as (Hc24 & ->).
      cbn [orb year month day].
      replace (400 * a + 100 * b + 4 * c + 4 + 1 - 1)
        with (400 * a + 100 * b + 4 * c + 3 + 1) by lia.
      unfold date_ok, days_in_month, days_before_month.
      rewrite is_leap_split, days_before_year_split by lia.
      destruct (Z.eqb_spec c 24) as [?|_]; [contradiction|].
      unfold MINYEAR, MAXYEAR, DI400Y, DI100Y, DI4Y in *. simpl. split; lia.
    + cbn [orb].
      rewrite <- (is_leap_split a b c d) by lia.
      set (y := 400 * a + 100 * b + 4 * c + d + 1).
      destruct (month_day r (is_leap y)) as [m dd] eqn:Hmd.
      apply month_day_correct in Hmd as (Hm & Hdd & Hord); [|lia].
      cbn [year month day].
      rewrite <- days_in_month_leap in Hdd.
      rewrite <- days_before_month_leap in Hord.
      unfold date_ok.
      subst y. rewrite days_before_year_split by lia.
      unfold MINYEAR, MAXYEAR, DI400Y, DI100Y, DI4Y in *.
      split; [|lia].
      repeat (apply andb_true_intro; split); try apply Z.leb_le; lia.
Qed.

Lemma days_before_year_succ y :
  days_before_year (y + 1)
  = days_before_year y + 365 + (if is_leap y then 1 else 0).
Proof.
  unfold days_before_year, is_leap. cbv zeta.
  replace (y + 1 - 1) with y by lia.
  repeat match goal with
         | |- context [?x =? ?y] => destruct (Z.eqb_spec x y)
         end; simpl; Z.div_mod_to_equations; lia.
Qed.

Lemma days_before_year_mono y1 y2 :
  y1 <= y2 -> days_before_year y1 <= days_before_year y2.
Proof.
  unfold days_before_year. cbv zeta. intros. Z.div_mod_to_equations. lia.
Qed.

Lemma date_ok_bounds y m d :
  date_ok y m d = true ->
  MINYEAR <= y <= MAXYEAR /\ 1 <= m <= 12 /\ 1 <= d <= days_in_month y m.
Proof.
  unfold date_ok. intros H.
  repeat (apply andb_prop in H as [H ?]). lia.
Qed.

Lemma month_cases m :
  1 <= m <= 12 ->
  m = 1 \/ m = 2 \/ m = 3 \/ m = 4 \/ m = 5 \/ m = 6 \/ m = 7 \/ m = 8
  \/ m = 9 \/ m = 10 \/ m = 11 \/ m = 12.
Proof. lia. Qed.

Lemma days_before_month_succ y m :
  1 <= m <= 12 ->
  days_before_month y m + days_in_month y m
  = if m =? 12 then 365 + (if is_leap y then 1 else 0)
    else days_before_month y (m + 1).
Proof.
  intros Hm. apply month_cases in Hm.
  unfold days_before_month, days_in_month.
  repeat destruct Hm as [->|Hm]; try subst m; destruct (is_leap y); reflexivity.
Qed.

Lemma days_before_month_mono y m1 m2 :
  1 <= m1 -> m1 < m2 -> m2 <= 12 ->
  days_before_month y m1 + days_in_month y m1 <= days_before_month y m2.
Proof.
  intros H1 H12 H2.
  assert (1 <= m1 <= 12) as C1 by lia. apply month_cases in C1.
  assert (1 <= m2 <= 12) as C2 by lia. apply month_cases in C2.
  unfold days_before_month, days_in_month.
  repeat destruct C1 as [->|C1]; try subst m1;
    repeat destruct C2 as [->|C2]; try subst m2; try lia;
    destruct (is_leap y); simpl; lia.
Qed.

Lemma yday_bounds y m d :
  date_ok y m d = true ->
  1 <= days_before_month y m + d <= 365 + (if is_leap y then 1 else 0).
Proof.
  intros H. apply date_ok_bounds in H as (_ & Hm & Hd).
  pose proof (days_before_month_succ y m Hm) as Hs.
  assert (0 <= days_before_month y m).
  { apply month_cases in Hm. unfold days_before_month.
    repeat destruct Hm as [->|Hm]; try subst m; destruct (is_leap y); simpl; lia. }
  destruct (Z.eqb_spec m 12).
  - lia.
  - pose proof (days_before_month_mono y m 12 ltac:(lia) ltac:(lia) ltac:(lia)).
    assert (days_before_month y 12 <= 334 + (if is_leap y then 1 else 0))
      by (unfold days_before_month; destruct (is_leap y); simpl; lia).
    lia.
Qed.

Lemma toordinal_year_lt a b :
  date_valid a -> date_valid b -> year a < year b ->
  toordinal a < toordinal b.
Proof.
  unfold date_valid, toordinal. intros Ha Hb Hlt.
  apply yday_bounds in Ha, Hb.
  pose proof (days_before_year_succ (year a)).
  pose proof (days_before_year_mono (year a + 1) (year b) ltac:(lia)).
  lia.
Qed.

Lemma toordinal_month_lt a b :
  date_valid a -> date_valid b -> year a = year b -> month a < month b ->
  toordinal a < toordinal b.
Proof.
  unfold date_valid, toordinal. intros Ha Hb Hy Hlt.
  apply date_ok_bounds in Ha as (_ & Hma & Hda), Hb as (_ & Hmb & Hdb).
  rewrite Hy in *.
  pose proof (days_before_month_mono (year b) (month a) (month b)
                ltac:(lia) Hlt ltac:(lia)).
  lia.
Qed.

Lemma date_lt_toordinal a b :
  date_valid a -> date_valid b ->
  date_lt a b = (toordinal a <? toordinal b).
Proof.
  intros Ha Hb. unfold date_lt.
  destruct (Z.ltb_spec (year a) (year b)) as [Hy|Hy].
  - pose proof (toordinal_year_lt a b Ha Hb Hy). simpl. symmetry.
    apply Z.ltb_lt. lia.
  - simpl. destruct (Z.eqb_spec (year a) (year b)) as [Hye|Hyn].
    + simpl. destruct (Z.ltb_spec (month a) (month b)) as [Hm|Hm].
      * pose proof (toordinal_month_lt a b Ha Hb Hye Hm). simpl. symmetry.
        apply Z.ltb_lt. lia.
      * simpl. destruct (Z.eqb_spec (month a) (month b)) as [Hme|Hmn].
        -- unfold toordinal. rewrite Hye, Hme.
           destruct (Z.ltb_spec (day a) (day b)); symmetry;
             [apply Z.ltb_lt | apply Z.ltb_ge]; lia.
        -- pose proof (toordinal_month_lt b a Hb Ha (eq_sym Hye) ltac:(lia)).
           symmetry. apply Z.ltb_ge. lia.
    + pose proof (toordinal_year_lt b a Hb Ha ltac:(lia)).
      simpl. symmetry. apply Z.ltb_ge. lia.
Qed.

Lemma toordinal_bounds a :
  date_valid a -> 1 <= toordinal a <= MAXORDINAL.
Proof.
  intros Ha. pose proof Ha as Hb. unfold date_valid in Hb.
  apply date_ok_bounds in Hb as (Hy & _).
  pose proof (yday_bounds _ _ _ Ha) as Hyd.
  unfold toordinal.
  pose proof (days_before_year_mono 1 (year a) ltac:(unfold MINYEAR in *; lia)).
  pose proof (days_before_year_succ (year a)).
  pose proof (days_before_year_mono (year a + 1) 10000
                ltac:(unfold MAXYEAR in *; lia)).
  change (days_before_year 1) with 0 in *.
  change (days_before_year 10000) with 3652059 in *.
  unfold MAXORDINAL. lia.
Qed.

(** ** Strings *)

Section StringFacts.
Context {U : Unicode}.

Lemma lstrip_head s c t : lstrip s = c :: t -> uni_isspace c = false.
Proof.
  induction s as [|x s IH]; simpl; [discriminate|].
  destruct (uni_isspace x) eqn:Hx; [exact IH|].
  intros [= <- _]. exact Hx.
Qed.

Lemma lstrip_fixed c t : uni_isspace c = false -> lstrip (c :: t) = c :: t.
Proof. intros H. simpl. rewrite H. reflexivity. Qed.

Lemma lstrip_idempotent s : lstrip (lstrip s) = lstrip s.
Proof.
  destruct (lstrip s) as [|c t] eqn:E; [reflexivity|].
  apply lstrip_fixed. exact (lstrip_head _ _ _ E).
Qed.

(** [lstrip] keeps a suffix. *)
Lemma lstrip_suffix s : exists p, s = p ++ lstrip s.
Proof.
  induction s as [|x s [p IH]]; [exists []; reflexivity|].
  simpl. destruct (uni_isspace x).
  - exists (x :: p). simpl. f_equal. exact IH.
  - exists []. reflexivity.
Qed.

Lemma last_app_cons {A} (p : list A) x l d :
  List.last (p ++ x :: l) d = List.last (x :: l) d.
Proof.
  induction p as [|y p IH]; [reflexivity|].
  change ((y :: p) ++ x :: l) with (y :: (p ++ x :: l)).
  rewrite <- IH. destruct (p ++ x :: l) eqn:E; [|reflexivity].
  destruct p; discriminate E.
Qed.

Lemma lstrip_last s c t d :
  lstrip s = c :: t -> List.last (lstrip s) d = List.last s d.
Proof.
  intros E. destruct (lstrip_suffix s) as [p Hp].
  rewrite Hp at 2. rewrite E. symmetry. apply last_app_cons.
Qed.

Lemma last_rev_cons {A} (l : list A) x d : List.last (rev (x :: l)) d = x.
Proof. simpl. apply last_last. Qed.

Lemma rev_head_last {A} (l : list A) c t d :
  rev l = c :: t -> List.last l d = c.
Proof.
  intros E. rewrite <- (rev_involutive l), E. apply last_rev_cons.
Qed.

(** A stripped string neither starts nor ends with white space. *)
Lemma strip_ends s c t :
  strip s = c :: t ->
  uni_isspace c = false /\ uni_isspace (List.last (c :: t) c) = false.
Proof.
  unfold strip, rstrip. intros E.
  destruct (lstrip (rev (lstrip s))) as [|y ys] eqn:Ey; [discriminate|].
  split.
  - pose proof (lstrip_last _ _ _ c Ey) as Hl. rewrite Ey in Hl.
    pose proof (rev_head_last _ _ _ c E) as Hc. rewrite Hc in Hl.
    destruct (lstrip s) as [|x xs] eqn:Ex; [discriminate Ey|].
    rewrite last_rev_cons in Hl. subst x.
    exact (lstrip_head _ _ _ Ex).
  - rewrite <- E, last_rev_cons. exact (lstrip_head _ _ _ Ey).
Qed.

Lemma strip_idempotent s : strip (strip s) = strip s.
Proof.
  destruct (strip s) as [|c t] eqn:E; [reflexivity|].
  destruct (strip_ends _ _ _ E) as [Hc _].
  unfold strip at 1. rewrite (lstrip_fixed _ _ Hc). rewrite <- E.
  unfold strip, rstrip. rewrite rev_involutive, lstrip_idempotent.
  reflexivity.
Qed.

(** [s.replace(" ", "")] leaves no space and keeps the other characters
    in order. *)
Lemma replace_char_not_in old s : ~ In old (replace_char old s).
Proof.
  unfold replace_char. rewrite filter_In. intros [_ H].
  rewrite N.eqb_refl in H. discriminate.
Qed.

Lemma strip_incl s c : In c (strip s) -> In c s.
Proof.
  unfold strip, rstrip. rewrite <- in_rev. intros H.
  destruct (lstrip_suffix (rev (lstrip s))) as [p Hp].
  assert (In c (rev (lstrip s))) as H1 by (rewrite Hp; apply in_or_app; auto).
  rewrite <- in_rev in H1.
  destruct (lstrip_suffix s) as [q Hq]. rewrite Hq. apply in_or_app. auto.
Qed.

Lemma lstrip_spaces ws s :
  forallb uni_isspace ws = true -> lstrip (ws ++ s) = lstrip s.
Proof.
  induction ws as [|c ws IH]; [reflexivity|].
  cbn [forallb app lstrip]. intros H. apply andb_prop in H as [-> H]. auto.
Qed.

Lemma lstrip_app_cons s c t r :
  lstrip s = c :: t -> lstrip (s ++ r) = c :: t ++ r.
Proof.
  induction s as [|x s IH]; cbn [lstrip app]; [discriminate|].
  destruct (uni_isspace x); [exact IH|]. intros [= <- <-]. reflexivity.
Qed.

Lemma lstrip_all_spaces s : lstrip s = [] -> forallb uni_isspace s = true.
Proof.
  induction s as [|x s IH]; [reflexivity|]. cbn [lstrip forallb].
  destruct (uni_isspace x); [exact IH | discriminate].
Qed.

Lemma forallb_rev {A} (f : A -> bool) l :
  forallb f (rev l) = forallb f l.
Proof.
  induction l as [|x l IH]; [reflexivity|]. cbn [rev forallb].
  rewrite forallb_app, IH. cbn [forallb]. rewrite andb_true_r.
  apply andb_comm.
Qed.

Lemma rstrip_spaces s ws :
  forallb uni_isspace ws = true -> rstrip (s ++ ws) = rstrip s.
Proof.
  intros H. unfold rstrip. rewrite rev_app_distr, lstrip_spaces; [reflexivity|].
  rewrite forallb_rev. exact H.
Qed.

(** Padding with white space does not change what [strip] returns. *)
Lemma strip_padding ws1 s ws2 :
  forallb uni_isspace ws1 = true -> forallb uni_isspace ws2 = true ->
  strip (ws1 ++ s ++ ws2) = strip s.
Proof.
  intros H1 H2. unfold strip. rewrite (lstrip_spaces _ _ H1).
  destruct (lstrip s) as [|c t] eqn:E.
  - pose proof (lstrip_all_spaces _ E) as Hs.
    rewrite <- (app_nil_r (s ++ ws2)), lstrip_spaces; [reflexivity|].
    rewrite forallb_app, Hs, H2. reflexivity.
  - rewrite (lstrip_app_cons _ _ _ ws2 E).
    change (c :: t ++ ws2) with ((c :: t) ++ ws2).
    apply rstrip_spaces. exact H2.
Qed.

Lemma strip_blank ws :
  forallb uni_isspace ws = true -> strip ws = [].
Proof.
  intros H. unfold strip.
  rewrite <- (app_nil_r ws), (lstrip_spaces _ _ H). reflexivity.
Qed.

Lemma lstrip_decompose s :
  exists ws, s = ws ++ lstrip s /\ forallb uni_isspace ws = true.
Proof.
  induction s as [|x s (ws & E & H)]; [exists []; auto|].
  cbn [lstrip]. destruct (uni_isspace x) eqn:Hx.
  - exists (x :: ws). cbn [app forallb]. rewrite Hx, H. split; [|reflexivity].
    f_equal. exact E.
  - exists []. auto.
Qed.

(** What [strip] takes away is white space, at the two ends. *)
Lemma strip_decompose s c t :
  strip s = c :: t ->
  exists ws1 ws2,
    s = ws1 ++ (c :: t) ++ ws2
    /\ forallb uni_isspace ws1 = true /\ forallb uni_isspace ws2 = true.
Proof.
  intros E. destruct (lstrip_decompose s) as (ws1 & E1 & H1).
  destruct (lstrip_decompose (rev (lstrip s))) as (q & E2 & H2).
  exists ws1, (rev q). split; [|split; [exact H1|]].
  - rewrite <- E. unfold strip, rstrip.
    rewrite <- rev_app_distr, <- E2, rev_involutive. exact E1.
  - rewrite forallb_rev. exact H2.
Qed.

End StringFacts.

(** ** Parsing dates *)

Section ParseFacts.
Context {U : Unicode}.

Lemma int_digits_error s acc e : int_digits s acc = Raise e -> e = ValueError.
Proof.
  revert acc. induction s as [|c s IH]; simpl; intros acc; [discriminate|].
  destruct (uni_decimal c); [apply IH|]. congruence.
Qed.

Lemma py_int_error s e : py_int s = Raise e -> e = ValueError.
Proof.
  unfold py_int. destruct (rev _); [congruence|]. apply int_digits_error.
Qed.

Lemma group_int_error k found default e :
  group_int k found default = Raise e -> e = ValueError.
Proof.
  induction found as [|[k' txt] found IH]; simpl; [discriminate|].
  destruct (N.eqb k' k); [apply py_int_error | exact IH].
Qed.

Lemma new_date_error y m d e : new_date y m d = Raise e -> e = ValueError.
Proof. unfold new_date. destruct (date_ok y m d); congruence. Qed.

Lemma new_date_valid y m d x : new_date y m d = Ok x -> date_valid x.
Proof.
  unfold new_date, date_valid. destruct (date_ok y m d) eqn:E; [|discriminate].
  intros [= <-]. exact E.
Qed.

Lemma pattern_error format e : pattern format = Raise e -> e = ValueError.
Proof.
  remember (length format) as n eqn:Hn. revert format Hn.
  induction n as [n IH] using lt_wf_ind. intros format Hn.
  destruct format as [|c rest]; cbn [pattern]; [discriminate|].
  destruct (N.eqb c (chr "%")).
  - destruct rest as [|k rest']; [congruence|].
    destruct (TimeRE k); [|congruence].
    destruct (pattern rest') eqn:E; bind_simpl; [discriminate|].
    intros [= <-]. apply (IH (length rest')) with (format := rest'); auto.
    subst n. cbn. lia.
  - destruct (pattern rest) eqn:E; bind_simpl; [discriminate|].
    intros [= <-]. apply (IH (length rest)) with (format := rest); auto.
    subst n. cbn. lia.
Qed.

(** [strptime] raises nothing but [ValueError], and what it returns is a
    date of the calendar. *)
Lemma strptime_error s format e : strptime s format = Raise e -> e = ValueError.
Proof.
  unfold strptime.
  destruct (pattern format) as [items|e'] eqn:Ep; bind_simpl.
  2: { intros [= <-]. exact (pattern_error _ _ Ep). }
  destruct (format_match items s) as [|[found rest] _]; [congruence|].
  destruct (truthy rest); [congruence|].
  destruct (group_int (chr "Y") found 1900) eqn:EY; bind_simpl.
  2: { intros [= <-]. exact (group_int_error _ _ _ _ EY). }
  destruct (group_int (chr "m") found 1) eqn:Em; bind_simpl.
  2: { intros [= <-]. exact (group_int_error _ _ _ _ Em). }
  destruct (group_int (chr "d") found 1) eqn:Ed; bind_simpl.
  2: { intros [= <-]. exact (group_int_error _ _ _ _ Ed). }
  apply new_date_error.
Qed.

Lemma strptime_valid s format x : strptime s format = Ok x -> date_valid x.
Proof.
  unfold strptime.
  destruct (pattern format) as [items|]; bind_simpl; [|discriminate].
  destruct (format_match items s) as [|[found rest] _]; [discriminate|].
  destruct (truthy rest); [discriminate|].
  destruct (group_int (chr "Y") found 1900); bind_simpl; [|discriminate].
  destruct (group_int (chr "m") found 1); bind_simpl; [|discriminate].
  destruct (group_int (chr "d") found 1); bind_simpl; [|discriminate].
  apply new_date_valid.
Qed.

(** The loop over the patterns always runs to a result: the first pattern
    that parses, or [None] when every one of them raised [ValueError]. *)
Lemma try_patterns_first s ps :
  (exists pre p post x,
      ps = pre ++ p :: post
      /\ Forall (fun q => strptime s q = Raise ValueError) pre
      /\ strptime s p = Ok x
      /\ try_patterns s ps = Ok (Some x))
  \/ (Forall (fun q => strptime s q = Raise ValueError) ps
      /\ try_patterns s ps = Ok None).
Proof.
  induction ps as [|p ps IH]; simpl.
  - right. split; [constructor | reflexivity].
  - destruct (strptime s p) as [x|e] eqn:E.
    + left. exists [], p, ps, x. repeat split; auto.
    + pose proof (strptime_error _ _ _ E) as ->.
      destruct IH as [(pre & q & post & x & -> & Hpre & Hq & Hr)|[Hall Hr]].
      * left. exists (p :: pre), q, post, x. repeat split; auto.
      * right. split; auto.
Qed.

Lemma try_patterns_returns s ps : exists r, try_patterns s ps = Ok r.
Proof.
  destruct (try_patterns_first s ps) as [(_ & _ & _ & x & _ & _ & _ & H)|[_ H]];
    eauto.
Qed.

Lemma try_patterns_valid s ps x :
  try_patterns s ps = Ok (Some x) -> date_valid x.
Proof.
  destruct (try_patterns_first s ps)
    as [(_ & p & _ & y & _ & _ & Hp & H)|[_ H]]; rewrite H; intros [= <-].
  exact (strptime_valid _ _ _ Hp).
Qed.

Lemma parse_date_valid s x : parse_date s = Some x -> date_valid x.
Proof.
  unfold parse_date. destruct (truthy (strip s)); [|discriminate].
  destruct (try_patterns (strip s) patterns) as [r|] eqn:E; [|discriminate].
  intros ->. exact (try_patterns_valid _ _ _ E).
Qed.

Lemma truthy_strip_false s : truthy s = false -> truthy (strip s) = false.
Proof. destruct s; [reflexivity | discriminate]. Qed.

(** [parse_date_flex] never raises; it returns [parse_date] and appends
    [parse_errors]. *)
Lemma parse_date_flex_eq s field_name errors :
  parse_date_flex s field_name errors
  = Ok (parse_date s, errors ++ parse_errors field_name s).
Proof.
  unfold parse_date_flex, parse_errors, parse_date.
  destruct (truthy s) eqn:Es; cbn [negb orb].
  2: { rewrite (truthy_strip_false _ Es). reflexivity. }
  destruct (truthy (strip s)) eqn:Et; cbn [negb orb]; [|reflexivity].
  destruct (try_patterns_returns (strip s) patterns) as [r ->]. bind_simpl.
  destruct r; [rewrite app_nil_r|]; reflexivity.
Qed.

End ParseFacts.

(** ** The structure of validate_record *)

Lemma str_eqb_eq a b : str_eqb a b = true <-> a = b.
Proof.
  revert b. induction a as [|x a IH]; intros [|y b]; simpl.
  - tauto.
  - split; discriminate.
  - split; discriminate.
  - rewrite andb_true_iff, N.eqb_eq, IH.
    split; [intros [-> ->]; reflexivity | intros [= -> ->]; auto].
Qed.

Lemma StronglySorted_app {A} (R : A -> A -> Prop) l1 l2 :
  StronglySorted R l1 -> StronglySorted R l2 ->
  (forall x y, In x l1 -> In y l2 -> R x y) ->
  StronglySorted R (l1 ++ l2).
Proof.
  induction 1 as [|x l1 H1 IH Hx]; intros H2 H12; [exact H2|].
  simpl. constructor.
  - apply IH; [exact H2|]. intros a b Ha Hb. apply H12; [right|]; assumption.
  - apply Forall_app. split; [exact Hx|].
    apply List.Forall_forall. intros b Hb. apply H12; [left; reflexivity|exact Hb].
Qed.

Lemma StronglySorted_const {A} (f : A -> nat) k l :
  List.Forall (fun x => f x = k) l -> StronglySorted le (List.map f l).
Proof.
  induction 1 as [|x l Hx Hl IH]; simpl; constructor; [exact IH|].
  apply List.Forall_forall. intros y Hy. apply in_map_iff in Hy as (z & <- & Hz).
  rewrite List.Forall_forall in Hl. rewrite Hx, (Hl z Hz). constructor.
Qed.

Section ValidationFacts.
Context {U : Unicode}.

(** [validate_record] is the sequence of its blocks. *)
Lemma validate_record_blocks raw_record today :
  validate_record raw_record today =
  (errors ← rule1 (get_health_card raw_record) [];
   let errors := rule2 (get_version_code raw_record) errors in
   '(dob, errors) ← parse_date_flex (get_dob_str raw_record) F_DOB errors;
   let errors := rule3 dob today errors in
   '(service_date, errors) ←
     parse_date_flex (get_service_str raw_record) F_SERVICE errors;
   errors ← rule4 service_date dob today errors;
   let errors := rule5 (get_patient_id raw_record) errors in
   decide_validity raw_record dob service_date errors).
Proof. reflexivity. Qed.

Lemma rule2_append version_code errors :
  rule2 version_code errors = errors ++ rule2 version_code [].
Proof.
  unfold rule2.
  repeat match goal with |- context [if ?c then _ else _] => destruct c end;
    auto using app_nil_r.
Qed.

Lemma rule3_append dob today errors :
  rule3 dob today errors = errors ++ rule3 dob today [].
Proof.
  unfold rule3. destruct dob as [dob|]; [|auto using app_nil_r].
  cbv zeta.
  repeat match goal with |- context [if ?c then _ else _] => destruct c end;
    simpl; rewrite <- ?app_assoc; auto using app_nil_r.
Qed.

Lemma rule4_append service_date dob today errors :
  rule4 service_date dob today errors
  = (e ← rule4 service_date dob today []; Ok (errors ++ e)).
Proof.
  unfold rule4. destruct service_date as [sd|]; bind_simpl.
  2: { rewrite app_nil_r. reflexivity. }
  cbv zeta. destruct (date_sub_days today 183); bind_simpl; [|reflexivity].
  destruct dob as [dob|];
    repeat match goal with |- context [if ?c then _ else _] => destruct c end;
    simpl; rewrite <- ?app_assoc; rewrite ?app_nil_r; reflexivity.
Qed.

Lemma rule5_append patient_id errors :
  rule5 patient_id errors = errors ++ rule5 patient_id [].
Proof. unfold rule5. destruct (negb _); auto using app_nil_r. Qed.

(** [validate_record] collects the errors of the five rules and decides
    on the list. *)
Lemma validate_record_eq raw_record today :
  validate_record raw_record today =
  (errors ← collect_errors raw_record today;
   decide_validity raw_record (parse_date (get_dob_str raw_record))
     (parse_date (get_service_str raw_record)) errors).
Proof.
  rewrite validate_record_blocks. unfold collect_errors. cbv zeta.
  destruct (rule1 (get_health_card raw_record) []) as [e1|]; bind_simpl;
    [|reflexivity].
  rewrite parse_date_flex_eq. bind_simpl.
  rewrite parse_date_flex_eq. bind_simpl.
  rewrite rule4_append.
  destruct (rule4 _ _ today []) as [e4|]; bind_simpl; [|reflexivity].
  f_equal.
  rewrite rule5_append, rule3_append, rule2_append.
  repeat rewrite <- app_assoc. reflexivity.
Qed.

Lemma decide_validity_ok raw_record dob service_date errors b errs rec :
  decide_validity raw_record dob service_date errors = Ok (b, errs, rec) ->
  errs = errors
  /\ b = (length errors =? 0)%nat
  /\ rec = if b then Some (normalized raw_record dob service_date) else None.
Proof.
  unfold decide_validity. destruct errors as [|e errors]; simpl;
    intros [= <- <- <-]; auto.
Qed.

(** What a returning call of [validate_record] returns. *)
Lemma validate_record_ok raw_record today b errs rec :
  validate_record raw_record today = Ok (b, errs, rec) ->
  collect_errors raw_record today = Ok errs
  /\ b = (length errs =? 0)%nat
  /\ rec = if b
           then Some (normalized raw_record
                        (parse_date (get_dob_str raw_record))
                        (parse_date (get_service_str raw_record)))
           else None.
Proof.
  rewrite validate_record_eq.
  destruct (collect_errors raw_record today) as [errors|]; bind_simpl;
    [|discriminate].
  intros H. apply decide_validity_ok in H as (-> & -> & ->). auto.
Qed.

Lemma collect_errors_ok raw_record today errs :
  collect_errors raw_record today = Ok errs ->
  exists e1 e4,
    rule1 (get_health_card raw_record) [] = Ok e1
    /\ rule4 (parse_date (get_service_str raw_record))
         (parse_date (get_dob_str raw_record)) today [] = Ok e4
    /\ errs =
       e1
       ++ rule2 (get_version_code raw_record) []
       ++ (parse_errors F_DOB (get_dob_str raw_record)
           ++ rule3 (parse_date (get_dob_str raw_record)) today [])
       ++ (parse_errors F_SERVICE (get_service_str raw_record) ++ e4)
       ++ rule5 (get_patient_id raw_record) [].
Proof.
  unfold collect_errors. cbv zeta.
  destruct (rule1 _ []) as [e1|]; bind_simpl; [|discriminate].
  destruct (rule4 _ _ today []) as [e4|]; bind_simpl; [|discriminate].
  intros [= <-]. eauto.
Qed.

End ValidationFacts.

(** ** The rules one by one *)

Lemma rule_of_messages :
  List.Forall (fun m => rule_of m = 1%nat) RULE1_MESSAGES
  /\ List.Forall (fun m => rule_of m = 2%nat) RULE2_MESSAGES
  /\ List.Forall (fun m => rule_of m = 3%nat) RULE3_MESSAGES
  /\ List.Forall (fun m => rule_of m = 4%nat) RULE4_MESSAGES
  /\ List.Forall (fun m => rule_of m = 5%nat) RULE5_MESSAGES.
Proof. repeat split; repeat constructor. Qed.

Lemma Forall_rule_incl k msgs l :
  List.Forall (fun m => rule_of m = k) msgs -> incl l msgs ->
  List.Forall (fun m => rule_of m = k) l.
Proof.
  rewrite !List.Forall_forall. intros H Hi m Hm. apply H, Hi, Hm.
Qed.

Section RuleFacts.
Context {U : Unicode}.

Lemma truthy_nil s : truthy s = false <-> s = [].
Proof. destruct s; simpl; split; congruence. Qed.

(** Rule 1 reports the first check that fails, and nothing else. *)
Lemma rule1_cases health_card e1 :
  rule1 health_card [] = Ok e1 ->
  (health_card = [] /\ e1 = [E_HC_MISSING])
  \/ (health_card <> [] /\ isdigit health_card = false
      /\ e1 = [E_HC_DIGITS])
  \/ (isdigit health_card = true /\ length health_card <> 10%nat
      /\ e1 = [E_HC_LENGTH])
  \/ (isdigit health_card = true /\ length health_card = 10%nat
      /\ luhn_check health_card = Ok false /\ e1 = [E_HC_LUHN])
  \/ (isdigit health_card = true /\ length health_card = 10%nat
      /\ luhn_check health_card = Ok true /\ e1 = []).
Proof.
  unfold rule1.
  destruct (truthy health_card) eqn:Et; cbn [negb].
  2: { intros [= <-]. left. apply truthy_nil in Et. auto. }
  assert (health_card <> []) as Hne by (intros ->; discriminate).
  destruct (isdigit health_card) eqn:Ed; cbn [negb].
  2: { intros [= <-]. right. left. auto. }
  destruct (Nat.eqb_spec (length health_card) 10) as [El|El]; cbn [negb].
  2: { intros [= <-]. do 2 right. left. auto. }
  destruct (luhn_check health_card) as [[|]|]; bind_simpl; cbn [negb];
    intros [= <-]; intuition auto.
Qed.

Lemma rule1_raises health_card e :
  rule1 health_card [] = Raise e ->
  isdigit health_card = true /\ length health_card = 10%nat
  /\ luhn_check health_card = Raise e.
Proof.
  unfold rule1.
  destruct (truthy health_card); cbn [negb]; [|discriminate].
  destruct (isdigit health_card); cbn [negb]; [|discriminate].
  destruct (Nat.eqb_spec (length health_card) 10); cbn [negb]; [|discriminate].
  destruct (luhn_check health_card) as [[|]|]; bind_simpl; cbn [negb];
    try discriminate.
  intros [= <-]. auto.
Qed.

(** Rule 2 likewise. *)
Lemma rule2_cases version_code :
  (version_code = [] /\ rule2 version_code [] = [E_VC_MISSING])
  \/ (version_code <> [] /\ length version_code <> 2%nat
      /\ rule2 version_code [] = [E_VC_LENGTH])
  \/ (length version_code = 2%nat /\ isalpha version_code = false
      /\ rule2 version_code [] = [E_VC_ALPHA])
  \/ (length version_code = 2%nat /\ isalpha version_code = true
      /\ isupper version_code = false
      /\ rule2 version_code [] = [E_VC_UPPER])
  \/ (length version_code = 2%nat /\ isalpha version_code = true
      /\ isupper version_code = true /\ rule2 version_code [] = []).
Proof.
  unfold rule2.
  destruct (truthy version_code) eqn:Et; cbn [negb].
  2: { left. apply truthy_nil in Et. auto. }
  assert (version_code <> []) as Hne by (intros ->; discriminate).
  destruct (Nat.eqb_spec (length version_code) 2) as [El|El]; cbn [negb].
  2: { right. left. auto. }
  destruct (isalpha version_code); cbn [negb].
  2: { do 2 right. left. auto. }
  destruct (isupper version_code); cbn [negb]; intuition auto.
Qed.

(** Rule 3, after parsing: the age in completed years is computed only
    for a date of birth that is not after [today]. *)
Lemma rule3_eq dob today :
  rule3 dob today [] =
  match dob with
  | Some dob =>
      if date_gt dob today then [E_DOB_FUTURE]
      else
        (if age_in_years dob today <? 0 then [E_AGE_NEGATIVE] else [])
        ++ (if 150 <=? age_in_years dob today then [E_AGE_150] else [])
  | None => []
  end.
Proof.
  unfold rule3. destruct dob as [dob|]; [|reflexivity]. cbv zeta.
  destruct (date_gt dob today); [reflexivity|].
  destruct (_ <? 0); destruct (150 <=? _); reflexivity.
Qed.

(** Rule 4, after parsing. *)
Lemma rule4_eq service_date dob today :
  rule4 service_date dob today [] =
  match service_date with
  | Some sd =>
      six_months_ago ← date_sub_days today 183;
      Ok ((if date_gt sd today then [E_SVC_FUTURE] else [])
          ++ (match dob with
              | Some dob =>
                  if date_lt sd dob then [E_SVC_BEFORE_DOB] else []
              | None => []
              end)
          ++ (if date_lt sd six_months_ago then [E_SVC_OLD] else []))
  | None => Ok []
  end.
Proof.
  unfold rule4. destruct service_date as [sd|]; [|reflexivity]. cbv zeta.
  destruct (date_sub_days today 183) as [six|]; bind_simpl; [|reflexivity].
  destruct (date_gt sd today); destruct dob as [dob|];
    try destruct (date_lt sd dob); destruct (date_lt sd six); reflexivity.
Qed.

Lemma rule5_eq patient_id :
  rule5 patient_id [] = if truthy patient_id then [] else [E_ID_MISSING].
Proof. unfold rule5. destruct (truthy patient_id); reflexivity. Qed.

(** The messages of each rule are its own. *)
Lemma rule1_messages health_card e1 :
  rule1 health_card [] = Ok e1 -> incl e1 RULE1_MESSAGES.
Proof.
  intros H m Hm. unfold RULE1_MESSAGES.
  destruct (rule1_cases _ _ H)
    as [(_ & ->)|[(_ & _ & ->)|[(_ & _ & ->)|[(_ & _ & _ & ->)
       |(_ & _ & _ & ->)]]]]; simpl in *; tauto.
Qed.

Lemma rule2_messages version_code :
  incl (rule2 version_code []) RULE2_MESSAGES.
Proof.
  intros m Hm. unfold RULE2_MESSAGES.
  destruct (rule2_cases version_code)
    as [(_ & E)|[(_ & _ & E)|[(_ & _ & E)|[(_ & _ & _ & E)
       |(_ & _ & _ & E)]]]]; rewrite E in Hm; simpl in *; tauto.
Qed.

Lemma parse_errors_cases field_name s :
  (strip s = [] /\ parse_date s = None
   /\ parse_errors field_name s = [field_name ++ MSG_EMPTY])
  \/ (strip s <> [] /\ parse_date s = None
      /\ parse_errors field_name s = [field_name ++ MSG_NOT_A_DATE])
  \/ (exists x, parse_date s = Some x /\ parse_errors field_name s = []).
Proof.
  unfold parse_errors.
  destruct (truthy (strip s)) eqn:Et; cbn [negb].
  - assert (strip s <> []) by (intros E; rewrite E in Et; discriminate).
    destruct (parse_date s) as [x|]; [right; right; eauto | right; left; auto].
  - left. unfold parse_date. rewrite Et. apply truthy_nil in Et. auto.
Qed.

Lemma rule3_messages s today :
  incl (parse_errors F_DOB s ++ rule3 (parse_date s) today [])
    RULE3_MESSAGES.
Proof.
  intros m Hm. apply in_app_or in Hm. unfold RULE3_MESSAGES.
  rewrite rule3_eq in Hm. revert Hm.
  destruct (parse_errors_cases F_DOB s)
    as [(_ & -> & ->)|[(_ & -> & ->)|(x & -> & ->)]]; intros Hm.
  - simpl in *. tauto.
  - simpl in *. tauto.
  - destruct Hm as [[]|Hm].
    destruct (date_gt x today); [simpl in *; tauto|].
    destruct (_ <? 0); destruct (150 <=? _); simpl in *; tauto.
Qed.

Lemma rule4_messages s dob today e4 :
  rule4 (parse_date s) dob today [] = Ok e4 ->
  incl (parse_errors F_SERVICE s ++ e4) RULE4_MESSAGES.
Proof.
  rewrite rule4_eq. intros H m Hm. apply in_app_or in Hm.
  unfold RULE4_MESSAGES. revert H Hm.
  destruct (parse_errors_cases F_SERVICE s)
    as [(_ & -> & ->)|[(_ & -> & ->)|(x & -> & ->)]]; intros H Hm.
  - injection H as <-. simpl in *. tauto.
  - injection H as <-. simpl in *. tauto.
  - destruct Hm as [[]|Hm].
    destruct (date_sub_days today 183) as [six|]; bind_simpl in H;
      [|discriminate].
    injection H as <-.
    destruct (date_gt x today); destruct dob as [dob|];
      try destruct (date_lt x dob); destruct (date_lt x six);
      simpl in *; tauto.
Qed.

Lemma rule5_messages patient_id : incl (rule5 patient_id []) RULE5_MESSAGES.
Proof.
  rewrite rule5_eq. intros m Hm. unfold RULE5_MESSAGES.
  destruct (truthy patient_id); simpl in *; tauto.
Qed.

End RuleFacts.

(** ** The list of errors *)

(** In a list made of one block per rule, a message is found in the block
    of its rule. *)
Lemma in_blocks m b1 b2 b3 b4 b5 :
  List.Forall (fun x => rule_of x = 1%nat) b1 ->
  List.Forall (fun x => rule_of x = 2%nat) b2 ->
  List.Forall (fun x => rule_of x = 3%nat) b3 ->
  List.Forall (fun x => rule_of x = 4%nat) b4 ->
  List.Forall (fun x => rule_of x = 5%nat) b5 ->
  In m (b1 ++ b2 ++ b3 ++ b4 ++ b5) <->
  match rule_of m with
  | 1 => In m b1
  | 2 => In m b2
  | 3 => In m b3
  | 4 => In m b4
  | 5 => In m b5
  | _ => False
  end%nat.
Proof.
  rewrite !List.Forall_forall. intros H1 H2 H3 H4 H5.
  rewrite !in_app_iff. split.
  - intros [H|[H|[H|[H|H]]]];
      [rewrite (H1 _ H)|rewrite (H2 _ H)|rewrite (H3 _ H)|rewrite (H4 _ H)
      |rewrite (H5 _ H)]; exact H.
  - destruct (rule_of m) as [|[|[|[|[|[|k]]]]]]; tauto.
Qed.

Lemma blocks_sorted b1 b2 b3 b4 b5 :
  List.Forall (fun x => rule_of x = 1%nat) b1 ->
  List.Forall (fun x => rule_of x = 2%nat) b2 ->
  List.Forall (fun x => rule_of x = 3%nat) b3 ->
  List.Forall (fun x => rule_of x = 4%nat) b4 ->
  List.Forall (fun x => rule_of x = 5%nat) b5 ->
  StronglySorted le (List.map rule_of (b1 ++ b2 ++ b3 ++ b4 ++ b5)).
Proof.
  intros H1 H2 H3 H4 H5. rewrite !map_app.
  pose proof H1 as G1. pose proof H2 as G2. pose proof H3 as G3.
  pose proof H4 as G4. pose proof H5 as G5.
  rewrite List.Forall_forall in G1, G2, G3, G4, G5.
  repeat (apply StronglySorted_app;
          [eapply StronglySorted_const; eassumption| |]);
    try (eapply StronglySorted_const; eassumption);
    intros x y Hx Hy;
    rewrite ?in_app_iff in Hy;
    apply in_map_iff in Hx as (x' & <- & Hx);
    repeat match goal with
           | H : _ \/ _ |- _ => destruct H as [H|H]
           | H : In _ (List.map _ _) |- _ =>
               apply in_map_iff in H as (? & <- & H)
           end;
    repeat match goal with
           | G : forall x, In x ?b -> _, H : In _ ?b |- _ =>
               rewrite (G _ H); clear H
           end; lia.
Qed.

Section ErrorList.
Context {U : Unicode}.

(** The list that a returning call of [validate_record] returns is made of
    five blocks, one per rule, in the order of the rules. *)
Lemma validate_record_errors raw_record today b errs rec :
  validate_record raw_record today = Ok (b, errs, rec) ->
  exists e1 e4,
    rule1 (get_health_card raw_record) [] = Ok e1
    /\ rule4 (parse_date (get_service_str raw_record))
         (parse_date (get_dob_str raw_record)) today [] = Ok e4
    /\ errs =
       e1
       ++ rule2 (get_version_code raw_record) []
       ++ (parse_errors F_DOB (get_dob_str raw_record)
           ++ rule3 (parse_date (get_dob_str raw_record)) today [])
       ++ (parse_errors F_SERVICE (get_service_str raw_record) ++ e4)
       ++ rule5 (get_patient_id raw_record) []
    /\ List.Forall (fun x => rule_of x = 1%nat) e1
    /\ List.Forall (fun x => rule_of x = 2%nat)
         (rule2 (get_version_code raw_record) [])
    /\ List.Forall (fun x => rule_of x = 3%nat)
         (parse_errors F_DOB (get_dob_str raw_record)
          ++ rule3 (parse_date (get_dob_str raw_record)) today [])
    /\ List.Forall (fun x => rule_of x = 4%nat)
         (parse_errors F_SERVICE (get_service_str raw_record) ++ e4)
    /\ List.Forall (fun x => rule_of x = 5%nat)
         (rule5 (get_patient_id raw_record) []).
Proof.
  intros H. apply validate_record_ok in H as (H & _ & _).
  apply collect_errors_ok in H as (e1 & e4 & H1 & H4 & ->).
  destruct rule_of_messages as (R1 & R2 & R3 & R4 & R5).
  exists e1, e4. repeat split; auto.
  - exact (Forall_rule_incl _ _ _ R1 (rule1_messages _ _ H1)).
  - exact (Forall_rule_incl _ _ _ R2 (rule2_messages _)).
  - exact (Forall_rule_incl _ _ _ R3 (rule3_messages _ _)).
  - exact (Forall_rule_incl _ _ _ R4 (rule4_messages _ _ _ _ H4)).
  - exact (Forall_rule_incl _ _ _ R5 (rule5_messages _)).
Qed.

End ErrorList.

(** Two different message texts are different strings. *)
Ltac msg_absurd H :=
  exfalso; apply (proj2 (str_eqb_eq _ _)) in H; vm_compute in H;
  discriminate H.

(** ** Age *)

Lemma age_in_years_nonneg dob today :
  date_gt dob today = false -> 0 <= age_in_years dob today.
Proof.
  unfold date_gt, date_lt, age_in_years, pair_lt. cbn [fst snd].
  destruct (Z.ltb_spec (year today) (year dob)); [discriminate|].
  destruct (Z.eqb_spec (year today) (year dob)) as [Ey|Ey].
  - cbn [orb andb]. intros ->. lia.
  - intros _. destruct (_ || _); lia.
Qed.

Lemma filter_rule_block k j l :
  List.Forall (fun x => rule_of x = j) l ->
  List.filter (fun x => Nat.eqb (rule_of x) k) l
  = if Nat.eqb j k then l else [].
Proof.
  induction 1 as [|x l Hx _ IH]; simpl; [destruct (Nat.eqb j k); reflexivity|].
  rewrite Hx, IH. destruct (Nat.eqb j k); reflexivity.
Qed.

(** The messages of rule [k] in a list made of one block per rule. *)
Lemma filter_blocks k b1 b2 b3 b4 b5 :
  List.Forall (fun x => rule_of x = 1%nat) b1 ->
  List.Forall (fun x => rule_of x = 2%nat) b2 ->
  List.Forall (fun x => rule_of x = 3%nat) b3 ->
  List.Forall (fun x => rule_of x = 4%nat) b4 ->
  List.Forall (fun x => rule_of x = 5%nat) b5 ->
  List.filter (fun x => Nat.eqb (rule_of x) k) (b1 ++ b2 ++ b3 ++ b4 ++ b5)
  = match k with
    | 1 => b1
    | 2 => b2
    | 3 => b3
    | 4 => b4
    | 5 => b5
    | _ => []
    end%nat.
Proof.
  intros H1 H2 H3 H4 H5. rewrite !List.filter_app.
  rewrite (filter_rule_block k _ _ H1), (filter_rule_block k _ _ H2),
    (filter_rule_block k _ _ H3), (filter_rule_block k _ _ H4),
    (filter_rule_block k _ _ H5).
  destruct k as [|[|[|[|[|[|k]]]]]]; simpl; rewrite ?app_nil_r; reflexivity.
Qed.

Section Claims.
Context {U : Unicode}.

(** C8: for every date of birth that is not strictly after [today] the age
    in completed years ([today.year - dob.year], less one when the (month,
    day) pair of [today] is below that of the date of birth) is not
    negative, and a call of [validate_record] that returns never reports
    "Patient age cannot be negative". *)
Theorem negative_age_unreachable :
  (forall dob today : date,
      date_gt dob today = false -> 0 <= age_in_years dob today)
  /\ (forall raw_record today b errs rec,
         validate_record raw_record today = Ok (b, errs, rec) ->
         ~ In E_AGE_NEGATIVE errs).
Proof.
  split; [exact age_in_years_nonneg|].
  intros raw_record today b errs rec H.
  apply validate_record_errors in H
    as (e1 & e4 & _ & _ & -> & F1 & F2 & F3 & F4 & F5).
  rewrite (in_blocks _ _ _ _ _ _ F1 F2 F3 F4 F5).
  change (rule_of E_AGE_NEGATIVE) with 3%nat. cbv iota.
  rewrite in_app_iff, rule3_eq. intros [H|H].
  - destruct (parse_errors_cases F_DOB (get_dob_str raw_record))
      as [(_ & _ & E)|[(_ & _ & E)|(x & _ & E)]]; rewrite E in H;
      simpl in H; try tauto; destruct H as [H|[]]; msg_absurd H.
  - destruct (parse_date (get_dob_str raw_record)) as [dob|]; [|exact H].
    destruct (date_gt dob today) eqn:Eg.
    + destruct H as [H|[]]. msg_absurd H.
    + pose proof (age_in_years_nonneg _ _ Eg) as Hage.
      destruct (Z.ltb_spec (age_in_years dob today) 0); [lia|].
      destruct (150 <=? _); simpl in H; [|exact H].
      destruct H as [H|[]]. msg_absurd H.
Qed.

(** The only exception that the service-date rule can raise is the
    [OverflowError] of the date subtraction. *)
Lemma rule4_raises service_date dob today e :
  rule4 service_date dob today [] = Raise e -> e = OverflowError.
Proof.
  rewrite rule4_eq. destruct service_date as [sd|]; [|discriminate].
  unfold date_sub_days. destruct (_ && _); bind_simpl; congruence.
Qed.

Lemma validate_record_raises raw_record today e :
  validate_record raw_record today = Raise e ->
  rule1 (get_health_card raw_record) [] = Raise e
  \/ e = OverflowError.
Proof.
  rewrite validate_record_eq. unfold collect_errors. cbv zeta.
  destruct (rule1 _ []) as [e1|e1]; bind_simpl; [|intros [= <-]; auto].
  destruct (rule4 _ _ today []) as [e4|e4] eqn:E4; bind_simpl.
  - unfold decide_validity. destruct (negb _); discriminate.
  - intros [= <-]. right. exact (rule4_raises _ _ _ _ E4).
Qed.

Lemma isdigit_nonempty s : isdigit s = true -> s <> [].
Proof. intros H ->. discriminate H. Qed.

Lemma length2_nonempty (s : str) : length s = 2%nat -> s <> [].
Proof. intros H ->. discriminate H. Qed.

(** Decide whether the one message of a rule is the given one, against
    the conditions of the case at hand. *)
Ltac cascade_iff :=
  split;
  [ intros G; try (destruct G as [G|[]]); try msg_absurd G;
    try contradiction; intuition congruence
  | intros G; try (left; reflexivity); exfalso; intuition congruence ].

(** C5: a call of [validate_record] that returns reports at most one
    health-card error, the first check that fails among missing, not all
    digits, wrong length and checksum; the checksum error needs the digit
    and length checks to have passed, and a [ValueError], which only the
    checksum can raise, occurs only then.  The same holds for the version
    code with missing, length 2, alphabetic and uppercase. *)
Theorem cascade_exclusive :
  (forall raw_record today b errs rec,
      validate_record raw_record today = Ok (b, errs, rec) ->
      let hc := get_health_card raw_record in
      let vc := get_version_code raw_record in
      (length (List.filter (fun m => Nat.eqb (rule_of m) 1) errs) <= 1)%nat
      /\ (In E_HC_MISSING errs <-> hc = [])
      /\ (In E_HC_DIGITS errs <-> hc <> [] /\ isdigit hc = false)
      /\ (In E_HC_LENGTH errs <->
          isdigit hc = true /\ length hc <> 10%nat)
      /\ (In E_HC_LUHN errs <->
          isdigit hc = true /\ length hc = 10%nat
          /\ luhn_check hc = Ok false)
      /\ (length (List.filter (fun m => Nat.eqb (rule_of m) 2) errs) <= 1)%nat
      /\ (In E_VC_MISSING errs <-> vc = [])
      /\ (In E_VC_LENGTH errs <-> vc <> [] /\ length vc <> 2%nat)
      /\ (In E_VC_ALPHA errs <->
          length vc = 2%nat /\ isalpha vc = false)
      /\ (In E_VC_UPPER errs <->
          length vc = 2%nat /\ isalpha vc = true /\ isupper vc = false))
  /\ (forall raw_record today,
         validate_record raw_record today = Raise ValueError ->
         let hc := get_health_card raw_record in
         isdigit hc = true /\ length hc = 10%nat
         /\ luhn_check hc = Raise ValueError).
Proof.
  split.
  - intros raw_record today b errs rec H hc vc.
    apply validate_record_errors in H
      as (e1 & e4 & H1 & _ & -> & F1 & F2 & F3 & F4 & F5).
    rewrite !(filter_blocks _ _ _ _ _ _ F1 F2 F3 F4 F5).
    rewrite !(in_blocks _ _ _ _ _ _ F1 F2 F3 F4 F5).
    change (rule_of E_HC_MISSING) with 1%nat.
    change (rule_of E_HC_DIGITS) with 1%nat.
    change (rule_of E_HC_LENGTH) with 1%nat.
    change (rule_of E_HC_LUHN) with 1%nat.
    change (rule_of E_VC_MISSING) with 2%nat.
    change (rule_of E_VC_LENGTH) with 2%nat.
    change (rule_of E_VC_ALPHA) with 2%nat.
    change (rule_of E_VC_UPPER) with 2%nat.
    cbv iota. clear F1 F2 F3 F4 F5.
    pose proof (isdigit_nonempty hc) as Dn.
    pose proof (length2_nonempty vc) as Ln.
    fold hc in H1. fold vc.
    split; [|split; [|split; [|split; [|split]]]].
    1-5: destruct (rule1_cases _ _ H1)
        as [(C1 & ->)|[(C1 & C2 & ->)|[(C1 & C2 & ->)|[(C1 & C2 & C3 & ->)
           |(C1 & C2 & C3 & ->)]]]]; simpl;
      try lia; cascade_iff.
    split; [|split; [|split; [|split]]];
      destruct (rule2_cases vc)
        as [(C1 & ->)|[(C1 & C2 & ->)|[(C1 & C2 & ->)|[(C1 & C2 & C3 & ->)
           |(C1 & C2 & C3 & ->)]]]]; simpl;
      try lia; cascade_iff.
  - intros raw_record today H hc.
    apply validate_record_raises in H as [H|H]; [|discriminate H].
    exact (rule1_raises _ _ H).
Qed.

(** The errors of a returning call are in the order of the rules. *)
Lemma errors_sorted raw_record today b errs rec :
  validate_record raw_record today = Ok (b, errs, rec) ->
  Sorted le (List.map rule_of errs)
  /\ List.Forall (fun m => (1 <= rule_of m <= 5)%nat) errs.
Proof.
  intros H.
  apply validate_record_errors in H
    as (e1 & e4 & _ & _ & -> & F1 & F2 & F3 & F4 & F5).
  split.
  - apply StronglySorted_Sorted. apply blocks_sorted; assumption.
  - rewrite List.Forall_forall in *. intros m Hm.
    rewrite !in_app_iff in Hm.
    destruct Hm as [Hm|[Hm|[Hm|[Hm|Hm]]]];
      [rewrite (F1 _ Hm)|rewrite (F2 _ Hm)|rewrite (F3 _ (proj2 (in_app_iff _ _ _) Hm))
      |rewrite (F4 _ (proj2 (in_app_iff _ _ _) Hm))|rewrite (F5 _ Hm)]; lia.
Qed.

(** The service-date rule compares days: the date six months ago is the
    day of ordinal [toordinal today - 183]. *)
Lemma date_sub_days_ok today k six :
  date_sub_days today k = Ok six ->
  date_valid six /\ toordinal six = toordinal today - k.
Proof.
  unfold date_sub_days. cbv zeta.
  destruct (Z.ltb_spec 0 (toordinal today - k)); cbn [andb]; [|discriminate].
  destruct (Z.leb_spec (toordinal today - k) MAXORDINAL); [|discriminate].
  intros [= <-]. apply fromordinal_correct. lia.
Qed.

Lemma service_old_reported raw_record today service_date b errs rec :
  parse_date (get_service_str raw_record) = Some service_date ->
  validate_record raw_record today = Ok (b, errs, rec) ->
  exists six_months_ago,
    date_sub_days today 183 = Ok six_months_ago
    /\ (In E_SVC_OLD errs <-> date_lt service_date six_months_ago = true).
Proof.
  intros Hsd H.
  apply validate_record_errors in H
    as (e1 & e4 & _ & H4 & -> & F1 & F2 & F3 & F4 & F5).
  rewrite rule4_eq, Hsd in H4.
  destruct (date_sub_days today 183) as [six|] eqn:Esix; bind_simpl in H4;
    [|discriminate].
  injection H4 as <-. exists six. split; [reflexivity|].
  rewrite (in_blocks _ _ _ _ _ _ F1 F2 F3 F4 F5).
  change (rule_of E_SVC_OLD) with 4%nat. cbv iota.
  rewrite !in_app_iff. split.
  - intros [G|[G|[G|G]]].
    + destruct (parse_errors_cases F_SERVICE (get_service_str raw_record))
        as [(_ & E & _)|[(_ & E & _)|(x & _ & E)]]; [congruence..|].
      rewrite E in G. contradiction.
    + destruct (date_gt service_date today); [|contradiction].
      destruct G as [G|[]]. msg_absurd G.
    + destruct (parse_date (get_dob_str raw_record)) as [dob|];
        [|contradiction].
      destruct (date_lt service_date dob); [|contradiction].
      destruct G as [G|[]]. msg_absurd G.
    + destruct (date_lt service_date six); [reflexivity|contradiction].
  - intros ->. right. right. right. left. reflexivity.
Qed.

(** C7: when the service date parses, a call of [validate_record] that
    returns reports "more than 6 months in the past" exactly when the
    service date is strictly before the day 183 days before [today]: a
    service date 183 days back is not reported, one 184 days back is. *)
Theorem six_month_window raw_record today service_date b errs rec :
  date_valid today ->
  parse_date_flex (get_service_str raw_record) F_SERVICE []
  = Ok (Some service_date, []) ->
  validate_record raw_record today = Ok (b, errs, rec) ->
  (exists six_months_ago,
      date_sub_days today 183 = Ok six_months_ago
      /\ toordinal six_months_ago = toordinal today - 183
      /\ (In E_SVC_OLD errs <-> date_lt service_date six_months_ago = true))
  /\ (In E_SVC_OLD errs <->
      toordinal service_date < toordinal today - 183)
  /\ (toordinal today - toordinal service_date = 183 ->
      ~ In E_SVC_OLD errs)
  /\ (toordinal today - toordinal service_date = 184 ->
      In E_SVC_OLD errs).
Proof.
  intros Htoday Hparse H.
  rewrite parse_date_flex_eq in Hparse. injection Hparse as Hsd _.
  pose proof (parse_date_valid _ _ Hsd) as Hvalid.
  destruct (service_old_reported _ _ _ _ _ _ Hsd H) as (six & Esix & Hin).
  destruct (date_sub_days_ok _ _ _ Esix) as [Vsix Osix].
  assert (In E_SVC_OLD errs <->
          toordinal service_date < toordinal today - 183) as Hord.
  { rewrite Hin, (date_lt_toordinal _ _ Hvalid Vsix), Osix, Z.ltb_lt.
    tauto. }
  split; [exists six; auto|].
  split; [exact Hord|]. rewrite Hord. split; lia.
Qed.

(** ** The batch *)

Lemma validate_each_outcomes raw_records today outcomes :
  validate_each raw_records today = Ok outcomes ->
  Forall2 (fun raw o => validate_record raw today = Ok o)
    raw_records outcomes.
Proof.
  revert outcomes. induction raw_records as [|raw rest IH]; simpl.
  - intros ? [= <-]. constructor.
  - intros outcomes.
    destruct (validate_record raw today) as [o|] eqn:Eo; bind_simpl;
      [|discriminate].
    destruct (validate_each rest today) as [os|]; bind_simpl; [|discriminate].
    intros [= <-]. constructor; auto.
Qed.

Lemma main_loop_eq raw_records today valid_records error_info :
  main_loop raw_records today valid_records error_info =
  (outcomes ← validate_each raw_records today;
   Ok (valid_records ++ omap accepted outcomes,
       error_info ++ omap rejected (zip raw_records outcomes))).
Proof.
  revert valid_records error_info.
  induction raw_records as [|raw rest IH]; intros valid_records error_info.
  - simpl. bind_simpl. rewrite !app_nil_r. reflexivity.
  - cbn [main_loop validate_each].
    destruct (validate_record raw today) as [[[is_valid errors] normalized]|];
      bind_simpl; [|reflexivity].
    destruct is_valid, normalized as [r|]; rewrite IH;
      destruct (validate_each rest today) as [os|]; bind_simpl;
      try reflexivity; cbn [zip zip_with omap list_omap accepted rejected];
      rewrite <- ?app_assoc; reflexivity.
Qed.

Lemma partition_length raw_records (outcomes : list outcome) :
  length raw_records = length outcomes ->
  (length (omap accepted outcomes)
   + length (omap rejected (zip raw_records outcomes)))%nat
  = length raw_records.
Proof.
  revert outcomes.
  induction raw_records as [|raw rest IH]; intros [|o os]; simpl;
    try discriminate; [reflexivity|].
  intros [= Hl]. specialize (IH _ Hl).
  unfold omap in IH |- *.
  destruct o as [[[|] errors] [r|]]; simpl; lia.
Qed.

Lemma accepted_in_order raw_records today outcomes :
  Forall2 (fun raw o => validate_record raw today = Ok o)
    raw_records outcomes ->
  sublist (PatientID <$> omap accepted outcomes)
    (get_patient_id <$> raw_records).
Proof.
  induction 1 as [|raw o rest os Ho _ IH]; [constructor|].
  destruct o as [[[|] errors] [r|]];
    [|apply sublist_cons; exact IH ..].
  apply validate_record_ok in Ho as (_ & _ & [= ->]).
  apply sublist_skip. exact IH.
Qed.

Lemma rejected_in_order raw_records (outcomes : list outcome) :
  sublist (fst <$> omap rejected (zip raw_records outcomes))
    (get_patient_id <$> raw_records).
Proof.
  revert outcomes.
  induction raw_records as [|raw rest IH]; intros outcomes.
  - apply sublist_nil_l.
  - destruct outcomes as [|o os]; [apply sublist_nil_l|].
    specialize (IH os).
    destruct o as [[[|] errors] [r|]];
      [apply sublist_cons; exact IH | apply sublist_skip; exact IH ..].
Qed.

(** C10: the loop of [main] validates the records one after the other in
    input order and appends each outcome to one of two lists, so that the
    two lengths add up to the number of records and each list keeps the
    order of the input. *)
Theorem batch_partition raw_records today :
  main_validate raw_records today =
  (outcomes ← validate_each raw_records today;
   let valid_records := omap accepted outcomes in
   let error_info := omap rejected (zip raw_records outcomes) in
   Ok (valid_records, error_info,
       (length raw_records, length valid_records, length error_info)))
  /\ (forall valid_records error_info total_count valid_count invalid_count,
         main_validate raw_records today
         = Ok (valid_records, error_info,
               (total_count, valid_count, invalid_count)) ->
         total_count = length raw_records
         /\ valid_count = length valid_records
         /\ invalid_count = length error_info
         /\ (valid_count + invalid_count)%nat = total_count
         /\ sublist (PatientID <$> valid_records)
              (get_patient_id <$> raw_records)
         /\ sublist (fst <$> error_info)
              (get_patient_id <$> raw_records)).
Proof.
  assert (main_validate raw_records today =
          (outcomes ← validate_each raw_records today;
           let valid_records := omap accepted outcomes in
           let error_info := omap rejected (zip raw_records outcomes) in
           Ok (valid_records, error_info,
               (length raw_records, length valid_records,
                length error_info)))) as Heq.
  { unfold main_validate. rewrite main_loop_eq.
    destruct (validate_each raw_records today); reflexivity. }
  split; [exact Heq|].
  intros valid_records error_info total_count valid_count invalid_count H.
  rewrite Heq in H.
  destruct (validate_each raw_records today) as [outcomes|] eqn:E;
    bind_simpl in H; [|discriminate].
  cbv zeta in H. injection H as <- <- <- <- <-.
  apply validate_each_outcomes in E.
  repeat split.
  - apply partition_length. exact (Forall2_length _ _ _ E).
  - exact (accepted_in_order _ _ _ E).
  - apply rejected_in_order.
Qed.

(** ** Reading the fields *)

Lemma strip_stripped s : stripped (strip s).
Proof.
  unfold stripped. destruct (strip s) as [|c t] eqn:E; [exact I|].
  exact (strip_ends _ _ _ E).
Qed.

Lemma py_or_first_nonempty raw k ks :
  py_or (raw !! k) (first_nonempty ks raw) = first_nonempty (k :: ks) raw.
Proof. simpl. destruct (raw !! k) as [[|c s]|]; reflexivity. Qed.

(** The fields that [validate_record] reads: the value under the first
    label that holds a non-empty one, stripped; the health card number
    loses its spaces (U+0020) first. *)
Lemma fields_read (raw_record : gmap str str) :
  get_patient_id raw_record
  = strip (first_nonempty [u "Patient ID"; u "PatientID"] raw_record)
  /\ get_health_card raw_record
     = strip (replace_char (chr " ")
                (first_nonempty [u "Health Card Number"] raw_record))
  /\ get_version_code raw_record
     = strip (first_nonempty [u "Version Code"] raw_record)
  /\ get_dob_str raw_record
     = strip (first_nonempty [u "Date of Birth"] raw_record)
  /\ get_service_str raw_record
     = strip (first_nonempty [u "Service Date"] raw_record).
Proof.
  unfold get_patient_id, get_health_card, get_version_code, get_dob_str,
    get_service_str.
  change (u "") with (first_nonempty [] raw_record).
  rewrite !py_or_first_nonempty. auto.
Qed.

Lemma fields_stripped (raw_record : gmap str str) :
  stripped (get_patient_id raw_record)
  /\ stripped (get_health_card raw_record)
  /\ stripped (get_version_code raw_record)
  /\ stripped (get_dob_str raw_record)
  /\ stripped (get_service_str raw_record)
  /\ ~ In (chr " ") (get_health_card raw_record).
Proof.
  repeat split; try apply strip_stripped.
  unfold get_health_card. intros H. apply strip_incl in H.
  exact (replace_char_not_in _ _ H).
Qed.

(** ** parse_date_flex *)

Lemma parse_date_flex_blank s field_name errors :
  strip s = [] ->
  parse_date_flex s field_name errors
  = Ok (None, errors ++ [field_name ++ u " is empty"]).
Proof.
  intros E. rewrite parse_date_flex_eq.
  destruct (parse_errors_cases field_name s)
    as [(_ & -> & ->)|[(Hne & _)|(x & Hx & _)]]; [reflexivity|contradiction|].
  unfold parse_date in Hx. rewrite E in Hx. discriminate Hx.
Qed.

Lemma parse_date_flex_first s field_name errors :
  strip s <> [] ->
  (exists pre p post x,
      patterns = pre ++ p :: post
      /\ Forall (fun q => strptime (strip s) q = Raise ValueError) pre
      /\ strptime (strip s) p = Ok x
      /\ parse_date_flex s field_name errors = Ok (Some x, errors))
  \/ (Forall (fun q => strptime (strip s) q = Raise ValueError) patterns
      /\ parse_date_flex s field_name errors
         = Ok (None,
               errors
               ++ [field_name
                   ++ u " is not a valid date in supported formats (expected something like YYYY-MM-DD)"])).
Proof.
  intros Hne. rewrite parse_date_flex_eq. unfold parse_errors, parse_date.
  destruct (strip s) as [|c t] eqn:E; [contradiction|]. cbn [truthy negb].
  destruct (try_patterns_first (c :: t) patterns)
    as [(pre & p & post & x & Hp & Hpre & Hx & ->)|[Hall ->]].
  - left. exists pre, p, post, x. rewrite app_nil_r. auto.
  - right. auto.
Qed.

Lemma parse_date_flex_strip s field_name errors :
  parse_date_flex s field_name errors
  = parse_date_flex (strip s) field_name errors.
Proof.
  rewrite !parse_date_flex_eq. unfold parse_errors, parse_date.
  rewrite strip_idempotent. reflexivity.
Qed.

(** ** The checksum *)

Lemma luhn_check_not_isdigit number :
  isdigit number = false -> luhn_check number = Ok false.
Proof. unfold luhn_check. intros ->. reflexivity. Qed.

Lemma luhn_loop_sum i digits total :
  luhn_loop i digits total
  = total + Zsum (imap (fun j => luhn_transform (i + j)) digits).
Proof.
  revert i total. induction digits as [|d t IH]; intros i total.
  - simpl. lia.
  - cbn [luhn_loop imap]. rewrite IH.
    rewrite (imap_ext ((fun j => luhn_transform (i + j)) ∘ S)
               (fun j => luhn_transform (S i + j)) t)
      by (intros j x _; simpl; f_equal; lia).
    unfold Zsum at 2. cbn [fold_right]. fold (Zsum (imap (fun j => luhn_transform (S i + j)) t)).
    unfold luhn_transform at 2. rewrite Nat.add_0_r.
    replace (d * 2) with (2 * d) by lia.
    destruct (Nat.even i); [destruct (9 <? 2 * d)|]; lia.
Qed.

Lemma last_item_last digits :
  digits <> [] -> last_item digits = Ok (List.last digits 0).
Proof.
  intros Hne. unfold last_item.
  destruct (rev digits) as [|x l] eqn:E.
  - apply (f_equal (@rev Z)) in E. rewrite rev_involutive in E. contradiction.
  - rewrite (rev_head_last _ _ _ 0 E). reflexivity.
Qed.

Lemma int_each_length number digits :
  int_each number = Ok digits -> length digits = length number.
Proof.
  revert digits. induction number as [|d t IH]; simpl; intros digits.
  - intros [= <-]. reflexivity.
  - destruct (py_int [d]); bind_simpl; [|discriminate].
    destruct (int_each t); bind_simpl; [|discriminate].
    intros [= <-]. simpl. f_equal. apply IH. reflexivity.
Qed.

(** When every character converts, [luhn_check] returns the MOD-10 result
    on the values. *)
Lemma luhn_check_decimal number digits :
  isdigit number = true -> int_each number = Ok digits ->
  luhn_check number = Ok (luhn_reference digits).
Proof.
  intros Hd Hi. unfold luhn_check. rewrite Hd, Hi. cbn [negb]. bind_simpl.
  assert (digits <> []) as Hne.
  { intros ->. apply int_each_length in Hi.
    apply isdigit_nonempty in Hd. destruct number; [contradiction|discriminate]. }
  rewrite (last_item_last _ Hne). bind_simpl.
  unfold luhn_reference. cbv zeta. rewrite luhn_loop_sum. reflexivity.
Qed.

Lemma luhn_check_raises number e :
  isdigit number = true -> int_each number = Raise e ->
  luhn_check number = Raise e.
Proof.
  intros Hd Hi. unfold luhn_check. rewrite Hd, Hi. reflexivity.
Qed.

Lemma int_each_raises number e :
  int_each number = Raise e ->
  e = ValueError /\ exists c, In c number /\ py_int [c] = Raise ValueError.
Proof.
  induction number as [|d t IH]; cbn [int_each]; [discriminate|].
  destruct (py_int [d]) as [v|e'] eqn:Ed; bind_simpl.
  - destruct (int_each t) as [vs|e'']; bind_simpl; [discriminate|].
    intros [= <-]. destruct (IH eq_refl) as (-> & c & Hc & Hr).
    split; [reflexivity|]. exists c. split; [right; exact Hc | exact Hr].
  - intros [= <-]. pose proof (py_int_error _ _ Ed) as ->.
    split; [reflexivity|]. exists d. split; [left; reflexivity | exact Ed].
Qed.

(** [luhn_check] raises only [ValueError], and only on a string that
    passes [str.isdigit] and holds a character that [int] rejects; the
    [IndexError] of [digits[-1]] cannot occur. *)
Lemma luhn_check_exceptions number e :
  luhn_check number = Raise e ->
  e = ValueError /\ isdigit number = true
  /\ exists c, In c number /\ py_int [c] = Raise ValueError.
Proof.
  unfold luhn_check.
  destruct (isdigit number) eqn:Hd; cbn [negb]; [|discriminate].
  destruct (int_each number) as [digits|e'] eqn:Hi; bind_simpl.
  - assert (digits <> []) as Hne.
    { intros ->. apply int_each_length in Hi.
      apply isdigit_nonempty in Hd.
      destruct number; [contradiction|discriminate]. }
    rewrite (last_item_last _ Hne). bind_simpl. discriminate.
  - intros [= <-]. destruct (int_each_raises _ _ Hi) as (-> & H). auto.
Qed.

(** The exceptions of [validate_record]: the [ValueError] of the checksum
    and the [OverflowError] of the date subtraction, nothing else. *)
Lemma validate_record_exceptions raw_record today e :
  date_valid today ->
  validate_record raw_record today = Raise e ->
  (e = ValueError
   /\ isdigit (get_health_card raw_record) = true
   /\ length (get_health_card raw_record) = 10%nat
   /\ exists c, In c (get_health_card raw_record)
                /\ py_int [c] = Raise ValueError)
  \/ (e = OverflowError
      /\ (exists service_date,
             parse_date (get_service_str raw_record) = Some service_date)
      /\ toordinal today <= 183).
Proof.
  intros Htoday. apply toordinal_bounds in Htoday.
  rewrite validate_record_eq. unfold collect_errors. cbv zeta.
  destruct (rule1 _ []) as [e1|e1] eqn:E1; bind_simpl.
  - destruct (rule4 _ _ today []) as [e4|e4] eqn:E4; bind_simpl.
    + unfold decide_validity. destruct (negb _); discriminate.
    + intros [= <-]. right. rewrite rule4_eq in E4.
      destruct (parse_date (get_service_str raw_record)) as [sd|];
        [|discriminate E4].
      unfold date_sub_days in E4. cbv zeta in E4.
      destruct (Z.ltb_spec 0 (toordinal today - 183)) as [Hlo|Hlo];
        cbn [andb] in E4.
      * destruct (Z.leb_spec (toordinal today - 183) MAXORDINAL) as [Hhi|Hhi];
          bind_simpl in E4.
        -- destruct (date_lt sd _); discriminate E4.
        -- lia.
      * bind_simpl in E4. injection E4 as <-. split; [reflexivity|].
        split; [eauto | lia].
  - intros [= <-]. left.
    destruct (rule1_raises _ _ E1) as (Hd & Hl & Hr).
    destruct (luhn_check_exceptions _ _ Hr) as (-> & _ & Hc). auto.
Qed.

(** ** Accepted records *)

Lemma app_nil_inv {A} (l1 l2 : list A) : l1 ++ l2 = [] -> l1 = [] /\ l2 = [].
Proof. destruct l1; [auto|discriminate]. Qed.

(** What holds of a record that [validate_record] accepts: every check of
    the five rules, as the code makes it. *)
Lemma accepted_record_invariants raw_record today b errs rec :
  validate_record raw_record today = Ok (b, errs, rec) ->
  (b = true <-> errs = [])
  /\ (b = false -> rec = None)
  /\ (b = true ->
      exists dob service_date,
        rec = Some (mkPatientRecord (get_patient_id raw_record)
                      (get_health_card raw_record)
                      (get_version_code raw_record)
                      (isoformat dob) (isoformat service_date))
        /\ get_patient_id raw_record <> []
        /\ isdigit (get_health_card raw_record) = true
        /\ length (get_health_card raw_record) = 10%nat
        /\ luhn_check (get_health_card raw_record) = Ok true
        /\ length (get_version_code raw_record) = 2%nat
        /\ isalpha (get_version_code raw_record) = true
        /\ isupper (get_version_code raw_record) = true
        /\ parse_date (get_dob_str raw_record) = Some dob
        /\ parse_date (get_service_str raw_record) = Some service_date
        /\ date_gt dob today = false
        /\ 0 <= age_in_years dob today < 150
        /\ date_gt service_date today = false
        /\ date_lt service_date dob = false
        /\ toordinal today - toordinal service_date <= 183).
Proof.
  intros H. pose proof (validate_record_ok _ _ _ _ _ H) as (Hc & -> & ->).
  split; [|split].
  - destruct errs; simpl; split; congruence.
  - intros ->. reflexivity.
  - intros Hb. destruct errs as [|e errs]; [clear Hb|discriminate Hb].
    apply collect_errors_ok in Hc as (e1 & e4 & H1 & H4 & Hnil).
    symmetry in Hnil.
    apply app_nil_inv in Hnil as (-> & Hnil).
    apply app_nil_inv in Hnil as (E2 & Hnil).
    apply app_nil_inv in Hnil as (E3 & Hnil).
    apply app_nil_inv in Hnil as (E4 & E5).
    apply app_nil_inv in E3 as (P3 & E3).
    apply app_nil_inv in E4 as (P4 & ->).
    destruct (parse_errors_cases F_DOB (get_dob_str raw_record))
      as [(_ & _ & G)|[(_ & _ & G)|(dob & Hdob & _)]];
      [rewrite G in P3; discriminate P3..|].
    destruct (parse_errors_cases F_SERVICE (get_service_str raw_record))
      as [(_ & _ & G)|[(_ & _ & G)|(sd & Hsd & _)]];
      [rewrite G in P4; discriminate P4..|].
    rewrite Hdob, Hsd in *. exists dob, sd. cbn [normalized length Nat.eqb].
    destruct (rule1_cases _ _ H1)
      as [(_ & G)|[(_ & _ & G)|[(_ & _ & G)|[(_ & _ & _ & G)
         |(D1 & D2 & D3 & _)]]]]; try discriminate G.
    destruct (rule2_cases (get_version_code raw_record))
      as [(_ & G)|[(_ & _ & G)|[(_ & _ & G)|[(_ & _ & _ & G)
         |(V1 & V2 & V3 & _)]]]];
      try (rewrite G in E2; discriminate E2).
    rewrite rule5_eq in E5.
    destruct (truthy (get_patient_id raw_record)) eqn:Eid;
      [|discriminate E5].
    rewrite rule3_eq in E3.
    destruct (date_gt dob today) eqn:Egt; [discriminate E3|].
    pose proof (age_in_years_nonneg _ _ Egt) as Hage.
    destruct (Z.leb_spec 150 (age_in_years dob today)) as [Ha|Ha].
    { destruct (_ <? 0); discriminate E3. }
    rewrite rule4_eq in H4.
    destruct (date_sub_days today 183) as [six|] eqn:Esix; bind_simpl in H4;
      [|discriminate H4].
    injection H4 as H4.
    apply app_nil_inv in H4 as (G1 & H4).
    apply app_nil_inv in H4 as (G2 & G3).
    destruct (date_gt sd today) eqn:Egs; [discriminate G1|].
    destruct (date_lt sd dob) eqn:Eld; [discriminate G2|].
    destruct (date_lt sd six) eqn:Els; [discriminate G3|].
    destruct (date_sub_days_ok _ _ _ Esix) as [Vsix Osix].
    rewrite (date_lt_toordinal _ _ (parse_date_valid _ _ Hsd) Vsix),
      Osix, Z.ltb_ge in Els.
    repeat split; auto; try lia.
    intros G. rewrite G in Eid. discriminate Eid.
Qed.

End Claims.






(** * The claims on concrete inputs *)

(** ** C1: reading the fields *)

(** C1 (counterexample): the label "Patient ID" is present, with an empty
    value, and yet the identifier read is the one under "PatientID"; with
    both labels present and not empty the identifier read can be empty; and
    a tab inside the health card number is kept. *)
Lemma first_present_label_does_not_win :
  first_present [u "Patient ID"; u "PatientID"] record_two_ids = u ""
  /\ get_patient_id (U := unicode_excerpt) record_two_ids = u "P2"
  /\ record_blank_id !! u "Patient ID" = Some (u "  ")
  /\ record_blank_id !! u "PatientID" = Some (u "P2")
  /\ get_patient_id (U := unicode_excerpt) record_blank_id = u ""
  /\ In CHARACTER_TABULATION (get_health_card (U := unicode_excerpt) record_tab)
  /\ uni_isspace (Unicode := unicode_excerpt) CHARACTER_TABULATION = true.
Proof. vm_compute. intuition. Qed.

(** C1 (amended): the identifier is the value under "Patient ID" when that
    is present and not empty, else the value under "PatientID" when that is
    present and not empty, else empty; every field read is stripped of the
    white space at its ends; the health card number first loses every
    space character, so that "1234 567 890" is read as "1234567890". *)
Theorem fields_extracted :
  (forall (U : Unicode) (raw_record : gmap str str),
      @get_patient_id U raw_record
      = @strip U (first_nonempty [u "Patient ID"; u "PatientID"] raw_record)
      /\ @get_health_card U raw_record
         = @strip U (replace_char (chr " ")
                       (first_nonempty [u "Health Card Number"] raw_record))
      /\ @get_version_code U raw_record
         = @strip U (first_nonempty [u "Version Code"] raw_record)
      /\ @get_dob_str U raw_record
         = @strip U (first_nonempty [u "Date of Birth"] raw_record)
      /\ @get_service_str U raw_record
         = @strip U (first_nonempty [u "Service Date"] raw_record)
      /\ @stripped U (@get_patient_id U raw_record)
      /\ @stripped U (@get_health_card U raw_record)
      /\ @stripped U (@get_version_code U raw_record)
      /\ @stripped U (@get_dob_str U raw_record)
      /\ @stripped U (@get_service_str U raw_record)
      /\ ~ In (chr " ") (@get_health_card U raw_record))
  /\ @get_health_card unicode_excerpt
       {[ u "Health Card Number" := u "1234 567 890" ]}
     = u "1234567890".
Proof.
  split; [|vm_compute; reflexivity].
  intros U raw_record.
  destruct (@fields_read U raw_record) as (H1 & H2 & H3 & H4 & H5).
  destruct (@fields_stripped U raw_record) as (S1 & S2 & S3 & S4 & S5 & S6).
  repeat split; assumption.
Qed.

(** ** C2 and C3: an exception out of the checksum *)

(** C3: [luhn_check] on the one-character string "²" (U+00B2): the
    string passes [str.isdigit], and [int] raises [ValueError] on it. *)
Theorem luhn_check_superscript_raises :
  @isdigit unicode_excerpt [SUPERSCRIPT_TWO] = true
  /\ @uni_decimal unicode_excerpt SUPERSCRIPT_TWO = None
  /\ @luhn_check unicode_excerpt [SUPERSCRIPT_TWO] = Raise ValueError.
Proof. vm_compute. auto. Qed.

(** C2: [validate_record] on a record whose health card number is ten
    times "²": the call raises [ValueError]; and on a record whose service
    date parses, with a reference date in the first half of year 1: the
    call raises [OverflowError]. *)
Theorem validate_record_raises_on_superscript :
  @validate_record unicode_excerpt record_superscript sample_today
  = Raise ValueError
  /\ @validate_record unicode_excerpt record_ok (mkdate 1 3 1)
     = Raise OverflowError.
Proof. vm_compute. auto. Qed.

(** On a non-empty string of ASCII digits [luhn_check] returns the MOD-10
    result of the specification. *)
Lemma ascii_digit_cases c :
  is_ascii_digit c = true ->
  @uni_isdigit unicode_excerpt c = true
  /\ @py_int unicode_excerpt [c] = Ok (ascii_digit_value c).
Proof.
  unfold is_ascii_digit. intros H. apply andb_prop in H as [H1 H2].
  apply N.leb_le in H1, H2.
  assert (c = 48 \/ c = 49 \/ c = 50 \/ c = 51 \/ c = 52 \/ c = 53
          \/ c = 54 \/ c = 55 \/ c = 56 \/ c = 57)%N as C by lia.
  repeat destruct C as [->|C]; try subst c; vm_compute; auto.
Qed.

Lemma luhn_check_ascii_digits number :
  number <> [] -> forallb is_ascii_digit number = true ->
  @luhn_check unicode_excerpt number
  = Ok (luhn_reference (List.map ascii_digit_value number)).
Proof.
  intros Hne Hall.
  assert (forallb (@uni_isdigit unicode_excerpt) number = true
          /\ @int_each unicode_excerpt number
             = Ok (List.map ascii_digit_value number)) as [Hd Hi].
  { clear Hne. induction number as [|c t IH]; [auto|].
    cbn [forallb] in Hall. apply andb_prop in Hall as [Hc Ht].
    destruct (ascii_digit_cases c Hc) as [Hc1 Hc2].
    destruct (IH Ht) as [IH1 IH2]. split.
    - cbn [forallb]. rewrite Hc1, IH1. reflexivity.
    - cbn [int_each List.map]. rewrite Hc2, IH2. reflexivity. }
  apply luhn_check_decimal; [|exact Hi].
  unfold isdigit. rewrite Hd. destruct number; [contradiction|reflexivity].
Qed.

Example luhn_check_examples :
  @luhn_check unicode_excerpt (u "1234567890") = Ok false
  /\ @luhn_check unicode_excerpt (u "1234567897") = Ok true
  /\ @luhn_check unicode_excerpt (u "79927398713") = Ok true
  /\ @luhn_check unicode_excerpt (u "12a") = Ok false
  /\ @luhn_check unicode_excerpt (u "") = Ok false.
Proof. vm_compute. auto. Qed.

(** ** C6: an accepted version code *)

(** C6: [validate_record] accepts a record whose version code is "A"
    followed by the ideograph U+4E2D, which is a letter but not an
    uppercase one. *)
Theorem accepted_version_code_not_uppercase :
  (exists r,
      @validate_record unicode_excerpt record_ideograph sample_today
      = Ok (true, [], Some r)
      /\ VersionCode r = [chr "A"; CJK_MIDDLE])
  /\ @uni_isalpha unicode_excerpt CJK_MIDDLE = true
  /\ @uni_isupper unicode_excerpt CJK_MIDDLE = false.
Proof.
  split; [|vm_compute; auto].
  eexists. split; vm_compute; reflexivity.
Qed.

(** ** C4: the order of the errors *)

Lemma scenario_B_prefix (raw_record : gmap str str) today b errs rec :
  raw_record !! u "Health Card Number" = Some (u "12345") ->
  raw_record !! u "Version Code" = Some (u "on") ->
  raw_record !! u "Date of Birth" = Some (u "2999-01-01") ->
  date_lt today (mkdate 2999 1 1) = true ->
  @validate_record unicode_excerpt raw_record today = Ok (b, errs, rec) ->
  b = false
  /\ exists rest, errs = [E_HC_LENGTH; E_VC_UPPER; E_DOB_FUTURE] ++ rest.
Proof.
  intros Hhc Hvc Hdob Htoday H.
  assert (@get_health_card unicode_excerpt raw_record = u "12345") as Ehc
    by (unfold get_health_card; rewrite Hhc; vm_compute; reflexivity).
  assert (@get_version_code unicode_excerpt raw_record = u "on") as Evc
    by (unfold get_version_code; rewrite Hvc; vm_compute; reflexivity).
  assert (@get_dob_str unicode_excerpt raw_record = u "2999-01-01") as Edob
    by (unfold get_dob_str; rewrite Hdob; vm_compute; reflexivity).
  pose proof (validate_record_ok _ _ _ _ _ H) as (_ & Hb & _).
  apply validate_record_errors in H as (e1 & e4 & H1 & _ & -> & _).
  rewrite Ehc in H1. rewrite Evc, Edob.
  assert (e1 = [E_HC_LENGTH]) as ->
    by (vm_compute in H1; injection H1 as <-; reflexivity).
  change (@parse_date unicode_excerpt (u "2999-01-01"))
    with (Some (mkdate 2999 1 1)).
  rewrite rule3_eq. unfold date_gt. rewrite Htoday.
  change (@rule2 unicode_excerpt (u "on") []) with [E_VC_UPPER].
  change (@parse_errors unicode_excerpt F_DOB (u "2999-01-01"))
    with (@nil str).
  split; [rewrite Hb; reflexivity|].
  eexists. reflexivity.
Qed.

(** C4: the errors that [validate_record] returns come in the order of the
    rules: health card number, version code, date of birth, service date,
    identifier.  For a health card number "12345", a version code "on" and
    a date of birth "2999-01-01" the list starts with the length error,
    the uppercase error and the "in the future" error, in this order; with
    a valid service date the error "before date of birth" follows. *)
Theorem errors_in_rule_order :
  (forall (U : Unicode) raw_record today b errs rec,
      @validate_record U raw_record today = Ok (b, errs, rec) ->
      Sorted le (List.map rule_of errs)
      /\ List.Forall (fun m => (1 <= rule_of m <= 5)%nat) errs)
  /\ (forall (raw_record : gmap str str) today b errs rec,
         raw_record !! u "Health Card Number" = Some (u "12345") ->
         raw_record !! u "Version Code" = Some (u "on") ->
         raw_record !! u "Date of Birth" = Some (u "2999-01-01") ->
         date_lt today (mkdate 2999 1 1) = true ->
         @validate_record unicode_excerpt raw_record today
         = Ok (b, errs, rec) ->
         b = false
         /\ exists rest,
             errs = [E_HC_LENGTH; E_VC_UPPER; E_DOB_FUTURE] ++ rest)
  /\ @validate_record unicode_excerpt record_B sample_today
     = Ok (false,
           [E_HC_LENGTH; E_VC_UPPER; E_DOB_FUTURE; E_SVC_BEFORE_DOB],
           None).
Proof.
  split; [|split].
  - intros U. exact (@errors_sorted U).
  - exact scenario_B_prefix.
  - vm_compute. reflexivity.
Qed.

(** ** C7: the six-month window on sample records *)

(** C7 (witness): on 2025-01-01 the service date 2024-07-02, 183 days
    back, is not reported. *)
Lemma six_month_window_witness :
  (exists six_months_ago,
      date_sub_days sample_today 183 = Ok six_months_ago
      /\ toordinal six_months_ago = toordinal sample_today - 183
      /\ (In E_SVC_OLD [] <->
          date_lt (mkdate 2024 7 2) six_months_ago = true))
  /\ (In E_SVC_OLD [] <->
      toordinal (mkdate 2024 7 2) < toordinal sample_today - 183)
  /\ (toordinal sample_today - toordinal (mkdate 2024 7 2) = 183 ->
      ~ In E_SVC_OLD [])
  /\ (toordinal sample_today - toordinal (mkdate 2024 7 2) = 184 ->
      In E_SVC_OLD []).
Proof.
  eapply (@six_month_window unicode_excerpt record_183 sample_today
            (mkdate 2024 7 2)).
  - reflexivity.
  - vm_compute. reflexivity.
  - vm_compute. reflexivity.
Defined.

(** The service date 2024-07-01, 184 days back, is reported. *)
Example six_month_window_184 :
  toordinal sample_today - toordinal (mkdate 2024 7 1) = 184
  /\ @validate_record unicode_excerpt record_184 sample_today
     = Ok (false, [E_SVC_OLD], None).
Proof. vm_compute. auto. Qed.

(** ** C9: parse_date_flex *)

(** C9: [parse_date_flex] works on the text with the white space at its
    two ends taken away: padding a text with white space changes neither
    what [strip] returns nor the result, what [strip] returns starts and
    ends with a character that is not white space, and what it takes away
    is white space.  A text that is empty or white space only gives no date
    and the message "... is empty"; otherwise the result is that of the
    first of the five patterns, in their order, under which the stripped
    text parses, and when there is none the "not a valid date" message is
    appended.  The five spellings of 2024-01-31 parse to that day, also
    between spaces, a tab and a line feed; "", a text of white space and
    "not-a-date" do not parse, nor does a date with spaces inside. *)
Theorem parse_date_flex_spec :
  patterns
  = [u "%Y-%m-%d"; u "%Y/%m/%d"; u "%d-%m-%Y"; u "%d/%m/%Y"; u "%Y%m%d"]
  /\ (forall (U : Unicode) s field_name errors,
         @parse_date_flex U s field_name errors
         = @parse_date_flex U (@strip U s) field_name errors
         /\ (@strip U s = [] ->
             @parse_date_flex U s field_name errors
             = Ok (None, errors ++ [field_name ++ u " is empty"]))
         /\ (@strip U s <> [] ->
             (exists pre p post x,
                 patterns = pre ++ p :: post
                 /\ Forall
                      (fun q => @strptime U (@strip U s) q = Raise ValueError)
                      pre
                 /\ @strptime U (@strip U s) p = Ok x
                 /\ @parse_date_flex U s field_name errors
                    = Ok (Some x, errors))
             \/ (Forall
                   (fun q => @strptime U (@strip U s) q = Raise ValueError)
                   patterns
                 /\ @parse_date_flex U s field_name errors
                    = Ok (None,
                          errors
                          ++ [field_name
                              ++ u " is not a valid date in supported formats (expected something like YYYY-MM-DD)"]))))
  /\ (forall (U : Unicode) ws1 s ws2 field_name errors,
         forallb (@uni_isspace U) ws1 = true ->
         forallb (@uni_isspace U) ws2 = true ->
         @strip U (ws1 ++ s ++ ws2) = @strip U s
         /\ @parse_date_flex U (ws1 ++ s ++ ws2) field_name errors
            = @parse_date_flex U s field_name errors)
  /\ (forall (U : Unicode) s c t,
         @strip U s = c :: t ->
         @uni_isspace U c = false
         /\ @uni_isspace U (List.last (c :: t) c) = false
         /\ exists ws1 ws2,
              s = ws1 ++ (c :: t) ++ ws2
              /\ forallb (@uni_isspace U) ws1 = true
              /\ forallb (@uni_isspace U) ws2 = true)
  /\ (forall (U : Unicode) ws field_name errors,
         forallb (@uni_isspace U) ws = true ->
         @parse_date_flex U ws field_name errors
         = Ok (None, errors ++ [field_name ++ u " is empty"]))
  /\ List.Forall
       (fun s =>
          @parse_date_flex unicode_excerpt (u s) F_DOB []
          = Ok (Some (mkdate 2024 1 31), []))
       ["2024-01-31"; "2024/01/31"; "31-01-2024"; "31/01/2024";
        "20240131"]%string
  /\ List.Forall
       (fun s =>
          @parse_date_flex unicode_excerpt
            ([CHARACTER_TABULATION] ++ u s ++ [LINE_FEED]) F_DOB []
          = Ok (Some (mkdate 2024 1 31), []))
       [" 2024-01-31 "; "2024/01/31  "; "  31-01-2024"; " 31/01/2024";
        "20240131 "]%string
  /\ @parse_date_flex unicode_excerpt (u "") F_DOB []
     = Ok (None, [u "Date of birth is empty"])
  /\ @parse_date_flex unicode_excerpt
       (u "  " ++ [CHARACTER_TABULATION; LINE_FEED]) F_DOB []
     = Ok (None, [u "Date of birth is empty"])
  /\ @parse_date_flex unicode_excerpt (u "2024 - 01 - 31") F_DOB []
     = Ok (None,
           [u "Date of birth is not a valid date in supported formats (expected something like YYYY-MM-DD)"])
  /\ @parse_date_flex unicode_excerpt (u "not-a-date") F_DOB []
     = Ok (None,
           [u "Date of birth is not a valid date in supported formats (expected something like YYYY-MM-DD)"]).
Proof.
  split; [reflexivity|]. split.
  { intros U s field_name errors. split; [|split].
    - apply parse_date_flex_strip.
    - apply parse_date_flex_blank.
    - apply parse_date_flex_first. }
  split.
  { intros U ws1 s ws2 field_name errors H1 H2.
    pose proof (@strip_padding U ws1 s ws2 H1 H2) as E. split; [exact E|].
    rewrite (@parse_date_flex_strip U (ws1 ++ s ++ ws2)), E.
    symmetry. apply parse_date_flex_strip. }
  split.
  { intros U s c t E.
    destruct (@strip_ends U s c t E) as [Hc Hl].
    split; [exact Hc|]. split; [exact Hl|].
    apply strip_decompose. exact E. }
  split.
  { intros U ws field_name errors H.
    apply parse_date_flex_blank, strip_blank, H. }
  split; [repeat constructor; vm_compute; reflexivity|].
  split; [repeat constructor; vm_compute; reflexivity|].
  repeat split; vm_compute; reflexivity.
Qed.

(** ** Sample runs *)

(** Scenario A of the specification, with a health card number that does
    pass the checksum. *)
Example record_ok_accepted :
  @validate_record unicode_excerpt record_ok sample_today
  = Ok (true, [],
        Some (mkPatientRecord (u "P001") (u "1234567897") (u "ON")
                (u "1990-05-15") (u "2025-01-01"))).
Proof. vm_compute. reflexivity. Qed.

Example age_in_years_examples :
  age_in_years (mkdate 2000 12 31) (mkdate 2025 1 1) = 24
  /\ age_in_years (mkdate 2000 1 1) (mkdate 2025 1 1) = 25.
Proof. vm_compute. auto. Qed.

(** A batch of three records: two accepted, one rejected, each list in
    input order. *)
Example main_validate_sample :
  exists valid_records error_info,
    @main_validate unicode_excerpt [record_ok; record_B; record_183]
      sample_today
    = Ok (valid_records, error_info, (3, 2, 1)%nat)
    /\ List.map ServiceDate valid_records = [u "2025-01-01"; u "2024-07-02"]
    /\ List.map fst error_info = [u "P001"].
Proof. do 2 eexists. vm_compute. auto. Qed.

(** * Further properties of the code *)

(** ** luhn_check: what the check digit detects *)

(** The sum that decides the MOD-10 check, check digit included. *)
Lemma luhn_reference_sum digits :
  luhn_reference digits
  = ((Zsum (imap luhn_transform (rev (removelast digits)))
      + List.last digits 0) mod 10 =? 0).
Proof. reflexivity. Qed.

Lemma Zsum_app l1 l2 : Zsum (l1 ++ l2) = Zsum l1 + Zsum l2.
Proof. induction l1 as [|x l1 IH]; simpl; [reflexivity|]. rewrite IH. lia. Qed.

Lemma removelast_app_cons {A} (l : list A) x y t :
  removelast (l ++ x :: y :: t) = l ++ x :: removelast (y :: t).
Proof.
  rewrite removelast_app by discriminate. reflexivity.
Qed.

(** The weight of the digit that has [k] digits to its right: the check
    digit counts as it is, the digits before it are transformed by their
    distance to it. *)
Lemma luhn_sum_split (pre post : list Z) :
  exists rest_sum,
    forall y,
      Zsum (imap luhn_transform (rev (removelast (pre ++ y :: post))))
      + List.last (pre ++ y :: post) 0
      = rest_sum
        + match post with
          | [] => y
          | _ :: _ => luhn_transform (length post - 1) y
          end.
Proof.
  destruct post as [|p post].
  - exists (Zsum (imap luhn_transform (rev pre))). intros y.
    rewrite removelast_last, last_last. reflexivity.
  - exists (Zsum (imap luhn_transform (rev (removelast (p :: post))))
            + Zsum (imap (fun j => luhn_transform
                                     (length (rev (removelast (p :: post)))
                                      + S j)) (rev pre))
            + List.last (p :: post) 0).
    intros y.
    rewrite removelast_app_cons, last_app_cons.
    rewrite rev_app_distr. cbn [rev]. rewrite <- app_assoc. cbn [app].
    rewrite imap_app, Zsum_app. cbn [imap Zsum fold_right].
    rewrite Nat.add_0_r.
    assert (length (rev (removelast (p :: post))) = (length (p :: post) - 1)%nat)
      as Hlen.
    { rewrite length_rev.
      pose proof (app_removelast_last 0 (l := p :: post) ltac:(discriminate))
        as E.
      apply (f_equal (@length Z)) in E. rewrite length_app in E.
      simpl in E |- *. lia. }
    rewrite Hlen.
    rewrite (imap_ext _ (fun j => luhn_transform (length (p :: post) - 1 + S j)) (rev pre))
      by (intros; reflexivity).
    fold (Zsum (imap (fun j => luhn_transform (length (p :: post) - 1 + S j))
                  (rev pre))).
    change (List.last (y :: p :: post) 0) with (List.last (p :: post) 0).
    lia.
Qed.

(** On the digits 0 to 9 the transformation is one to one, and stays
    within 0 to 9. *)
Lemma luhn_transform_injective k a b :
  0 <= a <= 9 -> 0 <= b <= 9 ->
  0 <= luhn_transform k a <= 9
  /\ (luhn_transform k a = luhn_transform k b -> a = b).
Proof.
  unfold luhn_transform. intros Ha Hb.
  destruct (Nat.even k); [|lia].
  destruct (Z.ltb_spec 9 (2 * a)); destruct (Z.ltb_spec 9 (2 * b)); lia.
Qed.

Lemma ascii_digit_value_range c :
  is_ascii_digit c = true -> 0 <= ascii_digit_value c <= 9.
Proof.
  unfold is_ascii_digit, ascii_digit_value. intros H.
  apply andb_prop in H as [H1 H2]. apply N.leb_le in H1, H2. lia.
Qed.

Lemma ascii_digit_value_inj a b :
  ascii_digit_value a = ascii_digit_value b -> a = b.
Proof. unfold ascii_digit_value. lia. Qed.

(** The sum behind [luhn_check] on ASCII digits, with one digit singled
    out. *)
Lemma luhn_check_split pre post :
  forallb is_ascii_digit pre = true -> forallb is_ascii_digit post = true ->
  exists rest_sum (weight : Z -> Z),
    (forall v w, 0 <= v <= 9 -> 0 <= w <= 9 ->
                 0 <= weight v <= 9 /\ (weight v = weight w -> v = w))
    /\ (post = [] -> forall v, weight v = v)
    /\ forall c,
        is_ascii_digit c = true ->
        @luhn_check unicode_excerpt (pre ++ c :: post)
        = Ok ((rest_sum + weight (ascii_digit_value c)) mod 10 =? 0).
Proof.
  intros Hpre Hpost.
  destruct (luhn_sum_split (List.map ascii_digit_value pre)
              (List.map ascii_digit_value post)) as [rest_sum Hsum].
  exists rest_sum.
  exists (fun v => match List.map ascii_digit_value post with
                   | [] => v
                   | _ :: _ => luhn_transform (length post - 1) v
                   end).
  split; [|split].
  - intros v w Hv Hw. destruct (List.map ascii_digit_value post); [lia|].
    apply luhn_transform_injective; assumption.
  - intros -> v. reflexivity.
  - intros c Hc.
    rewrite luhn_check_ascii_digits.
    + rewrite luhn_reference_sum, map_app. cbn [List.map].
      rewrite Hsum, length_map. reflexivity.
    + destruct pre; discriminate.
    + rewrite forallb_app. cbn [forallb]. rewrite Hpre, Hc, Hpost. reflexivity.
Qed.

(** X1: on strings of ASCII digits, replacing any one digit of a number
    that passes [luhn_check] by a different digit gives a number that
    fails it. *)
Theorem luhn_check_detects_single_digit_error pre a b post :
  forallb is_ascii_digit (pre ++ a :: post) = true ->
  is_ascii_digit b = true ->
  a <> b ->
  @luhn_check unicode_excerpt (pre ++ a :: post) = Ok true ->
  @luhn_check unicode_excerpt (pre ++ b :: post) = Ok false.
Proof.
  intros Hall Hb Hab.
  rewrite forallb_app in Hall. cbn [forallb] in Hall.
  apply andb_prop in Hall as [Hpre Hrest].
  apply andb_prop in Hrest as [Ha Hpost].
  destruct (luhn_check_split pre post Hpre Hpost)
    as (rest_sum & weight & Hw & _ & Hcheck).
  rewrite (Hcheck a Ha), (Hcheck b Hb).
  pose proof (ascii_digit_value_range a Ha) as Ra.
  pose proof (ascii_digit_value_range b Hb) as Rb.
  destruct (Hw _ _ Ra Rb) as [Wa Winj].
  destruct (Hw _ _ Rb Ra) as [Wb _].
  intros [= Hzero]. f_equal.
  apply Z.eqb_eq in Hzero. apply Z.eqb_neq. intros Hzero'.
  assert (weight (ascii_digit_value a) = weight (ascii_digit_value b)) as E
    by (Z.div_mod_to_equations; lia).
  apply Winj, ascii_digit_value_inj in E. contradiction.
Qed.

(** X1 (witness): 1234567897 passes, 1234567890 does not. *)
Lemma luhn_check_detects_single_digit_error_witness :
  @luhn_check unicode_excerpt (u "123456789" ++ chr "0" :: []) = Ok false.
Proof.
  apply (luhn_check_detects_single_digit_error (u "123456789") (chr "7")
           (chr "0") []).
  - reflexivity.
  - reflexivity.
  - discriminate.
  - vm_compute. reflexivity.
Defined.

(** X2: every string of ASCII digits has exactly one check digit: one
    digit that, appended to it, makes a number that passes [luhn_check]. *)
Theorem luhn_check_digit_exists_unique body :
  forallb is_ascii_digit body = true ->
  exists c,
    is_ascii_digit c = true
    /\ @luhn_check unicode_excerpt (body ++ [c]) = Ok true
    /\ forall c',
        is_ascii_digit c' = true ->
        @luhn_check unicode_excerpt (body ++ [c']) = Ok true ->
        c' = c.
Proof.
  intros Hbody.
  destruct (luhn_check_split body [] Hbody eq_refl)
    as (rest_sum & weight & _ & Hid & Hcheck).
  specialize (Hid eq_refl).
  set (v := (- rest_sum) mod 10).
  assert (0 <= v <= 9) as Hv by (subst v; Z.div_mod_to_equations; lia).
  exists (Z.to_N (48 + v)).
  assert (is_ascii_digit (Z.to_N (48 + v)) = true) as Hc.
  { unfold is_ascii_digit. apply andb_true_intro.
    split; apply N.leb_le; lia. }
  assert (ascii_digit_value (Z.to_N (48 + v)) = v) as Hval
    by (unfold ascii_digit_value; lia).
  split; [exact Hc|]. split.
  - rewrite (Hcheck _ Hc), Hid, Hval. f_equal. apply Z.eqb_eq.
    subst v. Z.div_mod_to_equations. lia.
  - intros c' Hc' H'. rewrite (Hcheck _ Hc'), Hid in H'.
    injection H' as H'. apply Z.eqb_eq in H'.
    pose proof (ascii_digit_value_range c' Hc') as Rc'.
    apply ascii_digit_value_inj. rewrite Hval.
    subst v. Z.div_mod_to_equations. lia.
Qed.

(** X2 (witness): the check digit of 123456789 is 7. *)
Lemma luhn_check_digit_exists_unique_witness :
  exists c,
    is_ascii_digit c = true
    /\ @luhn_check unicode_excerpt (u "123456789" ++ [c]) = Ok true
    /\ forall c',
        is_ascii_digit c' = true ->
        @luhn_check unicode_excerpt (u "123456789" ++ [c']) = Ok true ->
        c' = c.
Proof.
  apply (luhn_check_digit_exists_unique (u "123456789")). reflexivity.
Defined.

(** ** parse_date_flex: the contract *)

(** X4: [parse_date_flex] never raises.  Either it returns a date, which
    is then a day of the calendar (year 1 to 9999, a month, a day of that
    month), and leaves [errors] as it was; or it returns [None] and appends
    exactly one message, which starts with the field name. *)
Theorem parse_date_flex_contract {U : Unicode} s field_name errors :
  (exists x,
      parse_date_flex s field_name errors = Ok (Some x, errors)
      /\ date_valid x)
  \/ (exists text,
         parse_date_flex s field_name errors
         = Ok (None, errors ++ [field_name ++ text])).
Proof.
  rewrite parse_date_flex_eq.
  destruct (parse_errors_cases field_name s)
    as [(_ & -> & ->)|[(_ & -> & ->)|(x & Hx & ->)]].
  - right. eauto.
  - right. eauto.
  - left. exists x. rewrite Hx, app_nil_r. split; [reflexivity|].
    exact (parse_date_valid _ _ Hx).
Qed.

(** ** age_in_years *)

(** X5: [age_in_years dob today] is [n] exactly when [today] is on or
    after the [n]-th anniversary of [dob] (same month and day, [n] years
    later) and before the next one, in the order of dates. *)
Theorem age_in_years_anniversaries dob today n :
  age_in_years dob today = n <->
  date_lt today (mkdate (year dob + n) (month dob) (day dob)) = false
  /\ date_lt today (mkdate (year dob + n + 1) (month dob) (day dob)) = true.
Proof.
  unfold age_in_years, pair_lt, date_lt. cbn [fst snd year month day].
  repeat match goal with
         | |- context [?a <? ?b] => destruct (Z.ltb_spec a b)
         | |- context [?a =? ?b] => destruct (Z.eqb_spec a b)
         end; cbn [orb andb]; split; intros; try lia;
    try (split; congruence); intuition (try discriminate; try lia).
Qed.

(** X6: the age never goes down as [today] moves on. *)
Theorem age_in_years_monotone dob today1 today2 :
  date_lt today2 today1 = false ->
  age_in_years dob today1 <= age_in_years dob today2.
Proof.
  unfold age_in_years, pair_lt, date_lt. cbn [fst snd].
  repeat match goal with
         | |- context [?a <? ?b] => destruct (Z.ltb_spec a b)
         | |- context [?a =? ?b] => destruct (Z.eqb_spec a b)
         end; cbn [orb andb]; intros; try discriminate; lia.
Qed.

(** X6 (witness): from the day before a birthday to the birthday. *)
Lemma age_in_years_monotone_witness :
  age_in_years (mkdate 2000 12 31) (mkdate 2024 12 30)
  <= age_in_years (mkdate 2000 12 31) (mkdate 2024 12 31).
Proof.
  apply (age_in_years_monotone (mkdate 2000 12 31) (mkdate 2024 12 30)
           (mkdate 2024 12 31)).
  reflexivity.
Defined.

(** ** validate_record: what an outcome guarantees *)

Section Outcomes.
Context {U : Unicode}.

(** X7: when [validate_record] returns, [is_valid] is true exactly when
    the list of errors is empty, and there is a record exactly then.  The
    record holds the fields as read; its health card number passed the
    digit, length and checksum checks, its version code the length, letter
    and uppercase checks; both dates parsed and are written by
    [isoformat]; the date of birth is not after [today] and the age is
    below 150; the service date is not after [today], not before the date
    of birth and at most 183 days back; the identifier is not empty. *)
Theorem accepted_record_checked raw_record today b errs rec :
  validate_record raw_record today = Ok (b, errs, rec) ->
  (b = true <-> errs = [])
  /\ (b = false <-> rec = None)
  /\ (b = true ->
      exists dob service_date,
        rec = Some (mkPatientRecord (get_patient_id raw_record)
                      (get_health_card raw_record)
                      (get_version_code raw_record)
                      (isoformat dob) (isoformat service_date))
        /\ get_patient_id raw_record <> []
        /\ isdigit (get_health_card raw_record) = true
        /\ length (get_health_card raw_record) = 10%nat
        /\ luhn_check (get_health_card raw_record) = Ok true
        /\ length (get_version_code raw_record) = 2%nat
        /\ isalpha (get_version_code raw_record) = true
        /\ isupper (get_version_code raw_record) = true
        /\ parse_date (get_dob_str raw_record) = Some dob
        /\ parse_date (get_service_str raw_record) = Some service_date
        /\ date_gt dob today = false
        /\ 0 <= age_in_years dob today < 150
        /\ date_gt service_date today = false
        /\ date_lt service_date dob = false
        /\ toordinal today - toordinal service_date <= 183).
Proof.
  intros H.
  destruct (accepted_record_invariants _ _ _ _ _ H) as (H1 & H2 & H3).
  split; [exact H1|]. split; [|exact H3].
  split; [exact H2|].
  intros ->. destruct b; [|reflexivity].
  destruct (H3 eq_refl) as (? & ? & E & _). discriminate E.
Qed.

(** X8: the only exceptions that [validate_record] raises are the
    [ValueError] of the checksum, on a health card number of 10 characters
    that pass [str.isdigit] one of which [int] rejects, and the
    [OverflowError] of [today - timedelta(days=183)], when the service
    date parses and [today] is one of the first 183 days of year 1. *)
Theorem validate_record_only_raises raw_record today e :
  date_valid today ->
  validate_record raw_record today = Raise e ->
  (e = ValueError
   /\ isdigit (get_health_card raw_record) = true
   /\ length (get_health_card raw_record) = 10%nat
   /\ exists c, In c (get_health_card raw_record)
                /\ py_int [c] = Raise ValueError)
  \/ (e = OverflowError
      /\ (exists service_date,
             parse_date (get_service_str raw_record) = Some service_date)
      /\ toordinal today <= 183).
Proof. apply validate_record_exceptions. Qed.

(** [validate_record] is a function of the five fields it reads. *)
Lemma validate_record_by_fields raw1 raw2 today :
  get_patient_id raw1 = get_patient_id raw2 ->
  get_health_card raw1 = get_health_card raw2 ->
  get_version_code raw1 = get_version_code raw2 ->
  get_dob_str raw1 = get_dob_str raw2 ->
  get_service_str raw1 = get_service_str raw2 ->
  validate_record raw1 today = validate_record raw2 today.
Proof.
  intros H1 H2 H3 H4 H5. rewrite !validate_record_eq.
  unfold collect_errors, decide_validity, normalized.
  rewrite H1, H2, H3, H4, H5. reflexivity.
Qed.

Lemma fields_by_labels (raw1 raw2 : gmap str str) :
  (forall k, In k LABELS -> raw1 !! k = raw2 !! k) ->
  get_patient_id raw1 = get_patient_id raw2
  /\ get_health_card raw1 = get_health_card raw2
  /\ get_version_code raw1 = get_version_code raw2
  /\ get_dob_str raw1 = get_dob_str raw2
  /\ get_service_str raw1 = get_service_str raw2.
Proof.
  intros H.
  unfold get_patient_id, get_health_card, get_version_code, get_dob_str,
    get_service_str.
  rewrite !(H (u "Patient ID")), !(H (u "PatientID")),
    !(H (u "Health Card Number")), !(H (u "Version Code")),
    !(H (u "Date of Birth")), !(H (u "Service Date"))
    by (unfold LABELS; simpl; tauto).
  auto.
Qed.

(** X9: [validate_record] looks at six labels only: two raw records that
    agree on "Patient ID", "PatientID", "Health Card Number", "Version
    Code", "Date of Birth" and "Service Date" have the same outcome,
    whatever other labels they hold. *)
Theorem validate_record_ignores_other_labels
    (raw1 raw2 : gmap str str) today :
  (forall k, In k LABELS -> raw1 !! k = raw2 !! k) ->
  validate_record raw1 today = validate_record raw2 today.
Proof.
  intros H. destruct (fields_by_labels _ _ H) as (H1 & H2 & H3 & H4 & H5).
  apply validate_record_by_fields; assumption.
Qed.

End Outcomes.

(** X7 (witness): the record that passes every rule. *)
Lemma accepted_record_checked_witness :
  (true = true <-> @nil str = [])
  /\ (true = false <->
      Some (mkPatientRecord (u "P001") (u "1234567897") (u "ON")
              (u "1990-05-15") (u "2025-01-01")) = None)
  /\ (true = true ->
      exists dob service_date,
        Some (mkPatientRecord (u "P001") (u "1234567897") (u "ON")
                (u "1990-05-15") (u "2025-01-01"))
        = Some (mkPatientRecord (@get_patient_id unicode_excerpt record_ok)
                  (@get_health_card unicode_excerpt record_ok)
                  (@get_version_code unicode_excerpt record_ok)
                  (isoformat dob) (isoformat service_date))
        /\ @get_patient_id unicode_excerpt record_ok <> []
        /\ @isdigit unicode_excerpt (@get_health_card unicode_excerpt record_ok)
           = true
        /\ length (@get_health_card unicode_excerpt record_ok) = 10%nat
        /\ @luhn_check unicode_excerpt
             (@get_health_card unicode_excerpt record_ok) = Ok true
        /\ length (@get_version_code unicode_excerpt record_ok) = 2%nat
        /\ @isalpha unicode_excerpt
             (@get_version_code unicode_excerpt record_ok) = true
        /\ @isupper unicode_excerpt
             (@get_version_code unicode_excerpt record_ok) = true
        /\ @parse_date unicode_excerpt (@get_dob_str unicode_excerpt record_ok)
           = Some dob
        /\ @parse_date unicode_excerpt
             (@get_service_str unicode_excerpt record_ok)
           = Some service_date
        /\ date_gt dob sample_today = false
        /\ 0 <= age_in_years dob sample_today < 150
        /\ date_gt service_date sample_today = false
        /\ date_lt service_date dob = false
        /\ toordinal sample_today - toordinal service_date <= 183).
Proof.
  apply (@accepted_record_checked unicode_excerpt record_ok sample_today).
  vm_compute. reflexivity.
Defined.

(** X8 (witness): the health card number of ten "²". *)
Lemma validate_record_only_raises_witness :
  (ValueError = ValueError
   /\ @isdigit unicode_excerpt
        (@get_health_card unicode_excerpt record_superscript) = true
   /\ length (@get_health_card unicode_excerpt record_superscript) = 10%nat
   /\ exists c, In c (@get_health_card unicode_excerpt record_superscript)
                /\ @py_int unicode_excerpt [c] = Raise ValueError)
  \/ (ValueError = OverflowError
      /\ (exists service_date,
             @parse_date unicode_excerpt
               (@get_service_str unicode_excerpt record_superscript)
             = Some service_date)
      /\ toordinal sample_today <= 183).
Proof.
  apply (@validate_record_only_raises unicode_excerpt record_superscript
           sample_today ValueError).
  - reflexivity.
  - vm_compute. reflexivity.
Defined.

(** X9 (witness): a column of notes changes nothing. *)
Lemma validate_record_ignores_other_labels_witness :
  @validate_record unicode_excerpt record_ok sample_today
  = @validate_record unicode_excerpt
      (<[u "Notes" := u "seen twice"]> record_ok) sample_today.
Proof.
  apply (@validate_record_ignores_other_labels unicode_excerpt).
  intros k Hk. symmetry. apply lookup_insert_ne.
  unfold LABELS in Hk. simpl in Hk.
  intros <-. repeat destruct Hk as [Hk|Hk]; try discriminate Hk; exact Hk.
Defined.

(** ** validate_record: the size of the error list *)

Lemma NoDup_disjoint_app {A} (l1 l2 : list A) :
  NoDup l1 -> NoDup l2 -> (forall x, In x l1 -> In x l2 -> False) ->
  NoDup (l1 ++ l2).
Proof.
  intros H1 H2 H. apply NoDup_app. repeat split; try assumption.
  intros x Hx1 Hx2. apply list_elem_of_In in Hx1, Hx2. exact (H x Hx1 Hx2).
Qed.

Lemma NoDup_single {A} (x : A) : NoDup [x].
Proof. apply NoDup_singleton. Qed.

Lemma NoDup_blocks (b1 b2 b3 b4 b5 : list str) :
  List.Forall (fun x => rule_of x = 1%nat) b1 ->
  List.Forall (fun x => rule_of x = 2%nat) b2 ->
  List.Forall (fun x => rule_of x = 3%nat) b3 ->
  List.Forall (fun x => rule_of x = 4%nat) b4 ->
  List.Forall (fun x => rule_of x = 5%nat) b5 ->
  NoDup b1 -> NoDup b2 -> NoDup b3 -> NoDup b4 -> NoDup b5 ->
  NoDup (b1 ++ b2 ++ b3 ++ b4 ++ b5).
Proof.
  intros F1 F2 F3 F4 F5 N1 N2 N3 N4 N5.
  assert (List.Forall (fun x : str => rule_of x = 1%nat) []) as E1
    by constructor.
  assert (List.Forall (fun x : str => rule_of x = 2%nat) []) as E2
    by constructor.
  assert (List.Forall (fun x : str => rule_of x = 3%nat) []) as E3
    by constructor.
  assert (List.Forall (fun x : str => rule_of x = 4%nat) []) as E4
    by constructor.
  pose proof F1 as G1. pose proof F2 as G2. pose proof F3 as G3.
  pose proof F4 as G4.
  rewrite List.Forall_forall in G1, G2, G3, G4.
  apply NoDup_disjoint_app; [exact N1| |].
  2: { intros x Hx1 Hx2. apply G1 in Hx1.
       change (In x ([] ++ b2 ++ b3 ++ b4 ++ b5)) in Hx2.
       rewrite (in_blocks _ _ _ _ _ _ E1 F2 F3 F4 F5), Hx1 in Hx2.
       exact Hx2. }
  apply NoDup_disjoint_app; [exact N2| |].
  2: { intros x Hx1 Hx2. apply G2 in Hx1.
       change (In x ([] ++ [] ++ b3 ++ b4 ++ b5)) in Hx2.
       rewrite (in_blocks _ _ _ _ _ _ E1 E2 F3 F4 F5), Hx1 in Hx2.
       exact Hx2. }
  apply NoDup_disjoint_app; [exact N3| |].
  2: { intros x Hx1 Hx2. apply G3 in Hx1.
       change (In x ([] ++ [] ++ [] ++ b4 ++ b5)) in Hx2.
       rewrite (in_blocks _ _ _ _ _ _ E1 E2 E3 F4 F5), Hx1 in Hx2.
       exact Hx2. }
  apply NoDup_disjoint_app; [exact N4|exact N5|].
  intros x Hx1 Hx2. apply G4 in Hx1.
  change (In x ([] ++ [] ++ [] ++ [] ++ b5)) in Hx2.
  rewrite (in_blocks _ _ _ _ _ _ E1 E2 E3 E4 F5), Hx1 in Hx2.
  exact Hx2.
Qed.

Section ErrorCount.
Context {U : Unicode}.

Lemma rule1_small health_card e1 :
  rule1 health_card [] = Ok e1 -> NoDup e1 /\ (length e1 <= 1)%nat.
Proof.
  intros H.
  destruct (rule1_cases _ _ H)
    as [(_ & ->)|[(_ & _ & ->)|[(_ & _ & ->)|[(_ & _ & _ & ->)
       |(_ & _ & _ & ->)]]]]; simpl;
    (split; [try apply NoDup_single; apply NoDup_nil_2 | lia]).
Qed.

Lemma rule2_small version_code :
  NoDup (rule2 version_code []) /\ (length (rule2 version_code []) <= 1)%nat.
Proof.
  destruct (rule2_cases version_code)
    as [(_ & ->)|[(_ & _ & ->)|[(_ & _ & ->)|[(_ & _ & _ & ->)
       |(_ & _ & _ & ->)]]]]; simpl;
    (split; [try apply NoDup_single; apply NoDup_nil_2 | lia]).
Qed.

Lemma rule3_small s today :
  NoDup (parse_errors F_DOB s ++ rule3 (parse_date s) today [])
  /\ (length (parse_errors F_DOB s ++ rule3 (parse_date s) today []) <= 1)%nat.
Proof.
  rewrite rule3_eq.
  destruct (parse_errors_cases F_DOB s)
    as [(_ & -> & ->)|[(_ & -> & ->)|(x & -> & ->)]]; cbn [app length].
  - split; [apply NoDup_single | lia].
  - split; [apply NoDup_single | lia].
  - destruct (date_gt x today) eqn:Eg.
    + split; [apply NoDup_single | simpl; lia].
    + pose proof (age_in_years_nonneg _ _ Eg).
      destruct (Z.ltb_spec (age_in_years x today) 0); [lia|].
      destruct (150 <=? _); cbn [app length];
        (split; [try apply NoDup_single; apply NoDup_nil_2 | lia]).
Qed.

Lemma rule4_small s dob today e4 :
  date_valid today ->
  rule4 (parse_date s) dob today [] = Ok e4 ->
  NoDup (parse_errors F_SERVICE s ++ e4)
  /\ (length (parse_errors F_SERVICE s ++ e4) <= 2)%nat.
Proof.
  intros Htoday. rewrite rule4_eq.
  destruct (parse_errors_cases F_SERVICE s)
    as [(_ & -> & ->)|[(_ & -> & ->)|(x & Hx & ->)]].
  - intros [= <-]. split; [apply NoDup_single | simpl; lia].
  - intros [= <-]. split; [apply NoDup_single | simpl; lia].
  - rewrite Hx. pose proof (parse_date_valid _ _ Hx) as Vx.
    destruct (date_sub_days today 183) as [six|] eqn:Esix; bind_simpl;
      [|discriminate].
    destruct (date_sub_days_ok _ _ _ Esix) as [Vsix Osix].
    intros [= <-]. cbn [app].
    unfold date_gt.
    rewrite (date_lt_toordinal _ _ Htoday Vx),
      (date_lt_toordinal _ _ Vx Vsix), Osix.
    assert (E_SVC_FUTURE <> E_SVC_BEFORE_DOB) as N1
      by (intros G; msg_absurd G).
    assert (E_SVC_FUTURE <> E_SVC_OLD) as N2 by (intros G; msg_absurd G).
    assert (E_SVC_BEFORE_DOB <> E_SVC_OLD) as N3 by (intros G; msg_absurd G).
    destruct (Z.ltb_spec (toordinal today) (toordinal x));
      destruct (Z.ltb_spec (toordinal x) (toordinal today - 183));
      try lia;
      destruct dob as [dob|]; try destruct (date_lt x dob);
      cbn [app length];
      (split; [|lia]);
      repeat (constructor;
              [intros G; apply list_elem_of_In in G; simpl in G;
               intuition congruence|]);
      constructor.
Qed.

Lemma rule5_small patient_id :
  NoDup (rule5 patient_id []) /\ (length (rule5 patient_id []) <= 1)%nat.
Proof.
  rewrite rule5_eq. destruct (truthy patient_id); simpl;
    (split; [try apply NoDup_single; apply NoDup_nil_2 | lia]).
Qed.

(** X10: for a valid reference date, the list of errors that
    [validate_record] returns holds no message twice and at most six
    messages: at most one for the health card number, one for the version
    code, one for the date of birth, two for the service date (it cannot be
    both in the future and more than six months back) and one for the
    identifier. *)
Theorem errors_distinct_and_few raw_record today b errs rec :
  date_valid today ->
  validate_record raw_record today = Ok (b, errs, rec) ->
  NoDup errs
  /\ (length errs <= 6)%nat
  /\ (length (List.filter (fun m => Nat.eqb (rule_of m) 3) errs) <= 1)%nat
  /\ (length (List.filter (fun m => Nat.eqb (rule_of m) 4) errs) <= 2)%nat.
Proof.
  intros Htoday H.
  apply validate_record_errors in H
    as (e1 & e4 & H1 & H4 & -> & F1 & F2 & F3 & F4 & F5).
  destruct (rule1_small _ _ H1) as [N1 L1].
  destruct (rule2_small (get_version_code raw_record)) as [N2 L2].
  destruct (rule3_small (get_dob_str raw_record) today) as [N3 L3].
  destruct (rule4_small _ _ _ _ Htoday H4) as [N4 L4].
  destruct (rule5_small (get_patient_id raw_record)) as [N5 L5].
  rewrite !(filter_blocks _ _ _ _ _ _ F1 F2 F3 F4 F5).
  split; [|split; [|split]]; [|rewrite !length_app in *; lia|exact L3|exact L4].
  apply NoDup_blocks; assumption.
Qed.

End ErrorCount.

(** X10 (witness): a record with six errors. *)
Lemma errors_distinct_and_few_witness :
  NoDup [E_HC_MISSING; E_VC_MISSING; E_DOB_FUTURE; E_SVC_FUTURE;
         E_SVC_BEFORE_DOB; E_ID_MISSING]
  /\ (length [E_HC_MISSING; E_VC_MISSING; E_DOB_FUTURE; E_SVC_FUTURE;
              E_SVC_BEFORE_DOB; E_ID_MISSING] <= 6)%nat
  /\ (length (List.filter (fun m => Nat.eqb (rule_of m) 3)
                [E_HC_MISSING; E_VC_MISSING; E_DOB_FUTURE; E_SVC_FUTURE;
                 E_SVC_BEFORE_DOB; E_ID_MISSING]) <= 1)%nat
  /\ (length (List.filter (fun m => Nat.eqb (rule_of m) 4)
                [E_HC_MISSING; E_VC_MISSING; E_DOB_FUTURE; E_SVC_FUTURE;
                 E_SVC_BEFORE_DOB; E_ID_MISSING]) <= 2)%nat.
Proof.
  apply (@errors_distinct_and_few unicode_excerpt record_six_errors
           sample_today false _ None).
  - reflexivity.
  - vm_compute. reflexivity.
Defined.

(** ** validate_record: white space in the values *)

Section WhiteSpace.
Context {U : Unicode}.

Lemma replace_char_app old a b :
  replace_char old (a ++ b) = replace_char old a ++ replace_char old b.
Proof. apply List.filter_app. Qed.

Lemma replace_char_spaces old ws :
  forallb uni_isspace ws = true ->
  forallb uni_isspace (replace_char old ws) = true.
Proof.
  induction ws as [|c ws IH]; [reflexivity|]. cbn [forallb].
  intros H. apply andb_prop in H as [Hc H]. unfold replace_char in *.
  cbn [List.filter]. destruct (negb _); cbn [forallb]; rewrite ?Hc; auto.
Qed.

Lemma py_or_padded (raw : gmap str str) k ws1 v ws2 alt :
  v <> [] ->
  py_or (<[k := ws1 ++ v ++ ws2]> raw !! k) alt = ws1 ++ v ++ ws2
  /\ py_or (<[k := v]> raw !! k) alt = v.
Proof.
  intros Hv. rewrite !lookup_insert_eq. unfold py_or.
  destruct v as [|c v]; [contradiction|].
  destruct ws1; split; reflexivity.
Qed.

(** The five fields are the same whether a non-empty value is padded with
    white space or not. *)
Lemma py_or_first (x : option str) (a b : str) :
  strip a = strip b -> strip (py_or x a) = strip (py_or x b).
Proof.
  intros E. destruct x as [[|c s]|]; cbn [py_or truthy]; try exact E.
  reflexivity.
Qed.

Lemma fields_ignore_padding (raw : gmap str str) k ws1 v ws2 :
  forallb uni_isspace ws1 = true -> forallb uni_isspace ws2 = true ->
  v <> [] ->
  get_patient_id (<[k := ws1 ++ v ++ ws2]> raw)
  = get_patient_id (<[k := v]> raw)
  /\ get_health_card (<[k := ws1 ++ v ++ ws2]> raw)
     = get_health_card (<[k := v]> raw)
  /\ get_version_code (<[k := ws1 ++ v ++ ws2]> raw)
     = get_version_code (<[k := v]> raw)
  /\ get_dob_str (<[k := ws1 ++ v ++ ws2]> raw)
     = get_dob_str (<[k := v]> raw)
  /\ get_service_str (<[k := ws1 ++ v ++ ws2]> raw)
     = get_service_str (<[k := v]> raw).
Proof.
  intros H1 H2 Hv.
  assert (forall (k' : str) alt,
             strip (py_or (<[k := ws1 ++ v ++ ws2]> raw !! k') alt)
             = strip (py_or (<[k := v]> raw !! k') alt)) as Hstrip.
  { intros k' alt. destruct (decide (k = k')) as [<-|Hne].
    - destruct (py_or_padded raw k ws1 v ws2 alt Hv) as [-> ->].
      apply strip_padding; assumption.
    - rewrite !lookup_insert_ne by exact Hne. reflexivity. }
  assert (forall (k' : str) alt,
             strip (replace_char (chr " ")
                      (py_or (<[k := ws1 ++ v ++ ws2]> raw !! k') alt))
             = strip (replace_char (chr " ")
                        (py_or (<[k := v]> raw !! k') alt))) as Hcard.
  { intros k' alt. destruct (decide (k = k')) as [<-|Hne].
    - destruct (py_or_padded raw k ws1 v ws2 alt Hv) as [-> ->].
      rewrite !replace_char_app.
      apply strip_padding; apply replace_char_spaces; assumption.
    - rewrite !lookup_insert_ne by exact Hne. reflexivity. }
  unfold get_patient_id, get_health_card, get_version_code, get_dob_str,
    get_service_str.
  repeat split; try apply Hstrip; try apply Hcard.
  (* the identifier: the second label is the alternative of the first *)
  destruct (decide (k = u "PatientID")) as [->|Hne].
  - rewrite (lookup_insert_ne raw (u "PatientID") (u "Patient ID")
               (ws1 ++ v ++ ws2)) by discriminate.
    rewrite (lookup_insert_ne raw (u "PatientID") (u "Patient ID") v)
      by discriminate.
    apply py_or_first, Hstrip.
  - rewrite (lookup_insert_ne raw k (u "PatientID") (ws1 ++ v ++ ws2))
      by exact Hne.
    rewrite (lookup_insert_ne raw k (u "PatientID") v) by exact Hne.
    apply Hstrip.
Qed.

(** X11: white space around a non-empty value makes no difference: with
    the value of any label padded by white space on either side,
    [validate_record] gives the same outcome as with the bare value. *)
Theorem validate_record_ignores_padding
    (raw_record : gmap str str) today k ws1 v ws2 :
  forallb uni_isspace ws1 = true -> forallb uni_isspace ws2 = true ->
  v <> [] ->
  validate_record (<[k := ws1 ++ v ++ ws2]> raw_record) today
  = validate_record (<[k := v]> raw_record) today.
Proof.
  intros H1 H2 Hv.
  destruct (fields_ignore_padding raw_record k ws1 v ws2 H1 H2 Hv)
    as (E1 & E2 & E3 & E4 & E5).
  apply validate_record_by_fields; assumption.
Qed.

(** X12: spaces (U+0020) anywhere in the health card number make no
    difference to the outcome of [validate_record]. *)
Theorem validate_record_ignores_card_spaces
    (raw_record : gmap str str) today a b :
  validate_record
    (<[u "Health Card Number" := a ++ chr " " :: b]> raw_record) today
  = validate_record (<[u "Health Card Number" := a ++ b]> raw_record) today.
Proof.
  apply validate_record_by_fields;
    unfold get_patient_id, get_health_card, get_version_code, get_dob_str,
      get_service_str;
    rewrite ?lookup_insert_eq;
    rewrite ?lookup_insert_ne by discriminate; try reflexivity.
  f_equal. unfold py_or.
  assert (replace_char (chr " ") (a ++ chr " " :: b)
          = replace_char (chr " ") (a ++ b)) as E.
  { rewrite !replace_char_app. reflexivity. }
  destruct (a ++ chr " " :: b) as [|x l] eqn:E1;
    [destruct a; discriminate E1|].
  cbn [truthy]. rewrite E.
  destruct (a ++ b) as [|y l']; reflexivity.
Qed.

End WhiteSpace.

(** X11 (witness): the version code "ON" between a tab and two spaces. *)
Lemma validate_record_ignores_padding_witness :
  @validate_record unicode_excerpt
    (<[u "Version Code" := [CHARACTER_TABULATION] ++ u "ON" ++ u "  "]>
       record_ok) sample_today
  = @validate_record unicode_excerpt
      (<[u "Version Code" := u "ON"]> record_ok) sample_today.
Proof.
  apply (@validate_record_ignores_padding unicode_excerpt).
  - reflexivity.
  - reflexivity.
  - discriminate.
Defined.

(** ** Reading the tables *)

Section ExtractionFacts.
Context {U : Unicode}.

Lemma fill_row_fold headers row : forall idx row_dict,
  fill_row headers idx row row_dict
  = fold_left (fun d kv => <[kv.1 := kv.2]> d)
      (zip (drop idx headers) (List.map cell_text row)) row_dict.
Proof.
  induction row as [|c rest IH]; intros idx d.
  - destruct (drop idx headers); reflexivity.
  - cbn [fill_row List.map].
    destruct (Nat.leb_spec (length headers) idx) as [Hle|Hlt].
    + rewrite IH. rewrite !drop_ge by lia. reflexivity.
    + rewrite IH.
      destruct (lookup_lt_is_Some_2 headers idx Hlt) as [k Hk].
      rewrite (drop_S _ _ _ Hk). cbn [zip zip_with fold_left fst snd].
      rewrite (nth_lookup_Some _ _ _ _ Hk). reflexivity.
Qed.

Lemma fold_insert_list_to_map (l : list (str * str)) : forall d : gmap str str,
  fold_left (fun d kv => <[kv.1 := kv.2]> d) l d
  = list_to_map (rev l) ∪ d.
Proof.
  induction l as [|[k v] l IH]; intros d.
  - cbn. rewrite (left_id_L ∅ (∪)). reflexivity.
  - cbn [fold_left rev fst snd]. rewrite IH.
    rewrite list_to_map_app. cbn [list_to_map foldr fst snd uncurry].
    rewrite <- (assoc_L (∪)). f_equal.
    rewrite insert_union_singleton_l.
    rewrite insert_empty. reflexivity.
Qed.

Lemma fill_row_record headers row :
  fill_row headers 0 row ∅ = record_of_row headers row.
Proof.
  rewrite fill_row_fold, fold_insert_list_to_map. unfold record_of_row.
  rewrite drop_0. apply (right_id_L ∅ (∪)).
Qed.

Lemma extract_rows_acc headers rows : forall records,
  extract_rows headers rows records
  = records ++ List.map (record_of_row headers)
                 (List.filter (fun row => negb (forallb cell_blank row)) rows).
Proof.
  induction rows as [|row rest IH]; intros records.
  - cbn. rewrite app_nil_r. reflexivity.
  - cbn [extract_rows List.filter]. destruct row as [|c row].
    + cbn. apply IH.
    + destruct (forallb cell_blank (c :: row)); cbn [negb].
      * apply IH.
      * rewrite IH, fill_row_record. cbn [List.map].
        rewrite <- app_assoc. reflexivity.
Qed.

Lemma extract_pages_acc pages : forall records,
  extract_pages pages records
  = records ++ flat_map records_of_page pages.
Proof.
  induction pages as [|page rest IH]; intros records.
  - cbn. rewrite app_nil_r. reflexivity.
  - cbn [extract_pages flat_map].
    destruct page as [[|[|c header_row] data]|]; cbn [records_of_page];
      try apply IH.
    rewrite IH, extract_rows_acc, <- app_assoc. reflexivity.
Qed.

End ExtractionFacts.
Section ExtractionLookup.
Context {U : Unicode}.

Lemma fill_row_miss headers k row : forall idx row_dict,
  (forall j, (j < length row)%nat -> headers !! (idx + j)%nat <> Some k) ->
  fill_row headers idx row row_dict !! k = row_dict !! k.
Proof.
  induction row as [|c rest IH]; intros idx d Hno; [reflexivity|].
  cbn [fill_row].
  assert (forall j, (j < length rest)%nat ->
                    headers !! (S idx + j)%nat <> Some k) as Hrest.
  { intros j Hj. replace (S idx + j)%nat with (idx + S j)%nat by lia.
    apply Hno. cbn [length]. lia. }
  destruct (Nat.leb_spec (length headers) idx) as [Hle|Hlt].
  - apply IH, Hrest.
  - rewrite (IH _ _ Hrest).
    destruct (lookup_lt_is_Some_2 headers idx Hlt) as [k' Hk].
    rewrite (nth_lookup_Some _ _ _ _ Hk).
    apply lookup_insert_ne. intros ->.
    apply (Hno 0%nat); [cbn [length]; lia|].
    rewrite Nat.add_0_r. exact Hk.
Qed.

Lemma fill_row_hit headers k c row : forall idx j row_dict,
  row !! j = Some c ->
  headers !! (idx + j)%nat = Some k ->
  (forall j', (j < j')%nat -> (j' < length row)%nat ->
              headers !! (idx + j')%nat <> Some k) ->
  fill_row headers idx row row_dict !! k = Some (cell_text c).
Proof.
  induction row as [|c0 rest IH]; intros idx j d Hc Hk Hlast;
    [discriminate Hc|].
  cbn [fill_row]. destruct j as [|j].
  - injection Hc as ->. rewrite Nat.add_0_r in Hk.
    assert ((length headers <=? idx)%nat = false) as ->.
    { apply Nat.leb_gt. apply lookup_lt_is_Some. eauto. }
    rewrite (nth_lookup_Some _ _ _ _ Hk).
    rewrite fill_row_miss; [apply lookup_insert_eq|].
    intros j Hj. replace (S idx + j)%nat with (idx + S j)%nat by lia.
    apply Hlast; cbn [length]; lia.
  - cbn in Hc.
    assert (forall j', (j < j')%nat -> (j' < length rest)%nat ->
                       headers !! (S idx + j')%nat <> Some k) as Hrest.
    { intros j' H1 H2. replace (S idx + j')%nat with (idx + S j')%nat by lia.
      apply Hlast; cbn [length]; lia. }
    replace (idx + S j)%nat with (S idx + j)%nat in Hk by lia.
    destruct (length headers <=? idx)%nat; eapply IH; eassumption.
Qed.

Lemma fill_row_origin headers k v row : forall idx row_dict,
  fill_row headers idx row row_dict !! k = Some v ->
  row_dict !! k = Some v
  \/ exists j c, row !! j = Some c /\ headers !! (idx + j)%nat = Some k
                 /\ v = cell_text c.
Proof.
  induction row as [|c rest IH]; intros idx d H; [left; exact H|].
  cbn [fill_row] in H.
  assert (forall d',
             fill_row headers (S idx) rest d' !! k = Some v ->
             d' !! k = Some v
             \/ exists j c', (c :: rest) !! j = Some c'
                  /\ headers !! (idx + j)%nat = Some k /\ v = cell_text c')
    as Hstep.
  { intros d' H'. destruct (IH _ _ H') as [G|(j & c' & G1 & G2 & G3)];
      [left; exact G|right].
    exists (S j), c'. split; [exact G1|]. split; [|exact G3].
    replace (idx + S j)%nat with (S idx + j)%nat by lia. exact G2. }
  destruct (Nat.leb_spec (length headers) idx) as [Hle|Hlt].
  - apply Hstep, H.
  - destruct (Hstep _ H) as [G|G]; [|right; exact G].
    destruct (lookup_lt_is_Some_2 headers idx Hlt) as [k' Hk].
    rewrite (nth_lookup_Some _ _ _ _ Hk) in G.
    destruct (decide (k' = k)) as [->|Hne].
    + rewrite lookup_insert_eq in G. injection G as <-.
      right. exists 0%nat, c. rewrite Nat.add_0_r. auto.
    + rewrite lookup_insert_ne in G by exact Hne. left; exact G.
Qed.

Lemma fill_row_keeps headers k row : forall idx row_dict,
  is_Some (row_dict !! k) ->
  is_Some (fill_row headers idx row row_dict !! k).
Proof.
  induction row as [|c rest IH]; intros idx d Hd; [exact Hd|].
  cbn [fill_row]. destruct (length headers <=? idx)%nat; apply IH;
    [exact Hd|].
  destruct (decide (nth idx headers (u "") = k)) as [->|Hne].
  - rewrite lookup_insert_eq. eauto.
  - rewrite lookup_insert_ne by exact Hne. exact Hd.
Qed.

(** The records of a batch, each with the table and the row it is read
    from. *)
Lemma extract_records_In pages r :
  In r (extract_records_from_pdf pages) <->
  exists header_row data row,
    In (Some (header_row :: data)) pages /\ header_row <> []
    /\ In row data /\ forallb cell_blank row = false
    /\ r = fill_row (List.map cell_text header_row) 0 row ∅.
Proof.
  unfold extract_records_from_pdf. rewrite extract_pages_acc.
  cbn [app]. rewrite in_flat_map. split.
  - intros (page & Hp & Hr).
    destruct page as [[|[|c header_row] data]|]; cbn [records_of_page] in Hr;
      try contradiction.
    apply in_map_iff in Hr as (row & <- & Hrow).
    apply List.filter_In in Hrow as [Hrow Hb].
    exists (c :: header_row), data, row.
    repeat split; try assumption; try discriminate.
    + destruct (forallb cell_blank row); [discriminate Hb|reflexivity].
    + symmetry. apply fill_row_record.
  - intros (header_row & data & row & Hp & Hh & Hrow & Hb & ->).
    exists (Some (header_row :: data)). split; [exact Hp|].
    destruct header_row as [|c header_row]; [contradiction|].
    cbn [records_of_page]. apply in_map_iff. exists row.
    split; [symmetry; apply fill_row_record|].
    apply List.filter_In. split; [exact Hrow|]. rewrite Hb. reflexivity.
Qed.

Lemma cell_text_stripped c : strip (cell_text c) = cell_text c.
Proof. destruct c as [s|]; [apply strip_idempotent|reflexivity]. Qed.

Lemma cell_blank_text c : cell_blank c = false -> cell_text c <> [].
Proof.
  destruct c as [s|]; cbn [cell_blank cell_text]; [|discriminate].
  intros H E. rewrite E in H. discriminate H.
Qed.

End ExtractionLookup.
Section ExtractionTheorems.
Context {U : Unicode}.

(** X13: the loops of [extract_records_from_pdf] give, page after page and
    row after row, one record for each data row that has a cell with text,
    in the tables whose header row is not empty; the record pairs each
    header with the stripped text of the cell below it, the last column
    winning among columns with the same header. *)
Theorem extract_records_comprehension pages :
  extract_records_from_pdf pages = flat_map records_of_page pages.
Proof.
  unfold extract_records_from_pdf. rewrite extract_pages_acc. reflexivity.
Qed.

(** X14: a record of the batch comes from a data row of a table of the
    batch; under a header it holds the stripped text of the cell in the
    last column of the row with that header, it has no other keys, and it
    is never the empty dictionary. *)
Theorem extracted_record_columns pages r :
  In r (extract_records_from_pdf pages) ->
  exists header_row data row,
    In (Some (header_row :: data)) pages /\ In row data
    /\ (forall j k c,
           row !! j = Some c ->
           List.map cell_text header_row !! j = Some k ->
           (forall j', (j < j')%nat -> (j' < length row)%nat ->
                       List.map cell_text header_row !! j' <> Some k) ->
           r !! k = Some (cell_text c))
    /\ (forall k v,
           r !! k = Some v ->
           exists j c, row !! j = Some c
                       /\ List.map cell_text header_row !! j = Some k
                       /\ v = cell_text c)
    /\ r <> ∅.
Proof.
  intros H. apply extract_records_In in H
    as (header_row & data & row & Hp & Hh & Hrow & Hb & ->).
  exists header_row, data, row. split; [exact Hp|]. split; [exact Hrow|].
  split; [|split].
  - intros j k c Hc Hk Hlast. apply (fill_row_hit _ _ _ _ 0%nat j); assumption.
  - intros k v Hkv. apply fill_row_origin in Hkv as [Hkv|Hkv];
      [rewrite lookup_empty in Hkv; discriminate Hkv|exact Hkv].
  - destruct header_row as [|h header_row]; [contradiction|].
    destruct row as [|c row]; [discriminate Hb|].
    cbn [fill_row List.map length Nat.leb nth]. intros E.
    destruct (fill_row_keeps (cell_text h :: List.map cell_text header_row)
                (cell_text h) row 1%nat (<[cell_text h := cell_text c]> ∅))
      as [v Hv].
    + rewrite lookup_insert_eq. eauto.
    + rewrite E, lookup_empty in Hv. discriminate Hv.
Qed.

End ExtractionTheorems.
Section ExtractionStripped.
Context {U : Unicode}.

Lemma strip_fixed c t :
  uni_isspace c = false -> uni_isspace (List.last (c :: t) c) = false ->
  strip (c :: t) = c :: t.
Proof.
  intros Hc Hl. unfold strip, rstrip. rewrite (lstrip_fixed _ _ Hc).
  destruct (rev (c :: t)) as [|y ys] eqn:E.
  - apply (f_equal (@length _)) in E. rewrite length_rev in E.
    discriminate E.
  - rewrite (rev_head_last _ _ _ c E) in Hl.
    rewrite (lstrip_fixed _ _ Hl), <- E. apply rev_involutive.
Qed.

Lemma strip_fixed_iff s :
  strip s = s <->
  match s with
  | [] => True
  | c :: t =>
      uni_isspace c = false /\ uni_isspace (List.last (c :: t) c) = false
  end.
Proof.
  destruct s as [|c t]; [split; reflexivity|]. split.
  - apply strip_ends.
  - intros [Hc Hl]. apply strip_fixed; assumption.
Qed.

(** Deleting the spaces of a stripped string leaves a stripped string. *)
Lemma strip_replace_fixed s :
  uni_isspace (chr " ") = true -> strip s = s ->
  strip (replace_char (chr " ") s) = replace_char (chr " ") s.
Proof.
  intros Hsp Hs. destruct s as [|c t]; [reflexivity|].
  apply strip_fixed_iff in Hs as [Hc Hl].
  unfold replace_char.
  set (f := fun x => negb (N.eqb x (chr " "))).
  assert (forall x, uni_isspace x = false -> f x = true) as Hkeep.
  { intros x Hx. unfold f.
    destruct (N.eqb_spec x (chr " ")) as [->|]; [|reflexivity].
    rewrite Hsp in Hx. discriminate Hx. }
  assert (List.filter f (c :: t) = c :: List.filter f t) as E0.
  { cbn [List.filter]. rewrite (Hkeep _ Hc). reflexivity. }
  rewrite E0. apply strip_fixed; [exact Hc|]. rewrite <- E0.
  destruct (rev (c :: t)) as [|y ys] eqn:E.
  - apply (f_equal (@length _)) in E. rewrite length_rev in E.
    discriminate E.
  - rewrite (rev_head_last _ _ _ c E) in Hl.
    rewrite (rev_head_last _ y (List.filter f ys) c); [exact Hl|].
    rewrite <- List.filter_rev.
    transitivity (List.filter f (y :: ys)); [f_equal; exact E|].
    cbn [List.filter]. rewrite (Hkeep _ Hl). reflexivity.
Qed.

Lemma py_or_fixed (x : option str) (alt : str) :
  (forall v, x = Some v -> strip v = v) -> strip alt = alt ->
  strip (py_or x alt) = py_or x alt.
Proof.
  intros Hx Halt. destruct x as [[|c s]|]; cbn [py_or truthy];
    try exact Halt.
  apply Hx. reflexivity.
Qed.

(** X15: the keys and the values of the records of a batch are stripped
    of white space at both ends. *)
Theorem extracted_record_stripped pages r k v :
  In r (extract_records_from_pdf pages) ->
  r !! k = Some v ->
  strip k = k /\ strip v = v.
Proof.
  intros H Hkv. apply extract_records_In in H
    as (header_row & data & row & _ & _ & _ & _ & ->).
  apply fill_row_origin in Hkv as [Hkv|(j & c & _ & Hk & ->)];
    [rewrite lookup_empty in Hkv; discriminate Hkv|].
  split; [|apply cell_text_stripped].
  cbn [Nat.add] in Hk. apply list_lookup_fmap_Some in Hk as (c' & -> & _).
  apply cell_text_stripped.
Qed.

(** X16: on a record of a batch the [strip] calls of [validate_record]
    change nothing: the fields it checks are the texts of the cells as
    extracted (the identifier under the first of its two labels that has a
    text), the health card number with its spaces deleted. *)
Theorem extracted_fields_verbatim pages r :
  uni_isspace (chr " ") = true ->
  In r (extract_records_from_pdf pages) ->
  get_patient_id r
  = py_or (r !! u "Patient ID") (py_or (r !! u "PatientID") (u ""))
  /\ get_health_card r
     = replace_char (chr " ") (py_or (r !! u "Health Card Number") (u ""))
  /\ get_version_code r = py_or (r !! u "Version Code") (u "")
  /\ get_dob_str r = py_or (r !! u "Date of Birth") (u "")
  /\ get_service_str r = py_or (r !! u "Service Date") (u "").
Proof.
  intros Hsp H.
  assert (forall k v, r !! k = Some v -> strip v = v) as Hv.
  { intros k v Hkv. apply extract_records_In in H
      as (header_row & data & row & _ & _ & _ & _ & ->).
    apply fill_row_origin in Hkv as [Hkv|(j & c & _ & _ & ->)];
      [rewrite lookup_empty in Hkv; discriminate Hkv|].
    apply cell_text_stripped. }
  unfold get_patient_id, get_health_card, get_version_code, get_dob_str,
    get_service_str.
  repeat split.
  - apply py_or_fixed; [apply Hv|]. apply py_or_fixed; [apply Hv|reflexivity].
  - apply strip_replace_fixed; [exact Hsp|].
    apply py_or_fixed; [apply Hv|reflexivity].
  - apply py_or_fixed; [apply Hv|reflexivity].
  - apply py_or_fixed; [apply Hv|reflexivity].
  - apply py_or_fixed; [apply Hv|reflexivity].
Qed.

Lemma forallb_false_lookup {A} (f : A -> bool) (l : list A) :
  forallb f l = false -> exists j x, l !! j = Some x /\ f x = false.
Proof.
  induction l as [|x l IH]; [discriminate|]. cbn [forallb].
  destruct (f x) eqn:Hx.
  - intros H. destruct (IH H) as (j & y & Hj & Hy). exists (S j), y. auto.
  - intros _. exists 0%nat, x. auto.
Qed.

(** X17: when the headers of every table are distinct and no row is longer
    than the header row of its table, every record of the batch has a
    value that is not empty. *)
Theorem extracted_record_not_blank pages r :
  List.Forall table_regular pages ->
  In r (extract_records_from_pdf pages) ->
  exists k v, r !! k = Some v /\ v <> [].
Proof.
  intros Hreg H. apply extract_records_In in H
    as (header_row & data & row & Hp & _ & Hrow & Hb & ->).
  rewrite List.Forall_forall in Hreg. specialize (Hreg _ Hp).
  cbn [table_regular] in Hreg. destruct Hreg as [Hnd Hlen].
  rewrite List.Forall_forall in Hlen. specialize (Hlen _ Hrow).
  apply forallb_false_lookup in Hb as (j & c & Hc & Hblank).
  assert (j < length (List.map cell_text header_row))%nat as Hj.
  { rewrite length_map. apply lookup_lt_Some in Hc. lia. }
  destruct (lookup_lt_is_Some_2 _ _ Hj) as [k Hk].
  exists k, (cell_text c). split; [|apply cell_blank_text, Hblank].
  apply (fill_row_hit _ _ _ _ 0%nat j); [exact Hc|exact Hk|].
  intros j' Hlt _ Hk'. cbn [Nat.add] in Hk'.
  pose proof (NoDup_lookup _ _ _ _ Hnd Hk Hk'). lia.
Qed.

End ExtractionStripped.

(** X14 (witness): the record of the sample page. *)
Lemma extracted_record_columns_witness :
  exists header_row data row,
    In (Some (header_row :: data)) [None; sample_page] /\ In row data
    /\ (forall j k c,
           row !! j = Some c ->
           List.map (@cell_text unicode_excerpt) header_row !! j = Some k ->
           (forall j', (j < j')%nat -> (j' < length row)%nat ->
                       List.map (@cell_text unicode_excerpt) header_row !! j'
                       <> Some k) ->
           record_ok !! k = Some (@cell_text unicode_excerpt c))
    /\ (forall k v,
           record_ok !! k = Some v ->
           exists j c, row !! j = Some c
                       /\ List.map (@cell_text unicode_excerpt) header_row !! j
                          = Some k
                       /\ v = @cell_text unicode_excerpt c)
    /\ record_ok <> ∅.
Proof.
  apply (@extracted_record_columns unicode_excerpt [None; sample_page]).
  left. vm_compute. reflexivity.
Defined.

(** X15 (witness): the version code of the record of the sample page. *)
Lemma extracted_record_stripped_witness :
  @strip unicode_excerpt (u "Version Code") = u "Version Code"
  /\ @strip unicode_excerpt (u "ON") = u "ON".
Proof.
  apply (@extracted_record_stripped unicode_excerpt [None; sample_page]
           record_ok).
  - left. vm_compute. reflexivity.
  - vm_compute. reflexivity.
Defined.

(** X16 (witness): the fields of the record of the sample page. *)
Lemma extracted_fields_verbatim_witness :
  @get_patient_id unicode_excerpt record_ok
  = py_or (record_ok !! u "Patient ID")
      (py_or (record_ok !! u "PatientID") (u ""))
  /\ @get_health_card unicode_excerpt record_ok
     = replace_char (chr " ")
         (py_or (record_ok !! u "Health Card Number") (u ""))
  /\ @get_version_code unicode_excerpt record_ok
     = py_or (record_ok !! u "Version Code") (u "")
  /\ @get_dob_str unicode_excerpt record_ok
     = py_or (record_ok !! u "Date of Birth") (u "")
  /\ @get_service_str unicode_excerpt record_ok
     = py_or (record_ok !! u "Service Date") (u "").
Proof.
  apply (@extracted_fields_verbatim unicode_excerpt [None; sample_page]).
  - reflexivity.
  - left. vm_compute. reflexivity.
Defined.

(** X17 (witness): the record of the sample page. *)
Lemma extracted_record_not_blank_witness :
  exists k v, record_ok !! k = Some v /\ v <> [].
Proof.
  apply (@extracted_record_not_blank unicode_excerpt [None; sample_page]).
  - apply List.Forall_cons; [exact I|].
    apply List.Forall_cons; [|apply List.Forall_nil]. split.
    + apply (bool_decide_unpack _). vm_compute. exact I.
    + repeat apply List.Forall_cons; try apply List.Forall_nil;
        cbn [length cells List.map]; lia.
  - left. vm_compute. reflexivity.
Defined.

(** Without the two conditions a record can hold empty values only: a row
    whose only text lies beyond the header row. *)
Example extracted_record_blank :
  @extract_records_from_pdf unicode_excerpt
    [Some [cells ["Patient ID"]%string; [None; Some (u "P001")]]]
  = [{[ u "Patient ID" := u "" ]}].
Proof. vm_compute. reflexivity. Qed.

(** ** The error report *)

Lemma report_errors_acc errors : forall lines,
  report_errors errors lines
  = lines ++ List.map (fun err => u "- " ++ err) errors.
Proof.
  induction errors as [|err rest IH]; intros lines; cbn [report_errors].
  - rewrite app_nil_r. reflexivity.
  - rewrite IH, <- app_assoc. reflexivity.
Qed.

Lemma report_records_acc error_info : forall lines,
  report_records error_info lines
  = lines ++ List.concat (List.map report_block error_info).
Proof.
  induction error_info as [|[patient_id errors] rest IH]; intros lines;
    cbn [report_records].
  - rewrite app_nil_r. reflexivity.
  - rewrite IH, report_errors_acc. cbn [List.map List.concat].
    unfold report_block, report_heading. cbn [fst snd].
    rewrite <- !app_assoc. reflexivity.
Qed.

Lemma startswith_app p s : startswith p (p ++ s) = true.
Proof.
  induction p as [|x p IH]; [reflexivity|]. cbn. rewrite N.eqb_refl. exact IH.
Qed.

Lemma filter_heading_block entry :
  List.filter (startswith (u "Patient ID: ")) (report_block entry)
  = [report_heading entry].
Proof.
  unfold report_block. cbn [app List.filter].
  unfold report_heading at 1. rewrite startswith_app. f_equal.
  rewrite List.filter_app. cbn.
  induction entry.2 as [|err rest IH]; [reflexivity|]. exact IH.
Qed.

Lemma filter_error_block entry :
  List.filter (startswith (u "- ")) (report_block entry)
  = List.map (fun err => u "- " ++ err) entry.2.
Proof.
  unfold report_block. cbn [app List.filter].
  replace (startswith (u "- ") (report_heading entry)) with false
    by reflexivity.
  rewrite List.filter_app. cbn [List.filter].
  replace (startswith (u "- ") (u "")) with false by reflexivity.
  rewrite app_nil_r.
  induction entry.2 as [|err rest IH]; [reflexivity|].
  cbn [List.map List.filter]. rewrite startswith_app. f_equal. exact IH.
Qed.

Lemma report_lines_eq generated_at error_info total_count valid_count
    invalid_count :
  report_lines generated_at error_info total_count valid_count invalid_count
  = report_head generated_at total_count valid_count invalid_count
    ++ (if invalid_count =? 0 then [u "(none)"]
        else List.concat (List.map report_block error_info)).
Proof.
  unfold report_lines. destruct (invalid_count =? 0); [reflexivity|].
  rewrite report_records_acc. reflexivity.
Qed.

Lemma filter_heading_head generated_at total_count valid_count invalid_count :
  List.filter (startswith (u "Patient ID: "))
    (report_head generated_at total_count valid_count invalid_count) = [].
Proof. reflexivity. Qed.

Lemma filter_error_head generated_at total_count valid_count invalid_count :
  List.filter (startswith (u "- "))
    (report_head generated_at total_count valid_count invalid_count) = [].
Proof. reflexivity. Qed.

(** When [invalid_count] is not zero, the list [lines] holds the seven
    lines of the head and then, for each entry of [error_info] in order, a
    heading, its errors and an empty string. *)
Lemma report_lines_entries generated_at error_info total_count
    valid_count invalid_count :
  invalid_count <> 0 ->
  List.filter (startswith (u "Patient ID: "))
    (report_lines generated_at error_info total_count valid_count
       invalid_count)
  = List.map report_heading error_info
  /\ List.filter (startswith (u "- "))
       (report_lines generated_at error_info total_count valid_count
          invalid_count)
     = List.map (fun err => u "- " ++ err)
         (List.concat (List.map snd error_info))
  /\ length
       (report_lines generated_at error_info total_count valid_count
          invalid_count)
     = (7 + 2 * length error_info
        + length (List.concat (List.map snd error_info)))%nat.
Proof.
  intros Hne. rewrite report_lines_eq.
  destruct (Z.eqb_spec invalid_count 0) as [E|_]; [contradiction|].
  rewrite !List.filter_app, filter_heading_head, filter_error_head.
  rewrite length_app. cbn [app report_head length].
  repeat split.
  - induction error_info as [|entry rest IH]; [reflexivity|].
    cbn [List.map List.concat]. rewrite List.filter_app, IH.
    rewrite filter_heading_block. reflexivity.
  - induction error_info as [|entry rest IH]; [reflexivity|].
    cbn [List.map List.concat]. rewrite List.filter_app, IH.
    rewrite filter_error_block, List.map_app. reflexivity.
  - induction error_info as [|entry rest IH]; [reflexivity|].
    cbn [List.map List.concat]. rewrite !length_app in *.
    unfold report_block at 1. cbn [length app].
    rewrite length_app, length_map. cbn [length]. unfold str in *. lia.
Qed.

(** ** The CSV file *)

Lemma csv_run_app a : forall r b,
  csv_run r (a ++ b)
  = match csv_run r a with Some r' => csv_run r' b | None => None end.
Proof.
  induction a as [|c a IH]; intros r b; [reflexivity|].
  cbn [app csv_run]. destruct (csv_step r c); [apply IH|reflexivity].
Qed.

Lemma csv_run_plain s : forall field row rows,
  existsb csv_special s = false ->
  csv_run (mkReader Plain field row rows) s
  = Some (mkReader Plain (field ++ s) row rows).
Proof.
  induction s as [|c s IH]; intros field row rows H.
  - rewrite app_nil_r. reflexivity.
  - cbn [existsb] in H. apply orb_false_elim in H as [Hc Hs].
    unfold csv_special in Hc.
    apply orb_false_elim in Hc as [Hc H4].
    apply orb_false_elim in Hc as [Hc H3].
    apply orb_false_elim in Hc as [H1 H2].
    cbn [csv_run csv_step]. rewrite H1, H2, H3, H4.
    rewrite (IH _ _ _ Hs), <- app_assoc. reflexivity.
Qed.

Lemma csv_run_quoted s : forall field row rows,
  csv_run (mkReader Quoted field row rows) (csv_escape s)
  = Some (mkReader Quoted (field ++ s) row rows).
Proof.
  induction s as [|c s IH]; intros field row rows.
  - rewrite app_nil_r. reflexivity.
  - unfold csv_escape. cbn [flat_map]. fold (csv_escape s).
    destruct (N.eqb_spec c QUOTATION_MARK) as [->|Hc].
    + cbn [app csv_run csv_step]. rewrite N.eqb_refl.
      cbn [csv_run csv_step]. rewrite N.eqb_refl.
      rewrite IH, <- app_assoc. reflexivity.
    + cbn [app csv_run csv_step].
      destruct (N.eqb_spec c QUOTATION_MARK) as [E|_]; [contradiction|].
      rewrite IH, <- app_assoc. reflexivity.
Qed.

(** Reading a field as written, up to the quote that closes it. *)
Lemma csv_run_field s row rows :
  csv_run (mkReader Plain [] row rows) (csv_field s)
  = Some (mkReader (if existsb csv_special s then QuoteSeen else Plain)
            s row rows).
Proof.
  unfold csv_field. destruct (existsb csv_special s) eqn:E.
  - cbn [app csv_run csv_step]. rewrite N.eqb_refl.
    cbn iota. rewrite csv_run_app, csv_run_quoted.
    cbn [app csv_run csv_step]. rewrite N.eqb_refl. reflexivity.
  - apply csv_run_plain, E.
Qed.

Lemma csv_run_line_end s (b : bool) row rows :
  csv_run (mkReader (if b then QuoteSeen else Plain) s row rows)
    [CARRIAGE_RETURN; LINE_FEED]
  = Some (mkReader Plain [] [] (rows ++ [row ++ [s]])).
Proof. destruct b; reflexivity. Qed.

Lemma csv_run_fields fields : forall f row rows,
  csv_run (mkReader Plain [] row rows)
    (join [COMMA] (List.map csv_field (f :: fields))
     ++ [CARRIAGE_RETURN; LINE_FEED])
  = Some (mkReader Plain [] [] (rows ++ [row ++ f :: fields])).
Proof.
  induction fields as [|g fields IH]; intros f row rows.
  - cbn [List.map join]. rewrite csv_run_app, csv_run_field.
    apply csv_run_line_end.
  - change (join [COMMA] (List.map csv_field (f :: g :: fields)))
      with (csv_field f ++ [COMMA]
            ++ join [COMMA] (List.map csv_field (g :: fields))).
    rewrite <- !app_assoc. rewrite csv_run_app, csv_run_field.
    cbn [app csv_run].
    replace (csv_step _ COMMA)
      with (Some (mkReader Plain [] (row ++ [f]) rows))
      by (destruct (existsb csv_special f); reflexivity).
    rewrite IH. rewrite <- app_assoc. reflexivity.
Qed.

Lemma csv_run_row fields rows :
  fields <> [] ->
  csv_run (mkReader Plain [] [] rows) (csv_row fields)
  = Some (mkReader Plain [] [] (rows ++ [fields])).
Proof.
  intros Hne. destruct fields as [|f fields]; [contradiction|].
  unfold csv_row. destruct f as [|c f].
  - destruct fields as [|g fields]; [reflexivity|].
    apply (csv_run_fields (g :: fields) [] [] rows).
  - apply (csv_run_fields fields (c :: f) [] rows).
Qed.

Lemma write_rows_acc valid_records : forall f,
  write_rows valid_records f
  = f ++ List.concat
           (List.map (fun record => csv_row (record_values record))
              valid_records).
Proof.
  induction valid_records as [|record rest IH]; intros f; cbn [write_rows].
  - rewrite app_nil_r. reflexivity.
  - rewrite IH, <- app_assoc. reflexivity.
Qed.

Lemma csv_run_rows (table : list (list str)) : forall rows,
  List.Forall (fun fields => fields <> []) table ->
  csv_run (mkReader Plain [] [] rows) (List.concat (List.map csv_row table))
  = Some (mkReader Plain [] [] (rows ++ table)).
Proof.
  induction table as [|fields table IH]; intros rows H.
  - rewrite app_nil_r. reflexivity.
  - inversion H as [|? ? Hf Ht]; subst.
    cbn [List.map List.concat]. rewrite csv_run_app, (csv_run_row _ _ Hf).
    rewrite (IH _ Ht), <- app_assoc. reflexivity.
Qed.

(** The file can be read back: the header row, then the accepted records
    row by row. *)
Lemma csv_read_write_valid_csv valid_records :
  csv_read (write_valid_csv valid_records)
  = Some (fieldnames :: List.map record_values valid_records).
Proof.
  unfold write_valid_csv. rewrite write_rows_acc.
  rewrite <- (List.map_map record_values csv_row).
  change (csv_row fieldnames
          ++ List.concat (List.map csv_row
                            (List.map record_values valid_records)))
    with (List.concat (List.map csv_row
                         (fieldnames :: List.map record_values valid_records))).
  unfold csv_read. rewrite csv_run_rows; [reflexivity|].
  apply List.Forall_cons; [discriminate|].
  apply List.Forall_forall. intros fields Hin.
  apply in_map_iff in Hin as (record & <- & _). discriminate.
Qed.

Lemma cons_eq_inv {A} (x y : A) (l l' : list A) :
  x :: l = y :: l' -> x = y /\ l = l'.
Proof. intros E. injection E as -> ->. auto. Qed.

Lemma record_values_inj r1 r2 : record_values r1 = record_values r2 -> r1 = r2.
Proof.
  destruct r1, r2. unfold record_values. cbn. congruence.
Qed.

(** X19: the CSV text determines the list of records written: two lists of
    records with the same text are the same list, whatever characters
    (commas, quotes, line breaks) their fields hold. *)
Theorem write_valid_csv_injective records1 records2 :
  write_valid_csv records1 = write_valid_csv records2 ->
  records1 = records2.
Proof.
  intros E. apply (f_equal csv_read) in E.
  rewrite !csv_read_write_valid_csv in E. injection E as E.
  revert records2 E.
  induction records1 as [|r1 rest1 IH]; intros [|r2 rest2] E;
    try discriminate E; [reflexivity|].
  cbn [List.map] in E. apply cons_eq_inv in E as [E1 E2].
  f_equal; [apply record_values_inj, E1|apply IH, E2].
Qed.

(** X19 (witness): a record with a comma and a quote in its identifier. *)
Lemma write_valid_csv_injective_witness :
  [mkPatientRecord [chr "A"; COMMA; QUOTATION_MARK] (u "1234567897") (u "ON")
     (u "1990-05-15") (u "2025-01-01")]
  = [mkPatientRecord [chr "A"; COMMA; QUOTATION_MARK] (u "1234567897")
       (u "ON") (u "1990-05-15") (u "2025-01-01")].
Proof.
  apply write_valid_csv_injective. reflexivity.
Defined.

(** The row of that record. *)
Example write_valid_csv_quotes :
  write_valid_csv
    [mkPatientRecord [chr "A"; COMMA; QUOTATION_MARK] (u "1234567897")
       (u "ON") (u "1990-05-15") (u "2025-01-01")]
  = u "PatientID,HealthCardNumber,VersionCode,DateOfBirth,ServiceDate"
    ++ [CARRIAGE_RETURN; LINE_FEED]
    ++ [QUOTATION_MARK; chr "A"; COMMA; QUOTATION_MARK; QUOTATION_MARK;
        QUOTATION_MARK]
    ++ u ",1234567897,ON,1990-05-15,2025-01-01"
    ++ [CARRIAGE_RETURN; LINE_FEED].
Proof. reflexivity. Qed.

(** ** The run of main *)

Section MainFacts.
Context {U : Unicode}.

Lemma main_validate_counts raw_records today valid_records error_info
    total_count valid_count invalid_count :
  main_validate raw_records today
  = Ok (valid_records, error_info, (total_count, valid_count, invalid_count))
  ->
  total_count = length raw_records /\ valid_count = length valid_records
  /\ invalid_count = length error_info
  /\ (valid_count + invalid_count)%nat = total_count.
Proof.
  unfold main_validate. rewrite main_loop_eq.
  destruct (validate_each raw_records today) as [outcomes|] eqn:E;
    bind_simpl; [|discriminate].
  cbn [app]. intros [= <- <- <- <- <-].
  apply validate_each_outcomes in E.
  repeat split. apply partition_length. exact (Forall2_length _ _ _ E).
Qed.

(** The validation of a batch raises the exception of the first record
    whose validation raises. *)
Lemma validate_each_raises raw_records today e :
  validate_each raw_records today = Raise e <->
  exists before raw after,
    raw_records = before ++ raw :: after
    /\ List.Forall (fun r => exists o, validate_record r today = Ok o) before
    /\ validate_record raw today = Raise e.
Proof.
  induction raw_records as [|r rest IH]; cbn [validate_each].
  - split; [discriminate|]. intros (before & raw & after & E & _).
    destruct before; discriminate E.
  - destruct (validate_record r today) as [o|e'] eqn:Er; bind_simpl.
    + assert ((os ← validate_each rest today; Ok (o :: os)) = Raise e
              <-> validate_each rest today = Raise e) as ->.
      { destruct (validate_each rest today); bind_simpl; split; congruence. }
      rewrite IH. split.
      * intros (before & raw & after & -> & Hb & Hraw).
        exists (r :: before), raw, after. repeat split; eauto.
      * intros ([|b before] & raw & after & E & Hb & Hraw).
        -- injection E as -> ->. congruence.
        -- injection E as -> ->. inversion Hb; subst. eauto 8.
    + split.
      * intros [= ->]. exists [], r, rest. repeat split; auto.
      * intros ([|b before] & raw & after & E & Hb & Hraw).
        -- injection E as -> ->. congruence.
        -- injection E as -> ->. inversion Hb as [|? ? [o Ho] ?]; subst.
           congruence.
Qed.

Lemma main_validate_raises raw_records today e :
  main_validate raw_records today = Raise e <->
  validate_each raw_records today = Raise e.
Proof.
  unfold main_validate. rewrite main_loop_eq.
  destruct (validate_each raw_records today) as [outcomes|e']; bind_simpl;
    split; congruence.
Qed.

(** X21: when the pages give no record, [main] prints the warning and
    still writes both files: the CSV holds the header row only and the
    report the counts 0, 0, 0 and the line "(none)"; the date plays no
    part. *)
Theorem main_empty_batch pages today generated_at :
  extract_records_from_pdf pages = [] ->
  main pages today generated_at
  = Ok (mkOutputs [WARNING_NO_RECORDS; PROCESSING_COMPLETED]
          (csv_row fieldnames)
          (join [LINE_FEED]
             (report_head generated_at 0 0 0 ++ [u "(none)"]))).
Proof.
  intros E. unfold main. rewrite E. reflexivity.
Qed.

(** For the lists and counts of the validation loop, the list [lines] of
    the report holds "(none)" exactly when every record is accepted, and
    as many headings as there are rejected records. *)
Lemma report_lines_of_batch raw_records today generated_at valid_records
    error_info total_count valid_count invalid_count :
  main_validate raw_records today
  = Ok (valid_records, error_info, (total_count, valid_count, invalid_count))
  ->
  (In (u "(none)")
      (report_lines generated_at error_info (Z.of_nat total_count)
         (Z.of_nat valid_count) (Z.of_nat invalid_count))
   <-> length valid_records = length raw_records)
  /\ length
       (List.filter (startswith (u "Patient ID: "))
          (report_lines generated_at error_info (Z.of_nat total_count)
             (Z.of_nat valid_count) (Z.of_nat invalid_count)))
     = (length raw_records - length valid_records)%nat.
Proof.
  intros H. apply main_validate_counts in H as (-> & -> & -> & Hsum).
  rewrite report_lines_eq.
  destruct (Z.eqb_spec (Z.of_nat (length error_info)) 0) as [E|E].
  - assert (length error_info = 0%nat) as E0 by lia. split.
    + split; [intros _; lia|]. intros _. apply in_or_app. right. left.
      reflexivity.
    + rewrite List.filter_app, filter_heading_head. cbn [app].
      replace (List.filter _ [u "(none)"]) with (@nil str) by reflexivity.
      cbn [length]. lia.
  - split.
    + split; [|intros G; lia]. intros G. exfalso.
      apply in_app_or in G as [G|G].
      * cbn in G.
        repeat (destruct G as [G|G]; [discriminate G|]). exact G.
      * apply in_concat in G as (block & Hb & G).
        apply in_map_iff in Hb as (entry & <- & _).
        unfold report_block in G. cbn [app] in G.
        destruct G as [G|G]; [discriminate G|].
        apply in_app_or in G as [G|[G|[]]]; [|discriminate G].
        apply in_map_iff in G as (err & G & _). discriminate G.
    + rewrite List.filter_app, filter_heading_head. cbn [app].
      assert (forall l : list (str * list str),
                 List.filter (startswith (u "Patient ID: "))
                   (List.concat (List.map report_block l))
                 = List.map report_heading l) as Hf.
      { induction l as [|entry rest IH]; [reflexivity|].
        cbn [List.map List.concat]. rewrite List.filter_app, IH.
        rewrite filter_heading_block. reflexivity. }
      rewrite Hf, length_map. lia.
Qed.

End MainFacts.

(** X21 (witness): pages without records. *)
Lemma main_empty_batch_witness :
  @main unicode_excerpt pages_without_records sample_today
    (u "2025-01-01 09:00:00")
  = Ok (mkOutputs [WARNING_NO_RECORDS; PROCESSING_COMPLETED]
          (csv_row fieldnames)
          (join [LINE_FEED]
             (report_head (u "2025-01-01 09:00:00") 0 0 0 ++ [u "(none)"]))).
Proof.
  apply (@main_empty_batch unicode_excerpt). vm_compute. reflexivity.
Defined.

(** One record with a health card number of superscript digits: the run
    ends with [ValueError] and writes nothing, also for the record of the
    first page, which passes every rule. *)
Example main_superscript :
  @main unicode_excerpt pages_with_superscript sample_today
    (u "2025-01-01 09:00:00")
  = Raise ValueError.
Proof. vm_compute. reflexivity. Qed.

(** The run on the sample page. *)
Example main_sample :
  @main unicode_excerpt [sample_page] sample_today (u "2025-01-01 09:00:00")
  = Ok (mkOutputs [PROCESSING_COMPLETED]
          (u "PatientID,HealthCardNumber,VersionCode,DateOfBirth,ServiceDate"
           ++ [CARRIAGE_RETURN; LINE_FEED]
           ++ u "P001,1234567897,ON,1990-05-15,2025-01-01"
           ++ [CARRIAGE_RETURN; LINE_FEED])
          (u "ERROR REPORT" ++ [LINE_FEED]
           ++ u "Generated: 2025-01-01 09:00:00" ++ [LINE_FEED]
           ++ u "Total Records Processed: 1" ++ [LINE_FEED]
           ++ u "Valid Records: 1" ++ [LINE_FEED]
           ++ u "Invalid Records: 0" ++ [LINE_FEED]
           ++ [LINE_FEED]
           ++ u "INVALID RECORDS:" ++ [LINE_FEED]
           ++ u "(none)")).
Proof. vm_compute. reflexivity. Qed.

(** ** ISO dates read back *)

Lemma dec_digits_step f n acc :
  dec_digits (S f) n acc
  = if n <? 10 then digit_char (n mod 10) :: acc
    else dec_digits f (n / 10) (digit_char (n mod 10) :: acc).
Proof. reflexivity. Qed.

Ltac digits_eq :=
  repeat (apply (f_equal2 cons);
          [apply (f_equal digit_char); Z.div_mod_to_equations; lia|]);
  reflexivity.

Lemma log2_fuel n k :
  2 ^ k <= n -> 0 <= k -> (Z.to_nat k <= Z.to_nat (Z.log2 n))%nat.
Proof.
  intros H Hk. apply Z2Nat.inj_le; [lia|apply Z.log2_nonneg|].
  apply Z.log2_le_pow2; lia.
Qed.

Lemma zero_pad_4 y :
  0 <= y <= 9999 ->
  zero_pad 4 y
  = [digit_char (y / 1000); digit_char (y / 100 mod 10);
     digit_char (y / 10 mod 10); digit_char (y mod 10)].
Proof.
  intros Hy. unfold zero_pad.
  destruct (Z.ltb_spec y 10) as [H1|H1].
  { rewrite dec_digits_step. destruct (Z.ltb_spec y 10); [|lia].
    cbn [length Nat.sub repeat app].
    change 48%N with (digit_char 0).
    digits_eq. }
  pose proof (log2_fuel y 3 ltac:(cbn; lia) ltac:(lia)) as F3.
  destruct (Z.ltb_spec y 100) as [H2|H2].
  { destruct (Z.to_nat (Z.log2 y)) as [|f]; [cbn in F3; lia|].
    rewrite !dec_digits_step.
    destruct (Z.ltb_spec y 10); [lia|].
    destruct (Z.ltb_spec (y / 10) 10); [|Z.div_mod_to_equations; lia].
    cbn [length Nat.sub repeat app].
    change 48%N with (digit_char 0).
    digits_eq. }
  pose proof (log2_fuel y 6 ltac:(cbn; lia) ltac:(lia)) as F6.
  destruct (Z.ltb_spec y 1000) as [H3|H3].
  { destruct (Z.to_nat (Z.log2 y)) as [|[|f]]; [cbn in F6; lia ..|].
    rewrite !dec_digits_step.
    destruct (Z.ltb_spec y 10); [lia|].
    destruct (Z.ltb_spec (y / 10) 10); [Z.div_mod_to_equations; lia|].
    destruct (Z.ltb_spec (y / 10 / 10) 10); [|Z.div_mod_to_equations; lia].
    cbn [length Nat.sub repeat app].
    change 48%N with (digit_char 0).
    digits_eq. }
  pose proof (log2_fuel y 9 ltac:(cbn; lia) ltac:(lia)) as F9.
  destruct (Z.to_nat (Z.log2 y)) as [|[|[|f]]]; [cbn in F9; lia ..|].
  rewrite !dec_digits_step.
  destruct (Z.ltb_spec y 10); [lia|].
  destruct (Z.ltb_spec (y / 10) 10); [Z.div_mod_to_equations; lia|].
  destruct (Z.ltb_spec (y / 10 / 10) 10); [Z.div_mod_to_equations; lia|].
  destruct (Z.ltb_spec (y / 10 / 10 / 10) 10); [|Z.div_mod_to_equations; lia].
  cbn [length Nat.sub repeat app].
  digits_eq.
Qed.

Lemma zero_pad_2 m :
  0 <= m <= 99 ->
  zero_pad 2 m = [digit_char (m / 10); digit_char (m mod 10)].
Proof.
  intros Hm. unfold zero_pad.
  destruct (Z.ltb_spec m 10) as [H1|H1].
  { rewrite dec_digits_step. destruct (Z.ltb_spec m 10); [|lia].
    cbn [length Nat.sub repeat app].
    change 48%N with (digit_char 0).
    digits_eq. }
  pose proof (log2_fuel m 3 ltac:(cbn; lia) ltac:(lia)) as F3.
  destruct (Z.to_nat (Z.log2 m)) as [|f]; [cbn in F3; lia|].
  rewrite !dec_digits_step.
  destruct (Z.ltb_spec m 10); [lia|].
  destruct (Z.ltb_spec (m / 10) 10); [|Z.div_mod_to_equations; lia].
  cbn [length Nat.sub repeat app].
  digits_eq.
Qed.

Lemma digit_char_ascii v :
  0 <= v <= 9 ->
  is_ascii_digit (digit_char v) = true
  /\ ascii_digit_value (digit_char v) = v.
Proof.
  intros Hv. unfold is_ascii_digit, ascii_digit_value, digit_char. split.
  - apply andb_true_intro. split; apply N.leb_le; lia.
  - lia.
Qed.

Section IsoRoundTrip.
Context {U : Unicode}.

(** The two facts about the Unicode database that reading an ISO date
    needs: the ASCII digits are decimal characters with their values, and
    they are not white space. *)
Hypothesis ascii_decimal :
  forall c, is_ascii_digit c = true ->
            uni_decimal c = Some (ascii_digit_value c).
Hypothesis ascii_not_space :
  forall c, is_ascii_digit c = true -> uni_isspace c = false.

Lemma int_isspace_digit c : is_ascii_digit c = true -> int_isspace c = false.
Proof.
  unfold is_ascii_digit, int_isspace. intros H.
  apply andb_prop in H as [H1 H2]. apply N.leb_le in H1, H2.
  replace (c <=? 13)%N with false by (symmetry; apply N.leb_gt; lia).
  replace (c =? 32)%N with false by (symmetry; apply N.eqb_neq; lia).
  replace (128 <=? c)%N with false by (symmetry; apply N.leb_gt; lia).
  rewrite andb_false_r. reflexivity.
Qed.

Lemma int_lskip_digits s :
  forallb is_ascii_digit s = true -> int_lskip s = s.
Proof.
  destruct s as [|c t]; [reflexivity|]. cbn [forallb int_lskip].
  intros H. apply andb_prop in H as [Hc _].
  rewrite (int_isspace_digit _ Hc). reflexivity.
Qed.

Lemma int_digits_ascii s : forall acc,
  forallb is_ascii_digit s = true ->
  int_digits s acc
  = Ok (fold_left (fun a c => 10 * a + ascii_digit_value c) s acc).
Proof.
  induction s as [|c t IH]; intros acc H; [reflexivity|].
  cbn [forallb] in H. apply andb_prop in H as [Hc Ht].
  cbn [int_digits fold_left]. rewrite (ascii_decimal _ Hc). apply IH, Ht.
Qed.

Lemma py_int_ascii s :
  s <> [] -> forallb is_ascii_digit s = true ->
  py_int s = Ok (fold_left (fun a c => 10 * a + ascii_digit_value c) s 0).
Proof.
  intros Hne H. unfold py_int.
  rewrite (int_lskip_digits _ H).
  rewrite int_lskip_digits by (rewrite forallb_rev; exact H).
  rewrite rev_involutive. destruct s as [|c t]; [contradiction|].
  apply int_digits_ascii, H.
Qed.

Lemma re_match_digit c t :
  is_ascii_digit c = true -> re_match RDigit (c :: t) = [([c], t)].
Proof. intros H. cbn [re_match]. rewrite (ascii_decimal _ H). reflexivity. Qed.

Lemma re_match_year a b c d rest :
  is_ascii_digit a = true -> is_ascii_digit b = true ->
  is_ascii_digit c = true -> is_ascii_digit d = true ->
  re_match re_Y (a :: b :: c :: d :: rest) = [([a; b; c; d], rest)].
Proof.
  intros Ha Hb Hc Hd. unfold re_Y.
  change (re_match (RSeq ?r1 ?r2) ?s)
    with (flat_map
            (fun '(m1, s1) =>
               List.map (fun '(m2, s2) => (m1 ++ m2, s2)) (re_match r2 s1))
            (re_match r1 s)).
  rewrite (re_match_digit a _ Ha). cbn [flat_map app].
  change (re_match (RSeq ?r1 ?r2) ?s)
    with (flat_map
            (fun '(m1, s1) =>
               List.map (fun '(m2, s2) => (m1 ++ m2, s2)) (re_match r2 s1))
            (re_match r1 s)).
  rewrite (re_match_digit b _ Hb). cbn [flat_map app].
  change (re_match (RSeq ?r1 ?r2) ?s)
    with (flat_map
            (fun '(m1, s1) =>
               List.map (fun '(m2, s2) => (m1 ++ m2, s2)) (re_match r2 s1))
            (re_match r1 s)).
  rewrite (re_match_digit c _ Hc). cbn [flat_map app].
  rewrite (re_match_digit d _ Hd). reflexivity.
Qed.

Lemma format_match_dir k r items s :
  format_match (Dir k r :: items) s
  = flat_map
      (fun '(txt, s1) =>
         List.map (fun '(found, s2) => ((k, txt) :: found, s2))
           (format_match items s1))
      (re_match r s).
Proof. reflexivity. Qed.

Lemma format_match_lit c items x t :
  format_match (Lit c :: items) (x :: t)
  = if N.eqb x c then format_match items t else [].
Proof. reflexivity. Qed.

(** The month of an ISO date: the two digits and nothing else. *)
Lemma format_match_month k m items tail :
  1 <= m <= 12 ->
  format_match (Dir k re_m :: Lit (chr "-") :: items)
    (zero_pad 2 m ++ chr "-" :: tail)
  = List.map (fun '(found, s2) => ((k, zero_pad 2 m) :: found, s2))
      (format_match items tail).
Proof.
  intros Hm. rewrite format_match_dir.
  apply month_cases in Hm.
  repeat destruct Hm as [->|Hm]; try subst m;
    (set (R := re_match re_m _); vm_compute in R; subst R;
     cbn [flat_map]; rewrite !format_match_lit;
     change (chr "-") with 45%N; cbn [N.eqb Pos.eqb List.map app];
     rewrite app_nil_r; reflexivity).
Qed.

(** The day: the first match of the group takes both digits. *)
Lemma re_match_day d :
  1 <= d <= 31 ->
  exists more, re_match re_d (zero_pad 2 d) = (zero_pad 2 d, []) :: more.
Proof.
  intros Hd.
  assert (d = 1 \/ d = 2 \/ d = 3 \/ d = 4 \/ d = 5 \/ d = 6 \/ d = 7 \/ d =
          8 \/ d = 9 \/ d = 10 \/ d = 11 \/ d = 12 \/ d = 13 \/ d = 14 \/ d
          = 15 \/ d = 16 \/ d = 17 \/ d = 18 \/ d = 19 \/ d = 20 \/ d = 21
          \/ d = 22 \/ d = 23 \/ d = 24 \/ d = 25 \/ d = 26 \/ d = 27 \/ d =
          28 \/ d = 29 \/ d = 30 \/ d = 31) as Hc by lia.
  repeat destruct Hc as [->|Hc]; try subst d;
    (set (s := zero_pad 2 _); vm_compute in s; subst s;
     unfold re_d;
     cbn [re_match flat_map List.map app];
     change (chr "0") with 48%N; change (chr "1") with 49%N;
     change (chr "2") with 50%N; change (chr "3") with 51%N;
     change (chr "9") with 57%N; change (chr " ") with 32%N;
     cbn [N.eqb N.leb N.compare Pos.eqb Pos.compare Pos.compare_cont
          andb flat_map List.map app];
     repeat match goal with
            | |- context [uni_decimal ?c] =>
                rewrite (ascii_decimal c eq_refl)
            end;
     cbn [flat_map List.map app]; eexists; reflexivity).
Qed.

Lemma py_int_digit_chars (vs : list Z) :
  vs <> [] -> List.Forall (fun v => 0 <= v <= 9) vs ->
  py_int (List.map digit_char vs)
  = Ok (fold_left (fun a v => 10 * a + v) vs 0).
Proof.
  intros Hne Hvs. rewrite py_int_ascii.
  - f_equal. clear Hne. generalize 0.
    induction Hvs as [|v vs Hv _ IH]; intros acc; [reflexivity|].
    cbn [List.map fold_left].
    rewrite (proj2 (digit_char_ascii v Hv)). apply IH.
  - intros E. destruct vs; [contradiction|discriminate E].
  - clear Hne. induction Hvs as [|v vs Hv _ IH]; [reflexivity|].
    cbn [List.map forallb]. rewrite (proj1 (digit_char_ascii v Hv)). exact IH.
Qed.

Lemma py_int_4 a b c d :
  0 <= a <= 9 /\ 0 <= b <= 9 /\ 0 <= c <= 9 /\ 0 <= d <= 9 ->
  py_int [digit_char a; digit_char b; digit_char c; digit_char d]
  = Ok (1000 * a + 100 * b + 10 * c + d).
Proof.
  intros (Ha & Hb & Hc & Hd).
  change [digit_char a; digit_char b; digit_char c; digit_char d]
    with (List.map digit_char [a; b; c; d]).
  rewrite py_int_digit_chars by (try discriminate; repeat constructor; lia).
  cbn [fold_left]. f_equal; lia.
Qed.

Lemma py_int_2 a b :
  0 <= a <= 9 /\ 0 <= b <= 9 ->
  py_int [digit_char a; digit_char b] = Ok (10 * a + b).
Proof.
  intros (Ha & Hb).
  change [digit_char a; digit_char b] with (List.map digit_char [a; b]).
  rewrite py_int_digit_chars by (try discriminate; repeat constructor; lia).
  cbn [fold_left]. f_equal; lia.
Qed.

Lemma days_in_month_max y m : days_in_month y m <= 31.
Proof.
  unfold days_in_month. destruct ((m =? 2) && is_leap y); [lia|].
  destruct (Z.to_nat m) as [|[|[|[|[|[|[|[|[|[|[|[|[|[|n]]]]]]]]]]]]]];
    cbn; lia.
Qed.

(** [strptime] reads the ISO text of a date back. *)
Lemma strptime_isoformat x :
  date_valid x -> strptime (isoformat x) (u "%Y-%m-%d") = Ok x.
Proof.
  destruct x as [y m d]. unfold date_valid. cbn [year month day].
  intros Hok. pose proof (date_ok_bounds _ _ _ Hok) as (Hy & Hm & Hd).
  pose proof (days_in_month_max y m) as Hmax.
  unfold MINYEAR, MAXYEAR in Hy.
  unfold strptime.
  replace (pattern (u "%Y-%m-%d"))
    with (Ok [Dir (chr "Y") re_Y; Lit (chr "-"); Dir (chr "m") re_m;
              Lit (chr "-"); Dir (chr "d") re_d]) by reflexivity.
  bind_simpl. unfold isoformat. cbn [year month day].
  rewrite zero_pad_4 by lia.
  change (u "-") with [chr "-"]. cbn [app].
  assert (forall v, 0 <= v <= 9 -> is_ascii_digit (digit_char v) = true)
    as Hdig by (intros v Hv; apply digit_char_ascii, Hv).
  rewrite format_match_dir, re_match_year
    by (apply Hdig; Z.div_mod_to_equations; lia).
  cbn [flat_map]. rewrite format_match_lit, N.eqb_refl.
  rewrite format_match_month by lia.
  rewrite format_match_dir.
  destruct (re_match_day d ltac:(lia)) as [more ->].
  cbn [flat_map List.map app format_match truthy group_int].
  replace (N.eqb (chr "Y") (chr "Y")) with true by reflexivity.
  replace (N.eqb (chr "Y") (chr "m")) with false by reflexivity.
  replace (N.eqb (chr "m") (chr "m")) with true by reflexivity.
  replace (N.eqb (chr "Y") (chr "d")) with false by reflexivity.
  replace (N.eqb (chr "m") (chr "d")) with false by reflexivity.
  replace (N.eqb (chr "d") (chr "d")) with true by reflexivity.
  cbn iota.
  rewrite !zero_pad_2 by lia.
  rewrite py_int_4, !py_int_2 by (Z.div_mod_to_equations; lia).
  bind_simpl.
  replace (1000 * (y / 1000) + 100 * (y / 100 mod 10)
           + 10 * (y / 10 mod 10) + y mod 10) with y
    by (Z.div_mod_to_equations; lia).
  replace (10 * (m / 10) + m mod 10) with m
    by (Z.div_mod_to_equations; lia).
  replace (10 * (d / 10) + d mod 10) with d
    by (Z.div_mod_to_equations; lia).
  unfold new_date. rewrite Hok. reflexivity.
Qed.

Lemma isoformat_stripped x :
  date_valid x ->
  truthy (isoformat x) = true /\ strip (isoformat x) = isoformat x.
Proof.
  destruct x as [y m d]. unfold date_valid. cbn [year month day].
  intros Hok. pose proof (date_ok_bounds _ _ _ Hok) as (Hy & Hm & Hd).
  pose proof (days_in_month_max y m) as Hmax.
  unfold MINYEAR, MAXYEAR in Hy.
  unfold isoformat. cbn [year month day].
  rewrite zero_pad_4, !zero_pad_2 by lia.
  change (u "-") with [chr "-"]. cbn [app]. split; [reflexivity|].
  apply strip_fixed.
  - apply ascii_not_space, digit_char_ascii. Z.div_mod_to_equations; lia.
  - cbn [List.last].
    apply ascii_not_space, digit_char_ascii. Z.div_mod_to_equations; lia.
Qed.

Lemma parse_date_isoformat x :
  date_valid x -> parse_date (isoformat x) = Some x.
Proof.
  intros Hx. destruct (isoformat_stripped x Hx) as [Ht Hs].
  unfold parse_date. rewrite Hs, Ht.
  unfold patterns. cbn [try_patterns].
  rewrite (strptime_isoformat x Hx). reflexivity.
Qed.

(** X23: the ISO text of a valid date is read back as that date, and no
    error is added (given that the ASCII digits are decimal characters
    with their values and are not white space). *)
Theorem parse_date_flex_isoformat x field_name errors :
  date_valid x ->
  parse_date_flex (isoformat x) field_name errors = Ok (Some x, errors).
Proof.
  intros Hx. rewrite parse_date_flex_eq, (parse_date_isoformat x Hx).
  unfold parse_errors.
  destruct (isoformat_stripped x Hx) as [Ht Hs]. rewrite Hs, Ht.
  cbn [negb]. rewrite (parse_date_isoformat x Hx), app_nil_r. reflexivity.
Qed.

Lemma py_or_some (s : str) : py_or (Some s) (u "") = s.
Proof. destruct s; reflexivity. Qed.

Lemma replace_char_absent old s :
  ~ In old s -> replace_char old s = s.
Proof.
  unfold replace_char. induction s as [|c s IH]; intros H; [reflexivity|].
  cbn [List.filter]. destruct (N.eqb_spec c old) as [->|_].
  - exfalso. apply H. left. reflexivity.
  - cbn [negb]. f_equal. apply IH. intros G. apply H. right. exact G.
Qed.

Lemma raw_of_normalized_fields record :
  raw_of_normalized record !! u "Patient ID" = Some (PatientID record)
  /\ raw_of_normalized record !! u "Health Card Number"
     = Some (HealthCardNumber record)
  /\ raw_of_normalized record !! u "Version Code"
     = Some (VersionCode record)
  /\ raw_of_normalized record !! u "Date of Birth"
     = Some (DateOfBirth record)
  /\ raw_of_normalized record !! u "Service Date"
     = Some (ServiceDate record).
Proof.
  unfold raw_of_normalized.
  repeat split;
    repeat (rewrite lookup_insert_ne by discriminate);
    apply lookup_insert_eq.
Qed.

Lemma parse_errors_none field_name s :
  parse_errors field_name s = [] -> exists x, parse_date s = Some x.
Proof.
  unfold parse_errors.
  destruct (truthy (strip s)); cbn [negb]; [|discriminate].
  destruct (parse_date s) as [x|]; [eauto|].
  intros E. destruct field_name; discriminate E.
Qed.

Lemma parse_errors_some field_name s x :
  parse_date s = Some x -> parse_errors field_name s = [].
Proof.
  unfold parse_errors. intros E. rewrite E.
  unfold parse_date in E.
  destruct (truthy (strip s)); [reflexivity|discriminate E].
Qed.

Lemma rule5_none patient_id : rule5 patient_id [] = [] -> truthy patient_id = true.
Proof.
  unfold rule5. destruct (truthy patient_id); [reflexivity|discriminate].
Qed.

(** X24: validation is idempotent on what it accepts: the normalized
    record of an accepted record, put under the labels that
    [validate_record] reads, is accepted again on the same day and is
    normalized to itself. *)
Theorem validate_record_normalized_again raw_record today errs record :
  validate_record raw_record today = Ok (true, errs, Some record) ->
  validate_record (raw_of_normalized record) today
  = Ok (true, [], Some record).
Proof.
  intros H. apply validate_record_ok in H as (Hc & Hb & Hr).
  symmetry in Hb. apply Nat.eqb_eq in Hb.
  destruct errs as [|? ?]; [clear Hb|discriminate Hb].
  injection Hr as ->.
  unfold collect_errors in Hc. cbv zeta in Hc.
  destruct (rule1 (get_health_card raw_record) []) as [e1|] eqn:E1;
    bind_simpl in Hc; [|discriminate Hc].
  destruct (rule4 (parse_date (get_service_str raw_record))
              (parse_date (get_dob_str raw_record)) today [])
    as [e4|] eqn:E4; bind_simpl in Hc; [|discriminate Hc].
  injection Hc as Hc.
  apply app_eq_nil in Hc as [-> Hc]. apply app_eq_nil in Hc as [E2 Hc].
  apply app_eq_nil in Hc as [E3 Hc]. apply app_eq_nil in Hc as [E5 Hc].
  apply app_eq_nil in E3 as [P3 E3]. apply app_eq_nil in E5 as [P4 ->].
  apply parse_errors_none in P3 as [dob Hdob].
  apply parse_errors_none in P4 as [service_date Hsvc].
  rewrite Hdob, Hsvc in *.
  pose proof (parse_date_valid _ _ Hdob) as Vdob.
  pose proof (parse_date_valid _ _ Hsvc) as Vsvc.
  set (record := normalized raw_record (Some dob) (Some service_date)).
  destruct (raw_of_normalized_fields record) as (L1 & L2 & L3 & L4 & L5).
  assert (get_patient_id (raw_of_normalized record)
          = get_patient_id raw_record) as G1.
  { unfold get_patient_id at 1. rewrite L1.
    change (PatientID record) with (get_patient_id raw_record).
    unfold py_or at 1. rewrite (rule5_none _ Hc).
    unfold get_patient_id. apply strip_idempotent. }
  assert (get_health_card (raw_of_normalized record)
          = get_health_card raw_record) as G2.
  { unfold get_health_card at 1. rewrite L2, py_or_some.
    change (HealthCardNumber record) with (get_health_card raw_record).
    rewrite replace_char_absent.
    - unfold get_health_card. apply strip_idempotent.
    - unfold get_health_card. intros G. apply strip_incl in G.
      exact (replace_char_not_in _ _ G). }
  assert (get_version_code (raw_of_normalized record)
          = get_version_code raw_record) as G3.
  { unfold get_version_code at 1. rewrite L3, py_or_some.
    unfold record, normalized. cbn [VersionCode].
    unfold get_version_code. apply strip_idempotent. }
  assert (get_dob_str (raw_of_normalized record) = isoformat dob) as G4.
  { unfold get_dob_str. rewrite L4, py_or_some.
    apply isoformat_stripped, Vdob. }
  assert (get_service_str (raw_of_normalized record)
          = isoformat service_date) as G5.
  { unfold get_service_str. rewrite L5, py_or_some.
    apply isoformat_stripped, Vsvc. }
  rewrite validate_record_eq. unfold collect_errors. cbv zeta.
  rewrite G1, G2, G3, G4, G5.
  rewrite !(parse_date_isoformat _ Vdob), !(parse_date_isoformat _ Vsvc).
  rewrite E1, E4. bind_simpl.
  rewrite E2, E3, Hc.
  rewrite (parse_errors_some _ _ _ (parse_date_isoformat _ Vdob)).
  rewrite (parse_errors_some _ _ _ (parse_date_isoformat _ Vsvc)).
  cbn [app]. unfold decide_validity. cbn [length Nat.eqb negb].
  unfold normalized at 1. rewrite G1, G2, G3. reflexivity.
Qed.

End IsoRoundTrip.

Lemma excerpt_ascii_decimal c :
  is_ascii_digit c = true ->
  @uni_decimal unicode_excerpt c = Some (ascii_digit_value c).
Proof.
  unfold is_ascii_digit. intros H. apply andb_prop in H as [H1 H2].
  apply N.leb_le in H1, H2.
  assert (c = 48 \/ c = 49 \/ c = 50 \/ c = 51 \/ c = 52 \/ c = 53
          \/ c = 54 \/ c = 55 \/ c = 56 \/ c = 57)%N as C by lia.
  repeat destruct C as [->|C]; try subst c; reflexivity.
Qed.

Lemma excerpt_ascii_not_space c :
  is_ascii_digit c = true -> @uni_isspace unicode_excerpt c = false.
Proof.
  unfold is_ascii_digit. intros H. apply andb_prop in H as [H1 H2].
  apply N.leb_le in H1, H2.
  assert (c = 48 \/ c = 49 \/ c = 50 \/ c = 51 \/ c = 52 \/ c = 53
          \/ c = 54 \/ c = 55 \/ c = 56 \/ c = 57)%N as C by lia.
  repeat destruct C as [->|C]; try subst c; reflexivity.
Qed.

(** X23 (witness): the last day of February of the year 999, written
    "0999-02-28". *)
Lemma parse_date_flex_isoformat_witness :
  @parse_date_flex unicode_excerpt (isoformat (mkdate 999 2 28)) F_DOB []
  = Ok (Some (mkdate 999 2 28), []).
Proof.
  apply (@parse_date_flex_isoformat unicode_excerpt excerpt_ascii_decimal
           excerpt_ascii_not_space).
  reflexivity.
Defined.

(** X24 (witness): the normalized record of [record_slashes]. *)
Lemma validate_record_normalized_again_witness :
  @validate_record unicode_excerpt
    (raw_of_normalized
       (mkPatientRecord (u "P001") (u "1234567897") (u "ON")
          (u "1990-05-15") (u "2025-01-01")))
    sample_today
  = Ok (true, [],
        Some (mkPatientRecord (u "P001") (u "1234567897") (u "ON")
                (u "1990-05-15") (u "2025-01-01"))).
Proof.
  apply (@validate_record_normalized_again unicode_excerpt
           excerpt_ascii_decimal excerpt_ascii_not_space record_slashes
           sample_today []).
  vm_compute. reflexivity.
Defined.

(** ** The text of the error report *)

Lemma one_line_app a b : one_line (a ++ b) = one_line a && one_line b.
Proof.
  unfold one_line. rewrite existsb_app, negb_orb. reflexivity.
Qed.

Lemma split_lines_from_app l rest line :
  one_line l = true ->
  split_lines_from (l ++ rest) line = split_lines_from rest (line ++ l).
Proof.
  revert line. induction l as [|c l IH]; intros line H.
  - rewrite app_nil_r. reflexivity.
  - unfold one_line in H. cbn [existsb] in H.
    apply negb_true_iff, orb_false_elim in H as [Hc Hl].
    rewrite N.eqb_sym in Hc.
    cbn [app split_lines_from]. rewrite Hc, IH, <- app_assoc; [reflexivity|].
    unfold one_line. rewrite Hl. reflexivity.
Qed.

(** Joining lines that hold no line feed and splitting the text gives the
    lines back. *)
Lemma split_lines_join lines :
  lines <> [] -> forallb one_line lines = true ->
  split_lines (join [LINE_FEED] lines) = lines.
Proof.
  unfold split_lines. intros Hne H.
  destruct lines as [|l lines]; [contradiction|clear Hne].
  revert l H. induction lines as [|l' lines IH]; intros l H.
  - cbn [forallb] in H. rewrite andb_true_r in H. cbn [join].
    pose proof (split_lines_from_app l [] [] H) as E.
    rewrite app_nil_r in E. exact E.
  - cbn [forallb] in H. apply andb_prop in H as [Hl H].
    change (join [LINE_FEED] (l :: l' :: lines))
      with (l ++ LINE_FEED :: join [LINE_FEED] (l' :: lines)).
    rewrite split_lines_from_app by exact Hl.
    cbn [split_lines_from app]. rewrite N.eqb_refl.
    rewrite (IH l' H). reflexivity.
Qed.

Lemma dec_digits_one_line fuel : forall n acc,
  one_line acc = true -> one_line (dec_digits fuel n acc) = true.
Proof.
  induction fuel as [|f IH]; intros n acc H; [exact H|].
  rewrite dec_digits_step.
  assert (one_line (digit_char (n mod 10) :: acc) = true) as H'.
  { change (digit_char (n mod 10) :: acc)
      with ([digit_char (n mod 10)] ++ acc).
    rewrite one_line_app, H, andb_true_r. unfold one_line. cbn [existsb].
    rewrite orb_false_r. apply negb_true_iff, N.eqb_neq.
    unfold LINE_FEED, digit_char.
    pose proof (Z.mod_pos_bound n 10 ltac:(lia)). lia. }
  destruct (n <? 10); [exact H'|apply IH, H'].
Qed.

Lemma str_of_int_one_line n : one_line (str_of_int n) = true.
Proof.
  unfold str_of_int. destruct (n <? 0).
  - rewrite one_line_app. rewrite dec_digits_one_line; reflexivity.
  - apply dec_digits_one_line. reflexivity.
Qed.

Lemma report_head_one_line generated_at total_count valid_count
    invalid_count :
  one_line generated_at = true ->
  forallb one_line
    (report_head generated_at total_count valid_count invalid_count) = true.
Proof.
  intros H. unfold report_head. cbn [forallb].
  rewrite !one_line_app, H, !str_of_int_one_line. reflexivity.
Qed.

Lemma report_heading_one_line entry :
  one_line entry.1 = true -> one_line (report_heading entry) = true.
Proof.
  intros H. unfold report_heading. rewrite one_line_app.
  destruct (truthy entry.1); [rewrite H|]; reflexivity.
Qed.

Lemma report_block_one_line entry :
  entry_one_line entry = true -> forallb one_line (report_block entry) = true.
Proof.
  unfold entry_one_line, report_block.
  intros H. apply andb_prop in H as [H1 H2].
  cbn [app forallb]. rewrite (report_heading_one_line _ H1).
  cbn [andb]. rewrite forallb_app. cbn [forallb].
  replace (one_line (u "")) with true by reflexivity. rewrite andb_true_r.
  induction entry.2 as [|err rest IH]; [reflexivity|].
  cbn [forallb List.map] in H2 |- *. apply andb_prop in H2 as [He Hr].
  rewrite one_line_app, He, (IH Hr). reflexivity.
Qed.

Lemma report_lines_one_line generated_at error_info total_count valid_count
    invalid_count :
  one_line generated_at = true ->
  forallb entry_one_line error_info = true ->
  forallb one_line
    (report_lines generated_at error_info total_count valid_count
       invalid_count) = true.
Proof.
  intros Hg He. rewrite report_lines_eq, forallb_app.
  rewrite (report_head_one_line _ _ _ _ Hg). cbn [andb].
  destruct (invalid_count =? 0); [reflexivity|].
  induction error_info as [|entry rest IH]; [reflexivity|].
  cbn [forallb] in He. apply andb_prop in He as [H1 H2].
  cbn [List.map List.concat]. rewrite forallb_app.
  rewrite (report_block_one_line _ H1), (IH H2). reflexivity.
Qed.

(** The lines of the text written are the lines of the list, when the
    identifiers, the messages and the time text hold no line feed. *)
Lemma split_lines_report generated_at error_info total_count valid_count
    invalid_count :
  one_line generated_at = true ->
  forallb entry_one_line error_info = true ->
  split_lines
    (write_error_report generated_at error_info total_count valid_count
       invalid_count)
  = report_lines generated_at error_info total_count valid_count
      invalid_count.
Proof.
  intros Hg He. unfold write_error_report. apply split_lines_join.
  - rewrite report_lines_eq. discriminate.
  - apply report_lines_one_line; assumption.
Qed.

(** X18: the text of the error report, read line by line.  When
    [invalid_count] is not zero and neither the time text nor an
    identifier or a message of [error_info] holds a line feed, the lines of
    the text that start with "Patient ID: " are the headings of the
    entries, one for each, in order (with the placeholder for an empty
    identifier); the lines that start with "- " are the messages of all
    entries, in order; and the text has seven lines, then two lines and
    its messages for each entry. *)
Theorem report_lists_every_entry generated_at error_info total_count
    valid_count invalid_count :
  invalid_count <> 0 ->
  one_line generated_at = true ->
  forallb entry_one_line error_info = true ->
  List.filter (startswith (u "Patient ID: "))
    (split_lines
       (write_error_report generated_at error_info total_count valid_count
          invalid_count))
  = List.map report_heading error_info
  /\ List.filter (startswith (u "- "))
       (split_lines
          (write_error_report generated_at error_info total_count
             valid_count invalid_count))
     = List.map (fun err => u "- " ++ err)
         (List.concat (List.map snd error_info))
  /\ length
       (split_lines
          (write_error_report generated_at error_info total_count
             valid_count invalid_count))
     = (7 + 2 * length error_info
        + length (List.concat (List.map snd error_info)))%nat.
Proof.
  intros Hne Hg He. rewrite (split_lines_report _ _ _ _ _ Hg He).
  apply report_lines_entries, Hne.
Qed.

(** X18 (witness): a report of two entries, the second without
    identifier. *)
Lemma report_lists_every_entry_witness :
  List.filter (startswith (u "Patient ID: "))
    (split_lines
       (write_error_report (u "2025-01-01 09:00:00")
          [(u "P001", [E_HC_LENGTH; E_VC_UPPER]); (u "", [E_ID_MISSING])]
          3 1 2))
  = [u "Patient ID: P001"; u "Patient ID: <MISSING_PATIENT_ID>"]
  /\ List.filter (startswith (u "- "))
       (split_lines
          (write_error_report (u "2025-01-01 09:00:00")
             [(u "P001", [E_HC_LENGTH; E_VC_UPPER]); (u "", [E_ID_MISSING])]
             3 1 2))
     = [u "- " ++ E_HC_LENGTH; u "- " ++ E_VC_UPPER; u "- " ++ E_ID_MISSING]
  /\ length
       (split_lines
          (write_error_report (u "2025-01-01 09:00:00")
             [(u "P001", [E_HC_LENGTH; E_VC_UPPER]); (u "", [E_ID_MISSING])]
             3 1 2))
     = 14%nat.
Proof.
  apply (report_lists_every_entry (u "2025-01-01 09:00:00")
           [(u "P001", [E_HC_LENGTH; E_VC_UPPER]); (u "", [E_ID_MISSING])]
           3 1 2).
  - discriminate.
  - reflexivity.
  - reflexivity.
Defined.

(** An identifier that holds a line feed (the cells of a table can, and
    [strip] keeps an inner one) spreads over lines of the text: here one
    entry gives two lines that read as headings. *)
Example report_line_feed_in_identifier :
  List.filter (startswith (u "Patient ID: "))
    (split_lines
       (write_error_report (u "2025-01-01 09:00:00")
          [(u "P001" ++ [LINE_FEED] ++ u "Patient ID: P999", [E_HC_LUHN])]
          1 0 1))
  = [u "Patient ID: P001"; u "Patient ID: P999"].
Proof. vm_compute. reflexivity. Qed.

Section ReportOfBatch.
Context {U : Unicode}.

Lemma rule_of_one_line m : rule_of m <> 0%nat -> one_line m = true.
Proof.
  assert (forall l, existsb (str_eqb m) l = true ->
                    forallb one_line l = true -> one_line m = true) as Hin.
  { intros l H1 H2. apply existsb_exists in H1 as (x & Hx & E).
    apply str_eqb_eq in E. subst x.
    rewrite forallb_forall in H2. apply H2, Hx. }
  unfold rule_of.
  destruct (existsb (str_eqb m) RULE1_MESSAGES) eqn:E1;
    [intros _; apply (Hin _ E1); reflexivity|].
  destruct (existsb (str_eqb m) RULE2_MESSAGES) eqn:E2;
    [intros _; apply (Hin _ E2); reflexivity|].
  destruct (existsb (str_eqb m) RULE3_MESSAGES) eqn:E3;
    [intros _; apply (Hin _ E3); reflexivity|].
  destruct (existsb (str_eqb m) RULE4_MESSAGES) eqn:E4;
    [intros _; apply (Hin _ E4); reflexivity|].
  destruct (existsb (str_eqb m) RULE5_MESSAGES) eqn:E5;
    [intros _; apply (Hin _ E5); reflexivity|].
  intros H. contradiction.
Qed.

(** The messages of [validate_record] hold no line feed. *)
Lemma validate_record_messages_one_line raw_record today b errs rec :
  validate_record raw_record today = Ok (b, errs, rec) ->
  forallb one_line errs = true.
Proof.
  intros H. apply validate_record_errors in H
    as (e1 & e4 & _ & _ & -> & F1 & F2 & F3 & F4 & F5).
  assert (forall k l, k <> 0%nat ->
                      List.Forall (fun x => rule_of x = k) l ->
                      forallb one_line l = true) as Hk.
  { intros k l Hk F. apply forallb_forall. intros x Hx.
    rewrite List.Forall_forall in F. apply rule_of_one_line.
    rewrite (F x Hx). exact Hk. }
  rewrite !forallb_app.
  rewrite (Hk 1%nat _ ltac:(discriminate) F1).
  rewrite (Hk 2%nat _ ltac:(discriminate) F2).
  rewrite <- forallb_app, (Hk 3%nat _ ltac:(discriminate) F3).
  rewrite <- forallb_app, (Hk 4%nat _ ltac:(discriminate) F4).
  rewrite (Hk 5%nat _ ltac:(discriminate) F5). reflexivity.
Qed.

Lemma rejected_one_line raw_records today (outcomes : list outcome) :
  Forall2 (fun raw o => validate_record raw today = Ok o)
    raw_records outcomes ->
  forallb (fun raw => one_line (get_patient_id raw)) raw_records = true ->
  forallb entry_one_line (omap rejected (zip raw_records outcomes)) = true.
Proof.
  induction 1 as [|raw o rest os Ho _ IH]; [reflexivity|].
  cbn [forallb]. intros H. apply andb_prop in H as [Hid Hrest].
  specialize (IH Hrest).
  destruct o as [[b errs] rec].
  pose proof (validate_record_messages_one_line _ _ _ _ _ Ho) as He.
  cbn [zip zip_with]. unfold omap in IH |- *. cbn [list_omap].
  fold (zip rest os).
  destruct b, rec as [r|]; cbn [rejected]; try exact IH;
    cbn [forallb]; rewrite IH; unfold entry_one_line; cbn [fst snd];
    rewrite Hid, He; reflexivity.
Qed.

Lemma main_validate_one_line raw_records today valid_records error_info
    counts :
  main_validate raw_records today = Ok (valid_records, error_info, counts) ->
  forallb (fun raw => one_line (get_patient_id raw)) raw_records = true ->
  forallb entry_one_line error_info = true.
Proof.
  unfold main_validate. rewrite main_loop_eq.
  destruct (validate_each raw_records today) as [outcomes|] eqn:E;
    bind_simpl; [|discriminate].
  cbn [app]. intros [= <- <- <-] Hids.
  apply validate_each_outcomes in E.
  exact (rejected_one_line _ _ _ E Hids).
Qed.

(** X22: the text of the report that [main] writes for a batch, read line
    by line, when neither the time text nor an identifier of the batch
    holds a line feed: the line "(none)" is there exactly when every
    record is accepted, and the number of lines that start with
    "Patient ID: " is the number of records less the number of accepted
    records. *)
Theorem report_of_batch raw_records today generated_at valid_records
    error_info total_count valid_count invalid_count :
  main_validate raw_records today
  = Ok (valid_records, error_info, (total_count, valid_count, invalid_count))
  ->
  one_line generated_at = true ->
  forallb (fun raw => one_line (get_patient_id raw)) raw_records = true ->
  (In (u "(none)")
      (split_lines
         (write_error_report generated_at error_info (Z.of_nat total_count)
            (Z.of_nat valid_count) (Z.of_nat invalid_count)))
   <-> length valid_records = length raw_records)
  /\ length
       (List.filter (startswith (u "Patient ID: "))
          (split_lines
             (write_error_report generated_at error_info
                (Z.of_nat total_count) (Z.of_nat valid_count)
                (Z.of_nat invalid_count))))
     = (length raw_records - length valid_records)%nat.
Proof.
  intros H Hg Hids.
  rewrite (split_lines_report _ _ _ _ _ Hg
             (main_validate_one_line _ _ _ _ _ H Hids)).
  apply (report_lines_of_batch raw_records today). exact H.
Qed.

End ReportOfBatch.

(** X22 (witness): a batch of three records, one of them rejected. *)
Lemma report_of_batch_witness :
  exists error_info,
    (In (u "(none)")
        (split_lines
           (write_error_report (u "2025-01-01 09:00:00") error_info 3 2 1))
     <-> 2%nat = 3%nat)
    /\ length
         (List.filter (startswith (u "Patient ID: "))
            (split_lines
               (write_error_report (u "2025-01-01 09:00:00") error_info
                  3 2 1)))
       = 1%nat.
Proof.
  eexists.
  apply (@report_of_batch unicode_excerpt
           [record_ok; record_B; record_183]
           sample_today (u "2025-01-01 09:00:00")
           [mkPatientRecord (u "P001") (u "1234567897") (u "ON")
              (u "1990-05-15") (u "2025-01-01");
            mkPatientRecord (u "P001") (u "1234567897") (u "ON")
              (u "1990-05-15") (u "2024-07-02")]
           _ 3%nat 2%nat 1%nat).
  - vm_compute. reflexivity.
  - reflexivity.
  - vm_compute. reflexivity.
Defined.

(** With a line feed in an identifier the text of a batch with one
    rejected record can hold a line "(none)" and a second heading. *)
Example report_of_batch_line_feed :
  exists error_info,
    @main_validate unicode_excerpt
      [<[u "Patient ID" :=
           u "P001" ++ [LINE_FEED] ++ u "(none)" ++ [LINE_FEED]
           ++ u "Patient ID: P999"]> record_B]
      sample_today
    = Ok ([], error_info, (1, 0, 1)%nat)
    /\ In (u "(none)")
         (split_lines
            (write_error_report (u "2025-01-01 09:00:00") error_info 1 0 1))
    /\ length
         (List.filter (startswith (u "Patient ID: "))
            (split_lines
               (write_error_report (u "2025-01-01 09:00:00") error_info
                  1 0 1)))
       = 2%nat.
Proof.
  eexists. split; [vm_compute; reflexivity|]. split.
  - vm_compute. tauto.
  - vm_compute. reflexivity.
Qed.

(** ** The run of main with its files *)

Lemma encodable_app a b : encodable (a ++ b) = encodable a && encodable b.
Proof. apply forallb_app. Qed.

Lemma encodable_concat chunks :
  encodable (List.concat chunks) = forallb encodable chunks.
Proof.
  induction chunks as [|c rest IH]; [reflexivity|].
  cbn [List.concat forallb]. rewrite encodable_app, IH. reflexivity.
Qed.

(** Either every chunk is written, or the file stops before the first
    chunk that cannot be encoded. *)
Lemma write_chunks_spec chunks : forall f,
  (forallb encodable chunks = true
   /\ write_chunks chunks f = (f ++ List.concat chunks, true))
  \/ (exists before chunk after,
         chunks = before ++ chunk :: after
         /\ forallb encodable before = true
         /\ encodable chunk = false
         /\ write_chunks chunks f = (f ++ List.concat before, false)).
Proof.
  induction chunks as [|c rest IH]; intros f.
  - left. cbn. rewrite app_nil_r. auto.
  - cbn [write_chunks forallb]. destruct (encodable c) eqn:Ec.
    + destruct (IH (f ++ c))
        as [[Hall ->]|(before & chunk & after & -> & Hb & Hc & ->)].
      * left. cbn [List.concat andb]. rewrite <- app_assoc. auto.
      * right. exists (c :: before), chunk, after.
        cbn [forallb List.concat app]. rewrite Ec, Hb, <- app_assoc. auto.
    + right. exists [], c, rest. cbn. rewrite app_nil_r. auto.
Qed.

Lemma write_valid_csv_chunks valid_records :
  write_valid_csv valid_records
  = List.concat
      (csv_row fieldnames
       :: List.map (fun record => csv_row (record_values record))
            valid_records).
Proof. unfold write_valid_csv. apply write_rows_acc. Qed.

Section MainRunFacts.
Context {U : Unicode}.

(** X20: a run of [main], from the extraction on, ends with an uncaught
    exception in two cases only.  (1) [validate_record] raises for one of
    the extracted records: the exception is that of the first such record,
    and neither file is opened, whatever the other records are.  (2) Every
    record is validated, but the text of the CSV or of the report holds a
    surrogate code point, which the utf-8 file refuses
    ([UnicodeEncodeError]): when it is in the CSV, that file keeps the
    header and the rows before the first row that holds one, and the
    report is not opened; otherwise the CSV is complete and the report
    file is left empty.  When there is no exception, both files hold their
    whole text and the last line printed is "Processing completed.". *)
Theorem main_raises pages today generated_at :
  (forall e,
      run_raised (main_run pages today generated_at)
      = Some (FromValidation e) <->
      exists before raw after,
        extract_records_from_pdf pages = before ++ raw :: after
        /\ List.Forall (fun r => exists o, validate_record r today = Ok o)
             before
        /\ validate_record raw today = Raise e)
  /\ (forall e,
         run_raised (main_run pages today generated_at)
         = Some (FromValidation e) ->
         run_valid_csv (main_run pages today generated_at) = None
         /\ run_error_report (main_run pages today generated_at) = None)
  /\ (forall valid_records error_info total_count valid_count invalid_count,
         main_validate (extract_records_from_pdf pages) today
         = Ok (valid_records, error_info,
               (total_count, valid_count, invalid_count)) ->
         let csv := write_valid_csv valid_records in
         let report :=
           write_error_report generated_at error_info (Z.of_nat total_count)
             (Z.of_nat valid_count) (Z.of_nat invalid_count) in
         (run_raised (main_run pages today generated_at)
          = Some UnicodeEncodeError <->
          encodable csv = false \/ encodable report = false)
         /\ (run_raised (main_run pages today generated_at) = None <->
             encodable csv = true /\ encodable report = true)
         /\ (encodable csv = true -> encodable report = true ->
             run_valid_csv (main_run pages today generated_at) = Some csv
             /\ run_error_report (main_run pages today generated_at)
                = Some report
             /\ exists printed,
                  run_stdout (main_run pages today generated_at)
                  = printed ++ [PROCESSING_COMPLETED]
                  /\ main pages today generated_at
                     = Ok (mkOutputs (printed ++ [PROCESSING_COMPLETED])
                             csv report))
         /\ (encodable csv = true -> encodable report = false ->
             run_valid_csv (main_run pages today generated_at) = Some csv
             /\ run_error_report (main_run pages today generated_at)
                = Some [])
         /\ (encodable csv = false ->
             run_error_report (main_run pages today generated_at) = None
             /\ exists before record after,
                  valid_records = before ++ record :: after
                  /\ encodable (write_valid_csv before) = true
                  /\ encodable (csv_row (record_values record)) = false
                  /\ run_valid_csv (main_run pages today generated_at)
                     = Some (write_valid_csv before))).
Proof.
  split; [|split].
  - intros e. rewrite <- validate_each_raises, <- main_validate_raises.
    unfold main_run.
    destruct (main_validate (extract_records_from_pdf pages) today)
      as [[[valid_records error_info]
             [[total_count valid_count] invalid_count]]|e'].
    + destruct (write_chunks _ []) as [csv [|]];
        [destruct (write_chunks [_] []) as [text [|]]|];
        cbn [run_raised]; split; discriminate.
    + cbn [run_raised]. split; congruence.
  - intros e. unfold main_run.
    destruct (main_validate (extract_records_from_pdf pages) today)
      as [[[valid_records error_info]
             [[total_count valid_count] invalid_count]]|e'].
    + destruct (write_chunks _ []) as [csv [|]];
        [destruct (write_chunks [_] []) as [text [|]]|];
        cbn [run_raised]; discriminate.
    + cbn [run_valid_csv run_error_report]. auto.
  - intros valid_records error_info total_count valid_count invalid_count H.
    cbv zeta. unfold main_run, main. rewrite H. bind_simpl.
    rewrite (write_valid_csv_chunks valid_records).
    set (rows := csv_row fieldnames :: _).
    set (report := write_error_report _ _ _ _ _).
    destruct (write_chunks_spec rows [])
      as [[Hall ->]|(before & chunk & after & Hrows & Hb & Hc & ->)].
    + rewrite encodable_concat, Hall. cbn [app write_chunks].
      destruct (encodable report) eqn:Er;
        cbn [run_raised run_valid_csv run_error_report run_stdout app].
      * repeat split; try discriminate; try tauto; try congruence.
        -- intros [G|G]; discriminate G.
        -- eexists. split; reflexivity.
      * repeat split; try discriminate; try tauto; try congruence.
        intros [_ G]. discriminate G.
    + assert (forallb encodable rows = false) as Hno.
      { rewrite Hrows, forallb_app. cbn [forallb]. rewrite Hc.
        rewrite andb_false_l. apply andb_false_r. }
      rewrite encodable_concat, Hno.
      cbn [app run_raised run_valid_csv run_error_report run_stdout].
      repeat split; try discriminate; try tauto; try congruence.
      * intros [G _]. discriminate G.
      * destruct before as [|header before].
        -- exfalso. cbn [app] in Hrows. injection Hrows as <- _.
           vm_compute in Hc. discriminate Hc.
        -- cbn [app] in Hrows. injection Hrows as <- Hrest.
           apply map_eq_app in Hrest
             as (rs1 & rs2 & -> & <- & Hrest).
           destruct rs2 as [|record rs2]; [discriminate Hrest|].
           cbn [List.map] in Hrest. injection Hrest as <- <-.
           exists rs1, record, rs2.
           rewrite (write_valid_csv_chunks rs1), encodable_concat.
           repeat split; auto.
Qed.

End MainRunFacts.

(** A record with a lone surrogate in its identifier is accepted; the run
    stops when its row is written: the CSV keeps the header and the row of
    the first record, and there is no report. *)
Example main_run_surrogate :
  @main_run unicode_excerpt pages_with_surrogate sample_today
    (u "2025-01-01 09:00:00")
  = mkRun []
      (Some (u "PatientID,HealthCardNumber,VersionCode,DateOfBirth,ServiceDate"
             ++ [CARRIAGE_RETURN; LINE_FEED]
             ++ u "P001,1234567897,ON,1990-05-15,2025-01-01"
             ++ [CARRIAGE_RETURN; LINE_FEED]))
      None (Some UnicodeEncodeError).
Proof. vm_compute. reflexivity. Qed.

(** A record that makes [validate_record] raise: nothing is written. *)
Example main_run_superscript :
  @main_run unicode_excerpt pages_with_superscript sample_today
    (u "2025-01-01 09:00:00")
  = mkRun [] None None (Some (FromValidation ValueError)).
Proof. vm_compute. reflexivity. Qed.

(** ** luhn_check for any Unicode database *)

(** X3: for every Unicode database, [luhn_check] returns [False] on every
    string that fails [str.isdigit] (the empty string included); and when
    the database has the ASCII digits as digits with their decimal values,
    it returns on a non-empty string of ASCII digits the MOD-10 result
    computed the way the specification words it. *)
Theorem luhn_check_matches_reference (U : Unicode) number :
  (@isdigit U number = false -> @luhn_check U number = Ok false)
  /\ ((forall c, is_ascii_digit c = true ->
                 @uni_isdigit U c = true
                 /\ @uni_decimal U c = Some (ascii_digit_value c)) ->
      number <> [] -> forallb is_ascii_digit number = true ->
      @luhn_check U number
      = Ok (luhn_reference (List.map ascii_digit_value number))).
Proof.
  split; [apply luhn_check_not_isdigit|].
  intros HU Hne Hall.
  assert (forall c, is_ascii_digit c = true ->
                    @uni_decimal U c = Some (ascii_digit_value c)) as Hdec
    by (intros c Hc; apply HU, Hc).
  apply luhn_check_decimal.
  - unfold isdigit. destruct number as [|c t]; [contradiction|].
    cbn [truthy andb]. clear Hne.
    induction (c :: t) as [|x l IH]; [reflexivity|].
    cbn [forallb] in Hall |- *. apply andb_prop in Hall as [Hx Hl].
    rewrite (proj1 (HU x Hx)). apply IH, Hl.
  - clear Hne. induction number as [|c t IH]; [reflexivity|].
    cbn [forallb] in Hall. apply andb_prop in Hall as [Hc Ht].
    cbn [int_each List.map].
    rewrite (@py_int_ascii U Hdec [c]);
      [|discriminate|cbn [forallb]; rewrite Hc; reflexivity].
    bind_simpl. rewrite (IH Ht). bind_simpl. cbn [fold_left].
    reflexivity.
Qed.

(** X3 (witness): the excerpt has the ASCII digits as digits with their
    values; the number 1234567897. *)
Lemma luhn_check_matches_reference_witness :
  (@isdigit unicode_excerpt (u "1234567897") = false ->
   @luhn_check unicode_excerpt (u "1234567897") = Ok false)
  /\ @luhn_check unicode_excerpt (u "1234567897")
     = Ok (luhn_reference [1; 2; 3; 4; 5; 6; 7; 8; 9; 7]).
Proof.
  destruct (luhn_check_matches_reference unicode_excerpt (u "1234567897"))
    as [H1 H2].
  split; [exact H1|]. apply H2.
  - intros c Hc. split; [apply ascii_digit_cases, Hc|].
    apply excerpt_ascii_decimal, Hc.
  - discriminate.
  - reflexivity.
Defined.
